(** * The Parquet column-chunk writer (parquet/column_writer.cc)

    A shallow embedding of the level encoder, the page assembly state
    machine of [ColumnWriter] / [TypedColumnWriter] and the writer factory,
    followed by the properties of the column-chunk writer specification.

    Conventions of the embedding.
    - [int64_t] counters are mathematical integers: signed overflow is
      undefined behaviour in C++, so such executions are outside the model.
      Narrowing conversions ([static_cast<int>], [static_cast<int32_t>]) are
      defined and are written out with [cast_int].
    - A byte is an integer in [0, 256); buffers are lists of bytes.  The
      host is little-endian, as the code base assumes when it stores an
      [int32_t] through a reinterpreted byte pointer.
    - A method of a class is a computation in the monad [M St], which
      threads the object state and stops at the first exception, keeping
      the state the object had when the exception was thrown.
    - [DCHECK]s are debug-build assertions; the model is the release build,
      where they compile to nothing.
    - Collaborators that live outside column_writer.cc (Arrow's RLE encoder
      and bit writer, the value encoders, the statistics accumulators) are
      interfaces: type classes whose operations the writer calls. *)

From Stdlib Require Import String Ascii ZArith List Bool Lia.
From Stdlib Require Import DecimalString.
Import ListNotations.
Open Scope Z_scope.

Set Implicit Arguments.

(* ------------------------------------------------------------------ *)
(** ** Machine integers and bytes *)

Definition wrap_signed (bits : Z) (x : Z) : Z :=
  let m := 2 ^ bits in (x + m / 2) mod m - m / 2.

(** [static_cast<int>(x)] and [static_cast<int32_t>(x)]. *)
Definition cast_int (x : Z) : Z := wrap_signed 32 x.

Definition byte := Z.

(** The object representation of an [int16_t] and of an [int32_t]. *)
Definition int16_bytes (v : Z) : list byte :=
  [v mod 256; (v / 256) mod 256].

Definition int32_bytes (v : Z) : list byte :=
  [v mod 256; (v / 256) mod 256; (v / 65536) mod 256; (v / 16777216) mod 256].

(** [reinterpret_cast<const uint8_t*>(levels)] over [n] levels. *)
Definition bytes_of_levels (levels : list Z) : list byte :=
  flat_map int16_bytes levels.

(** [reinterpret_cast<const int16_t*>(buffer.data())]. *)
Fixpoint levels_of_bytes (bs : list byte) : list Z :=
  match bs with
  | b0 :: b1 :: rest => wrap_signed 16 (b0 + 256 * b1) :: levels_of_bytes rest
  | _ => []
  end.

(** The first [n] elements of the array a pointer designates.  A read past
    the end of the array is undefined behaviour in C++; the model reads
    what the array holds. *)
Definition array_prefix {A} (n : Z) (a : list A) : list A :=
  firstn (Z.to_nat n) a.

(** Pointer arithmetic: [&a[offset]]. *)
Definition array_from {A} (offset : Z) (a : list A) : list A :=
  skipn (Z.to_nat offset) a.

(* ------------------------------------------------------------------ *)
(** ** Buffers *)

(** [ResizableBuffer::Resize(n, false)]: the common prefix is kept.  The
    allocation is taken to succeed: the status is OK, so that the
    [PARQUET_THROW_NOT_OK] around a [Resize] never throws. *)
Definition Resize (n : Z) (buf : list byte) : list byte :=
  firstn (Z.to_nat n) buf ++ repeat 0 (Z.to_nat n - length buf)%nat.

(** A store of [src] at offset [off] of [buf]; the buffer keeps its size. *)
Definition write_at (off : nat) (src buf : list byte) : list byte :=
  firstn off buf ++ firstn (length buf - off) src ++ skipn (off + length src) buf.

(** [memcpy(dst + off, src, n)]. *)
Definition memcpy (off : nat) (src : list byte) (n : Z) (dst : list byte)
  : list byte :=
  write_at off (firstn (Z.to_nat n) src) dst.

Definition buffer_size (buf : list byte) : Z := Z.of_nat (length buf).

(* ------------------------------------------------------------------ *)
(** ** Enumerations of parquet/types.h *)

Module Encoding.
(** Modelled from the spec: the encodings of parquet/types.h (the header
    is not part of the sources); the enumerators are those the writer and
    the specification name. *)
Inductive type : Set :=
| PLAIN
| PLAIN_DICTIONARY
| RLE
| BIT_PACKED
| RLE_DICTIONARY.

Definition eqb (a b : type) : bool :=
  match a, b with
  | PLAIN, PLAIN | PLAIN_DICTIONARY, PLAIN_DICTIONARY | RLE, RLE
  | BIT_PACKED, BIT_PACKED | RLE_DICTIONARY, RLE_DICTIONARY => true
  | _, _ => false
  end.
End Encoding.

Module Type_.
(** Modelled from the spec: the physical types of parquet/types.h.
    [UNDEFINED] stands for any value of the enumeration type outside the
    eight enumerators, which the factory's [default] branch handles. *)
Inductive type : Set :=
| BOOLEAN
| INT32
| INT64
| INT96
| FLOAT
| DOUBLE
| BYTE_ARRAY
| FIXED_LEN_BYTE_ARRAY
| UNDEFINED.

Definition is_BOOLEAN (t : type) : bool :=
  match t with BOOLEAN => true | _ => false end.
End Type_.

(* ------------------------------------------------------------------ *)
(** ** Exceptions and the method monad *)

(** Modelled from the spec: parquet/exception.h is not part of the sources.
    [ParquetException msg] is [throw ParquetException(msg)];
    [NotImplemented msg] is what [ParquetException::NYI(msg)] throws, the
    specification's not-implemented error.  [UndefinedBehaviour what] is
    not an exception: it marks an execution C++ gives no meaning to (a null
    dereference), so that no theorem about a normal or a failing return
    silently covers it. *)
Inductive exn : Set :=
| ParquetException (msg : string)
| NotImplemented (msg : string)
| UndefinedBehaviour (what : string).

Inductive outcome (St A : Type) : Type :=
| Ret (a : A) (s : St)
| Raise (e : exn) (s : St).

Arguments Ret {St A} a s.
Arguments Raise {St A} e s.

Definition M (St A : Type) : Type := St -> outcome St A.

Definition ret {St A} (a : A) : M St A := fun s => Ret a s.

Definition bind {St A B} (c : M St A) (k : A -> M St B) : M St B :=
  fun s => match c s with
           | Ret a s' => k a s'
           | Raise e s' => Raise e s'
           end.

Definition throw {St A} (e : exn) : M St A := fun s => Raise e s.
Definition gets {St A} (f : St -> A) : M St A := fun s => Ret (f s) s.
Definition modify {St} (f : St -> St) : M St unit := fun s => Ret tt (f s).

(** [when c m]: the statement [if (c) m;]. *)
Definition when {St} (c : bool) (m : M St unit) : M St unit :=
  if c then m else ret tt.

Declare Scope method_scope.
Delimit Scope method_scope with method.
Notation "x <- c ;; k" := (bind c (fun x => k))
  (at level 61, c at next level, right associativity) : method_scope.
Notation "c ;; k" := (bind c (fun _ => k))
  (at level 61, right associativity) : method_scope.
Open Scope method_scope.

(** The state an outcome leaves the object in. *)
Definition state_of {St A} (o : outcome St A) : St :=
  match o with Ret _ s => s | Raise _ s => s end.

(** A call on a member object: run [c] on the member read by [proj] and
    store the member's new state with [upd]. *)
Definition on_member {St Sub A} (proj : St -> Sub) (upd : Sub -> St -> St)
  (c : M Sub A) : M St A :=
  fun s => match c (proj s) with
           | Ret a m => Ret a (upd m s)
           | Raise e m => Raise e (upd m s)
           end.

(* ------------------------------------------------------------------ *)
(** ** arrow/util/bit-util.h *)

Module BitUtil.
(** Modelled from the spec: the bit width of a level stream is
    [ceil(log2(max_level + 1))]. *)
Definition Log2 (x : Z) : Z := Z.log2_up x.

Definition Ceil (value divisor : Z) : Z :=
  Z.quot value divisor + (if Z.rem value divisor =? 0 then 0 else 1).
End BitUtil.

(* ------------------------------------------------------------------ *)
(** ** Arrow's RLE encoder and bit writer, as interfaces *)

Class RleEncoderOps (R : Type) : Type := {
  (** [RleEncoder(data, data_size, bit_width)] *)
  RleEncoder_new : Z -> Z -> R;
  (** [Put(value)]: false when the buffer is full *)
  RleEncoder_Put : R -> Z -> bool * R;
  RleEncoder_Flush : R -> R;
  (** the bytes [data[0, len())] the encoder has produced in its region *)
  RleEncoder_data : R -> list byte;
  RleEncoder_MaxBufferSize : Z -> Z -> Z;
  RleEncoder_MinBufferSize : Z -> Z
}.

Definition RleEncoder_len {R} `{RleEncoderOps R} (r : R) : Z :=
  Z.of_nat (length (RleEncoder_data r)).

Class BitWriterOps (BW : Type) : Type := {
  (** [BitWriter(data, num_bytes)] *)
  BitWriter_new : Z -> BW;
  (** [PutValue(value, num_bits)] *)
  BitWriter_PutValue : BW -> Z -> Z -> bool * BW;
  BitWriter_Flush : BW -> BW
}.

(* ------------------------------------------------------------------ *)
(** ** LevelEncoder *)

Module LevelEncoder.
Section WithEncoders.
Context {R BW : Type} {rle_ops : RleEncoderOps R} {bw_ops : BitWriterOps BW}.

Record t : Type := {
  bit_width_ : Z;
  rle_length_ : Z;
  encoding_ : Encoding.type;
  rle_encoder_ : option R;
  bit_packed_encoder_ : option BW
}.

(** [LevelEncoder::LevelEncoder() {}]: both encoder pointers are null; the
    scalar members are not initialised, the model gives them fixed
    values. *)
Definition new : t :=
  {| bit_width_ := 0; rle_length_ := 0; encoding_ := Encoding.RLE;
     rle_encoder_ := None; bit_packed_encoder_ := None |}.

Definition set_bit_width_ (v : Z) (le : t) : t :=
  {| bit_width_ := v; rle_length_ := rle_length_ le;
     encoding_ := encoding_ le; rle_encoder_ := rle_encoder_ le;
     bit_packed_encoder_ := bit_packed_encoder_ le |}.
Definition set_rle_length_ (v : Z) (le : t) : t :=
  {| bit_width_ := bit_width_ le; rle_length_ := v;
     encoding_ := encoding_ le; rle_encoder_ := rle_encoder_ le;
     bit_packed_encoder_ := bit_packed_encoder_ le |}.
Definition set_encoding_ (v : Encoding.type) (le : t) : t :=
  {| bit_width_ := bit_width_ le; rle_length_ := rle_length_ le;
     encoding_ := v; rle_encoder_ := rle_encoder_ le;
     bit_packed_encoder_ := bit_packed_encoder_ le |}.
Definition set_rle_encoder_ (v : option R) (le : t) : t :=
  {| bit_width_ := bit_width_ le; rle_length_ := rle_length_ le;
     encoding_ := encoding_ le; rle_encoder_ := v;
     bit_packed_encoder_ := bit_packed_encoder_ le |}.
Definition set_bit_packed_encoder_ (v : option BW) (le : t) : t :=
  {| bit_width_ := bit_width_ le; rle_length_ := rle_length_ le;
     encoding_ := encoding_ le; rle_encoder_ := rle_encoder_ le;
     bit_packed_encoder_ := v |}.

Definition Init (encoding : Encoding.type)
  (max_level num_buffered_values data_size : Z) : M t unit :=
  modify (set_bit_width_ (BitUtil.Log2 (max_level + 1))) ;;
  modify (set_encoding_ encoding) ;;
  bit_width <- gets bit_width_ ;;
  match encoding with
  | Encoding.RLE =>
      modify (set_rle_encoder_ (Some (RleEncoder_new data_size bit_width)))
  | Encoding.BIT_PACKED =>
      let num_bytes :=
        cast_int (BitUtil.Ceil (num_buffered_values * bit_width) 8) in
      modify (set_bit_packed_encoder_ (Some (BitWriter_new num_bytes)))
  | _ => throw (ParquetException "Unknown encoding type for levels.")
  end.

(** A static member: it runs in any state and leaves it alone. *)
Definition MaxBufferSize {St} (encoding : Encoding.type)
  (max_level num_buffered_values : Z) : M St Z :=
  let bit_width := BitUtil.Log2 (max_level + 1) in
  match encoding with
  | Encoding.RLE =>
      ret (RleEncoder_MaxBufferSize bit_width num_buffered_values +
           RleEncoder_MinBufferSize bit_width)
  | Encoding.BIT_PACKED =>
      ret (cast_int (BitUtil.Ceil (num_buffered_values * bit_width) 8))
  | _ => throw (ParquetException "Unknown encoding type for levels.")
  end.

(** The two [for] loops of [Encode]: they stop at the first level the
    encoder has no room for. *)
Fixpoint rle_put_loop (r : R) (levels : list Z) (num_encoded : Z) : R * Z :=
  match levels with
  | [] => (r, num_encoded)
  | level :: rest =>
      let (ok, r') := RleEncoder_Put r level in
      if ok then rle_put_loop r' rest (num_encoded + 1)
      else (r', num_encoded)
  end.

Fixpoint bit_packed_put_loop (b : BW) (bit_width : Z) (levels : list Z)
  (num_encoded : Z) : BW * Z :=
  match levels with
  | [] => (b, num_encoded)
  | level :: rest =>
      let (ok, b') := BitWriter_PutValue b level bit_width in
      if ok then bit_packed_put_loop b' bit_width rest (num_encoded + 1)
      else (b', num_encoded)
  end.

Definition Encode (batch_size : Z) (levels : list Z) : M t Z :=
  le <- gets (fun le => le) ;;
  match rle_encoder_ le, bit_packed_encoder_ le with
  | None, None => throw (ParquetException "Level encoders are not initialized.")
  | _, _ =>
      if Encoding.eqb (encoding_ le) Encoding.RLE then
        match rle_encoder_ le with
        | None => throw (UndefinedBehaviour "null rle_encoder_")
        | Some r =>
            let (r1, num_encoded) :=
              rle_put_loop r (array_prefix batch_size levels) 0 in
            let r2 := RleEncoder_Flush r1 in
            modify (set_rle_encoder_ (Some r2)) ;;
            modify (set_rle_length_ (RleEncoder_len r2)) ;;
            ret num_encoded
        end
      else
        match bit_packed_encoder_ le with
        | None => throw (UndefinedBehaviour "null bit_packed_encoder_")
        | Some b =>
            let (b1, num_encoded) :=
              bit_packed_put_loop b (bit_width_ le)
                (array_prefix batch_size levels) 0 in
            modify (set_bit_packed_encoder_ (Some (BitWriter_Flush b1))) ;;
            ret num_encoded
        end
  end.

(** Modelled from the spec: [len()] is declared in parquet/column_writer.h,
    which is not part of the sources; it is the length of the encoded
    stream of an RLE encoder. *)
Definition len : M t Z :=
  le <- gets (fun le => le) ;;
  if Encoding.eqb (encoding_ le) Encoding.RLE then ret (rle_length_ le)
  else throw (ParquetException "Only implemented for RLE encoding").

(** The bytes the RLE encoder has written through the pointer it was
    initialised with. *)
Definition rle_bytes (le : t) : list byte :=
  match rle_encoder_ le with
  | Some r => RleEncoder_data r
  | None => []
  end.
End WithEncoders.
Arguments t R BW : clear implicits.
End LevelEncoder.

(* ------------------------------------------------------------------ *)
(** ** Descriptors, properties and pages *)

Record ColumnDescriptor : Type := {
  physical_type : Type_.type;
  path : string;
  max_definition_level : Z;
  max_repetition_level : Z;
  (** [schema_node()->is_optional()] *)
  is_optional : bool
}.

Record WriterProperties : Type := {
  encoding : string -> Encoding.type;
  dictionary_enabled : string -> bool;
  dictionary_page_encoding : Encoding.type;
  dictionary_index_encoding : Encoding.type;
  dictionary_pagesize_limit : Z;
  data_pagesize : Z;
  write_batch_size : Z;
  statistics_enabled : string -> bool
}.

(** [CompressedDataPage(buffer, num_values, encoding,
    definition_level_encoding, repetition_level_encoding,
    uncompressed_size, statistics)]. *)
Record CompressedDataPage (ES : Type) : Type := {
  dp_buffer : list byte;
  dp_num_values : Z;
  dp_encoding : Encoding.type;
  dp_definition_level_encoding : Encoding.type;
  dp_repetition_level_encoding : Encoding.type;
  dp_uncompressed_size : Z;
  dp_statistics : ES
}.

(** [DictionaryPage(buffer, num_values, encoding)]. *)
Record DictionaryPage : Type := {
  dict_buffer : list byte;
  dict_num_values : Z;
  dict_encoding : Encoding.type
}.

(** What the page writer receives, in the order it receives it. *)
Inductive Page (ES : Type) : Type :=
| DataPage (p : CompressedDataPage ES)
| DictPage (p : DictionaryPage).

Arguments DataPage {ES} p.
Arguments DictPage {ES} p.

(** The page writer is the boundary of the model: it records the pages it
    is handed ([written], oldest first) and the arguments of [Close]. *)
Record PageWriter (ES : Type) : Type := {
  compressor : option (list byte -> list byte);
  written : list (Page ES);
  closed_with : option (bool * bool)
}.

Definition set_written {ES} (v : list (Page ES)) (p : PageWriter ES)
  : PageWriter ES :=
  {| compressor := compressor p; written := v; closed_with := closed_with p |}.

Definition set_closed_with {ES} (v : option (bool * bool)) (p : PageWriter ES)
  : PageWriter ES :=
  {| compressor := compressor p; written := written p; closed_with := v |}.

(** The byte counts the page writer reports for a page. *)
Class PageWriterOps (ES : Type) : Type := {
  data_page_bytes_written : CompressedDataPage ES -> Z;
  dictionary_page_bytes_written : DictionaryPage -> Z
}.

Module PageWriter_.
Section WithOps.
Context {ES : Type} {pw_ops : PageWriterOps ES}.

Definition has_compressor (p : PageWriter ES) : bool :=
  match compressor p with Some _ => true | None => false end.

Definition Compress (p : PageWriter ES) (src : list byte) : list byte :=
  match compressor p with Some f => f src | None => src end.

Definition WriteDataPage (page : CompressedDataPage ES)
  : M (PageWriter ES) Z :=
  modify (fun p => set_written (written p ++ [DataPage page]) p) ;;
  ret (data_page_bytes_written page).

Definition WriteDictionaryPage (page : DictionaryPage)
  : M (PageWriter ES) Z :=
  modify (fun p => set_written (written p ++ [DictPage page]) p) ;;
  ret (dictionary_page_bytes_written page).

Definition Close (has_dictionary fallback : bool) : M (PageWriter ES) unit :=
  modify (set_closed_with (Some (has_dictionary, fallback))).
End WithOps.
End PageWriter_.

(* ------------------------------------------------------------------ *)
(** ** Value encoders and statistics, as interfaces *)

(** [Encoder<DType>] with its two implementations; the operations of
    [DictEncoder] are those the writer reaches through
    [static_cast<DictEncoder<Type>*>]. *)
Class EncoderOps (T E : Type) : Type := {
  PlainEncoder_new : ColumnDescriptor -> E;
  DictEncoder_new : ColumnDescriptor -> E;
  (** [Put(values, num_values)] *)
  Encoder_Put : E -> list T -> Z -> E;
  (** [PutSpaced(values, num_values, valid_bits, valid_bits_offset)] *)
  Encoder_PutSpaced : E -> list T -> Z -> list byte -> Z -> E;
  Encoder_EstimatedDataEncodedSize : E -> Z;
  Encoder_FlushValues : E -> list byte * E;
  DictEncoder_dict_encoded_size : E -> Z;
  (** the bytes [WriteDict(buffer)] stores at [buffer] *)
  DictEncoder_WriteDict : E -> list byte;
  (** [mem_pool()->FreeAll()] *)
  DictEncoder_FreeAll : E -> E;
  DictEncoder_num_entries : E -> Z
}.

(** [TypedRowGroupStatistics<DType>] and [EncodedStatistics]. *)
Class StatisticsOps (T S ES : Type) : Type := {
  TypedStats_new : ColumnDescriptor -> S;
  (** [Update(values, num_not_null, num_null)] *)
  Stats_Update : S -> list T -> Z -> Z -> S;
  (** [UpdateSpaced(values, valid_bits, valid_bits_offset, num_not_null,
      num_null)] *)
  Stats_UpdateSpaced : S -> list T -> list byte -> Z -> Z -> Z -> S;
  Stats_Encode : S -> ES;
  Stats_Merge : S -> S -> S;
  Stats_Reset : S -> S;
  (** a default-constructed [EncodedStatistics] *)
  EncodedStatistics_new : ES;
  EncodedStatistics_is_set : ES -> bool
}.

(* ------------------------------------------------------------------ *)
(** ** ColumnWriter and TypedColumnWriter *)

Section ColumnWriter.
Context {T E S ES R BW : Type}
        {rle_ops : RleEncoderOps R} {bw_ops : BitWriterOps BW}
        {enc_ops : EncoderOps T E} {stats_ops : StatisticsOps T S ES}
        {pw_ops : PageWriterOps ES}.

(** The members of [ColumnWriter] and [TypedColumnWriter<Type>].
    [metadata_] is the statistics the metadata builder has been given by
    [SetStatistics]; the level sinks are the bytes of their
    [InMemoryOutputStream]; allocators are not modelled. *)
Record ColumnWriter : Type := {
  descr_ : ColumnDescriptor;
  metadata_ : option ES;
  pager_ : PageWriter ES;
  expected_rows_ : Z;
  has_dictionary_ : bool;
  encoding_ : Encoding.type;
  properties_ : WriterProperties;
  num_buffered_values_ : Z;
  num_buffered_encoded_values_ : Z;
  num_rows_ : Z;
  total_bytes_written_ : Z;
  closed_ : bool;
  fallback_ : bool;
  definition_levels_sink_ : list byte;
  repetition_levels_sink_ : list byte;
  definition_levels_rle_ : list byte;
  repetition_levels_rle_ : list byte;
  uncompressed_data_ : list byte;
  compressed_data_ : list byte;
  level_encoder_ : LevelEncoder.t R BW;
  data_pages_ : list (CompressedDataPage ES);
  current_encoder_ : E;
  page_statistics_ : option S;
  chunk_statistics_ : option S
}.

(** Assignment to one member. *)
Definition set_metadata_ (v : option ES) (w : ColumnWriter)
  : ColumnWriter :=
  {| descr_ := descr_ w; metadata_ := v; pager_ := pager_ w;
     expected_rows_ := expected_rows_ w;
     has_dictionary_ := has_dictionary_ w; encoding_ := encoding_ w;
     properties_ := properties_ w;
     num_buffered_values_ := num_buffered_values_ w;
     num_buffered_encoded_values_ := num_buffered_encoded_values_ w;
     num_rows_ := num_rows_ w;
     total_bytes_written_ := total_bytes_written_ w; closed_ := closed_ w;
     fallback_ := fallback_ w;
     definition_levels_sink_ := definition_levels_sink_ w;
     repetition_levels_sink_ := repetition_levels_sink_ w;
     definition_levels_rle_ := definition_levels_rle_ w;
     repetition_levels_rle_ := repetition_levels_rle_ w;
     uncompressed_data_ := uncompressed_data_ w;
     compressed_data_ := compressed_data_ w;
     level_encoder_ := level_encoder_ w; data_pages_ := data_pages_ w;
     current_encoder_ := current_encoder_ w;
     page_statistics_ := page_statistics_ w;
     chunk_statistics_ := chunk_statistics_ w |}.

Definition set_pager_ (v : PageWriter ES) (w : ColumnWriter)
  : ColumnWriter :=
  {| descr_ := descr_ w; metadata_ := metadata_ w; pager_ := v;
     expected_rows_ := expected_rows_ w;
     has_dictionary_ := has_dictionary_ w; encoding_ := encoding_ w;
     properties_ := properties_ w;
     num_buffered_values_ := num_buffered_values_ w;
     num_buffered_encoded_values_ := num_buffered_encoded_values_ w;
     num_rows_ := num_rows_ w;
     total_bytes_written_ := total_bytes_written_ w; closed_ := closed_ w;
     fallback_ := fallback_ w;
     definition_levels_sink_ := definition_levels_sink_ w;
     repetition_levels_sink_ := repetition_levels_sink_ w;
     definition_levels_rle_ := definition_levels_rle_ w;
     repetition_levels_rle_ := repetition_levels_rle_ w;
     uncompressed_data_ := uncompressed_data_ w;
     compressed_data_ := compressed_data_ w;
     level_encoder_ := level_encoder_ w; data_pages_ := data_pages_ w;
     current_encoder_ := current_encoder_ w;
     page_statistics_ := page_statistics_ w;
     chunk_statistics_ := chunk_statistics_ w |}.

Definition set_encoding_ (v : Encoding.type) (w : ColumnWriter)
  : ColumnWriter :=
  {| descr_ := descr_ w; metadata_ := metadata_ w; pager_ := pager_ w;
     expected_rows_ := expected_rows_ w;
     has_dictionary_ := has_dictionary_ w; encoding_ := v;
     properties_ := properties_ w;
     num_buffered_values_ := num_buffered_values_ w;
     num_buffered_encoded_values_ := num_buffered_encoded_values_ w;
     num_rows_ := num_rows_ w;
     total_bytes_written_ := total_bytes_written_ w; closed_ := closed_ w;
     fallback_ := fallback_ w;
     definition_levels_sink_ := definition_levels_sink_ w;
     repetition_levels_sink_ := repetition_levels_sink_ w;
     definition_levels_rle_ := definition_levels_rle_ w;
     repetition_levels_rle_ := repetition_levels_rle_ w;
     uncompressed_data_ := uncompressed_data_ w;
     compressed_data_ := compressed_data_ w;
     level_encoder_ := level_encoder_ w; data_pages_ := data_pages_ w;
     current_encoder_ := current_encoder_ w;
     page_statistics_ := page_statistics_ w;
     chunk_statistics_ := chunk_statistics_ w |}.

Definition set_num_buffered_values_ (v : Z) (w : ColumnWriter)
  : ColumnWriter :=
  {| descr_ := descr_ w; metadata_ := metadata_ w; pager_ := pager_ w;
     expected_rows_ := expected_rows_ w;
     has_dictionary_ := has_dictionary_ w; encoding_ := encoding_ w;
     properties_ := properties_ w; num_buffered_values_ := v;
     num_buffered_encoded_values_ := num_buffered_encoded_values_ w;
     num_rows_ := num_rows_ w;
     total_bytes_written_ := total_bytes_written_ w; closed_ := closed_ w;
     fallback_ := fallback_ w;
     definition_levels_sink_ := definition_levels_sink_ w;
     repetition_levels_sink_ := repetition_levels_sink_ w;
     definition_levels_rle_ := definition_levels_rle_ w;
     repetition_levels_rle_ := repetition_levels_rle_ w;
     uncompressed_data_ := uncompressed_data_ w;
     compressed_data_ := compressed_data_ w;
     level_encoder_ := level_encoder_ w; data_pages_ := data_pages_ w;
     current_encoder_ := current_encoder_ w;
     page_statistics_ := page_statistics_ w;
     chunk_statistics_ := chunk_statistics_ w |}.

Definition set_num_buffered_encoded_values_ (v : Z) (w : ColumnWriter)
  : ColumnWriter :=
  {| descr_ := descr_ w; metadata_ := metadata_ w; pager_ := pager_ w;
     expected_rows_ := expected_rows_ w;
     has_dictionary_ := has_dictionary_ w; encoding_ := encoding_ w;
     properties_ := properties_ w;
     num_buffered_values_ := num_buffered_values_ w;
     num_buffered_encoded_values_ := v; num_rows_ := num_rows_ w;
     total_bytes_written_ := total_bytes_written_ w; closed_ := closed_ w;
     fallback_ := fallback_ w;
     definition_levels_sink_ := definition_levels_sink_ w;
     repetition_levels_sink_ := repetition_levels_sink_ w;
     definition_levels_rle_ := definition_levels_rle_ w;
     repetition_levels_rle_ := repetition_levels_rle_ w;
     uncompressed_data_ := uncompressed_data_ w;
     compressed_data_ := compressed_data_ w;
     level_encoder_ := level_encoder_ w; data_pages_ := data_pages_ w;
     current_encoder_ := current_encoder_ w;
     page_statistics_ := page_statistics_ w;
     chunk_statistics_ := chunk_statistics_ w |}.

Definition set_num_rows_ (v : Z) (w : ColumnWriter)
  : ColumnWriter :=
  {| descr_ := descr_ w; metadata_ := metadata_ w; pager_ := pager_ w;
     expected_rows_ := expected_rows_ w;
     has_dictionary_ := has_dictionary_ w; encoding_ := encoding_ w;
     properties_ := properties_ w;
     num_buffered_values_ := num_buffered_values_ w;
     num_buffered_encoded_values_ := num_buffered_encoded_values_ w;
     num_rows_ := v; total_bytes_written_ := total_bytes_written_ w;
     closed_ := closed_ w; fallback_ := fallback_ w;
     definition_levels_sink_ := definition_levels_sink_ w;
     repetition_levels_sink_ := repetition_levels_sink_ w;
     definition_levels_rle_ := definition_levels_rle_ w;
     repetition_levels_rle_ := repetition_levels_rle_ w;
     uncompressed_data_ := uncompressed_data_ w;
     compressed_data_ := compressed_data_ w;
     level_encoder_ := level_encoder_ w; data_pages_ := data_pages_ w;
     current_encoder_ := current_encoder_ w;
     page_statistics_ := page_statistics_ w;
     chunk_statistics_ := chunk_statistics_ w |}.

Definition set_total_bytes_written_ (v : Z) (w : ColumnWriter)
  : ColumnWriter :=
  {| descr_ := descr_ w; metadata_ := metadata_ w; pager_ := pager_ w;
     expected_rows_ := expected_rows_ w;
     has_dictionary_ := has_dictionary_ w; encoding_ := encoding_ w;
     properties_ := properties_ w;
     num_buffered_values_ := num_buffered_values_ w;
     num_buffered_encoded_values_ := num_buffered_encoded_values_ w;
     num_rows_ := num_rows_ w; total_bytes_written_ := v;
     closed_ := closed_ w; fallback_ := fallback_ w;
     definition_levels_sink_ := definition_levels_sink_ w;
     repetition_levels_sink_ := repetition_levels_sink_ w;
     definition_levels_rle_ := definition_levels_rle_ w;
     repetition_levels_rle_ := repetition_levels_rle_ w;
     uncompressed_data_ := uncompressed_data_ w;
     compressed_data_ := compressed_data_ w;
     level_encoder_ := level_encoder_ w; data_pages_ := data_pages_ w;
     current_encoder_ := current_encoder_ w;
     page_statistics_ := page_statistics_ w;
     chunk_statistics_ := chunk_statistics_ w |}.

Definition set_closed_ (v : bool) (w : ColumnWriter)
  : ColumnWriter :=
  {| descr_ := descr_ w; metadata_ := metadata_ w; pager_ := pager_ w;
     expected_rows_ := expected_rows_ w;
     has_dictionary_ := has_dictionary_ w; encoding_ := encoding_ w;
     properties_ := properties_ w;
     num_buffered_values_ := num_buffered_values_ w;
     num_buffered_encoded_values_ := num_buffered_encoded_values_ w;
     num_rows_ := num_rows_ w;
     total_bytes_written_ := total_bytes_written_ w; closed_ := v;
     fallback_ := fallback_ w;
     definition_levels_sink_ := definition_levels_sink_ w;
     repetition_levels_sink_ := repetition_levels_sink_ w;
     definition_levels_rle_ := definition_levels_rle_ w;
     repetition_levels_rle_ := repetition_levels_rle_ w;
     uncompressed_data_ := uncompressed_data_ w;
     compressed_data_ := compressed_data_ w;
     level_encoder_ := level_encoder_ w; data_pages_ := data_pages_ w;
     current_encoder_ := current_encoder_ w;
     page_statistics_ := page_statistics_ w;
     chunk_statistics_ := chunk_statistics_ w |}.

Definition set_fallback_ (v : bool) (w : ColumnWriter)
  : ColumnWriter :=
  {| descr_ := descr_ w; metadata_ := metadata_ w; pager_ := pager_ w;
     expected_rows_ := expected_rows_ w;
     has_dictionary_ := has_dictionary_ w; encoding_ := encoding_ w;
     properties_ := properties_ w;
     num_buffered_values_ := num_buffered_values_ w;
     num_buffered_encoded_values_ := num_buffered_encoded_values_ w;
     num_rows_ := num_rows_ w;
     total_bytes_written_ := total_bytes_written_ w; closed_ := closed_ w;
     fallback_ := v; definition_levels_sink_ := definition_levels_sink_ w;
     repetition_levels_sink_ := repetition_levels_sink_ w;
     definition_levels_rle_ := definition_levels_rle_ w;
     repetition_levels_rle_ := repetition_levels_rle_ w;
     uncompressed_data_ := uncompressed_data_ w;
     compressed_data_ := compressed_data_ w;
     level_encoder_ := level_encoder_ w; data_pages_ := data_pages_ w;
     current_encoder_ := current_encoder_ w;
     page_statistics_ := page_statistics_ w;
     chunk_statistics_ := chunk_statistics_ w |}.

Definition set_definition_levels_sink_ (v : list byte) (w : ColumnWriter)
  : ColumnWriter :=
  {| descr_ := descr_ w; metadata_ := metadata_ w; pager_ := pager_ w;
     expected_rows_ := expected_rows_ w;
     has_dictionary_ := has_dictionary_ w; encoding_ := encoding_ w;
     properties_ := properties_ w;
     num_buffered_values_ := num_buffered_values_ w;
     num_buffered_encoded_values_ := num_buffered_encoded_values_ w;
     num_rows_ := num_rows_ w;
     total_bytes_written_ := total_bytes_written_ w; closed_ := closed_ w;
     fallback_ := fallback_ w; definition_levels_sink_ := v;
     repetition_levels_sink_ := repetition_levels_sink_ w;
     definition_levels_rle_ := definition_levels_rle_ w;
     repetition_levels_rle_ := repetition_levels_rle_ w;
     uncompressed_data_ := uncompressed_data_ w;
     compressed_data_ := compressed_data_ w;
     level_encoder_ := level_encoder_ w; data_pages_ := data_pages_ w;
     current_encoder_ := current_encoder_ w;
     page_statistics_ := page_statistics_ w;
     chunk_statistics_ := chunk_statistics_ w |}.

Definition set_repetition_levels_sink_ (v : list byte) (w : ColumnWriter)
  : ColumnWriter :=
  {| descr_ := descr_ w; metadata_ := metadata_ w; pager_ := pager_ w;
     expected_rows_ := expected_rows_ w;
     has_dictionary_ := has_dictionary_ w; encoding_ := encoding_ w;
     properties_ := properties_ w;
     num_buffered_values_ := num_buffered_values_ w;
     num_buffered_encoded_values_ := num_buffered_encoded_values_ w;
     num_rows_ := num_rows_ w;
     total_bytes_written_ := total_bytes_written_ w; closed_ := closed_ w;
     fallback_ := fallback_ w;
     definition_levels_sink_ := definition_levels_sink_ w;
     repetition_levels_sink_ := v;
     definition_levels_rle_ := definition_levels_rle_ w;
     repetition_levels_rle_ := repetition_levels_rle_ w;
     uncompressed_data_ := uncompressed_data_ w;
     compressed_data_ := compressed_data_ w;
     level_encoder_ := level_encoder_ w; data_pages_ := data_pages_ w;
     current_encoder_ := current_encoder_ w;
     page_statistics_ := page_statistics_ w;
     chunk_statistics_ := chunk_statistics_ w |}.

Definition set_definition_levels_rle_ (v : list byte) (w : ColumnWriter)
  : ColumnWriter :=
  {| descr_ := descr_ w; metadata_ := metadata_ w; pager_ := pager_ w;
     expected_rows_ := expected_rows_ w;
     has_dictionary_ := has_dictionary_ w; encoding_ := encoding_ w;
     properties_ := properties_ w;
     num_buffered_values_ := num_buffered_values_ w;
     num_buffered_encoded_values_ := num_buffered_encoded_values_ w;
     num_rows_ := num_rows_ w;
     total_bytes_written_ := total_bytes_written_ w; closed_ := closed_ w;
     fallback_ := fallback_ w;
     definition_levels_sink_ := definition_levels_sink_ w;
     repetition_levels_sink_ := repetition_levels_sink_ w;
     definition_levels_rle_ := v;
     repetition_levels_rle_ := repetition_levels_rle_ w;
     uncompressed_data_ := uncompressed_data_ w;
     compressed_data_ := compressed_data_ w;
     level_encoder_ := level_encoder_ w; data_pages_ := data_pages_ w;
     current_encoder_ := current_encoder_ w;
     page_statistics_ := page_statistics_ w;
     chunk_statistics_ := chunk_statistics_ w |}.

Definition set_repetition_levels_rle_ (v : list byte) (w : ColumnWriter)
  : ColumnWriter :=
  {| descr_ := descr_ w; metadata_ := metadata_ w; pager_ := pager_ w;
     expected_rows_ := expected_rows_ w;
     has_dictionary_ := has_dictionary_ w; encoding_ := encoding_ w;
     properties_ := properties_ w;
     num_buffered_values_ := num_buffered_values_ w;
     num_buffered_encoded_values_ := num_buffered_encoded_values_ w;
     num_rows_ := num_rows_ w;
     total_bytes_written_ := total_bytes_written_ w; closed_ := closed_ w;
     fallback_ := fallback_ w;
     definition_levels_sink_ := definition_levels_sink_ w;
     repetition_levels_sink_ := repetition_levels_sink_ w;
     definition_levels_rle_ := definition_levels_rle_ w;
     repetition_levels_rle_ := v;
     uncompressed_data_ := uncompressed_data_ w;
     compressed_data_ := compressed_data_ w;
     level_encoder_ := level_encoder_ w; data_pages_ := data_pages_ w;
     current_encoder_ := current_encoder_ w;
     page_statistics_ := page_statistics_ w;
     chunk_statistics_ := chunk_statistics_ w |}.

Definition set_uncompressed_data_ (v : list byte) (w : ColumnWriter)
  : ColumnWriter :=
  {| descr_ := descr_ w; metadata_ := metadata_ w; pager_ := pager_ w;
     expected_rows_ := expected_rows_ w;
     has_dictionary_ := has_dictionary_ w; encoding_ := encoding_ w;
     properties_ := properties_ w;
     num_buffered_values_ := num_buffered_values_ w;
     num_buffered_encoded_values_ := num_buffered_encoded_values_ w;
     num_rows_ := num_rows_ w;
     total_bytes_written_ := total_bytes_written_ w; closed_ := closed_ w;
     fallback_ := fallback_ w;
     definition_levels_sink_ := definition_levels_sink_ w;
     repetition_levels_sink_ := repetition_levels_sink_ w;
     definition_levels_rle_ := definition_levels_rle_ w;
     repetition_levels_rle_ := repetition_levels_rle_ w;
     uncompressed_data_ := v; compressed_data_ := compressed_data_ w;
     level_encoder_ := level_encoder_ w; data_pages_ := data_pages_ w;
     current_encoder_ := current_encoder_ w;
     page_statistics_ := page_statistics_ w;
     chunk_statistics_ := chunk_statistics_ w |}.

Definition set_compressed_data_ (v : list byte) (w : ColumnWriter)
  : ColumnWriter :=
  {| descr_ := descr_ w; metadata_ := metadata_ w; pager_ := pager_ w;
     expected_rows_ := expected_rows_ w;
     has_dictionary_ := has_dictionary_ w; encoding_ := encoding_ w;
     properties_ := properties_ w;
     num_buffered_values_ := num_buffered_values_ w;
     num_buffered_encoded_values_ := num_buffered_encoded_values_ w;
     num_rows_ := num_rows_ w;
     total_bytes_written_ := total_bytes_written_ w; closed_ := closed_ w;
     fallback_ := fallback_ w;
     definition_levels_sink_ := definition_levels_sink_ w;
     repetition_levels_sink_ := repetition_levels_sink_ w;
     definition_levels_rle_ := definition_levels_rle_ w;
     repetition_levels_rle_ := repetition_levels_rle_ w;
     uncompressed_data_ := uncompressed_data_ w; compressed_data_ := v;
     level_encoder_ := level_encoder_ w; data_pages_ := data_pages_ w;
     current_encoder_ := current_encoder_ w;
     page_statistics_ := page_statistics_ w;
     chunk_statistics_ := chunk_statistics_ w |}.

Definition set_level_encoder_ (v : LevelEncoder.t R BW) (w : ColumnWriter)
  : ColumnWriter :=
  {| descr_ := descr_ w; metadata_ := metadata_ w; pager_ := pager_ w;
     expected_rows_ := expected_rows_ w;
     has_dictionary_ := has_dictionary_ w; encoding_ := encoding_ w;
     properties_ := properties_ w;
     num_buffered_values_ := num_buffered_values_ w;
     num_buffered_encoded_values_ := num_buffered_encoded_values_ w;
     num_rows_ := num_rows_ w;
     total_bytes_written_ := total_bytes_written_ w; closed_ := closed_ w;
     fallback_ := fallback_ w;
     definition_levels_sink_ := definition_levels_sink_ w;
     repetition_levels_sink_ := repetition_levels_sink_ w;
     definition_levels_rle_ := definition_levels_rle_ w;
     repetition_levels_rle_ := repetition_levels_rle_ w;
     uncompressed_data_ := uncompressed_data_ w;
     compressed_data_ := compressed_data_ w; level_encoder_ := v;
     data_pages_ := data_pages_ w; current_encoder_ := current_encoder_ w;
     page_statistics_ := page_statistics_ w;
     chunk_statistics_ := chunk_statistics_ w |}.

Definition set_data_pages_ (v : list (CompressedDataPage ES)) (w : ColumnWriter)
  : ColumnWriter :=
  {| descr_ := descr_ w; metadata_ := metadata_ w; pager_ := pager_ w;
     expected_rows_ := expected_rows_ w;
     has_dictionary_ := has_dictionary_ w; encoding_ := encoding_ w;
     properties_ := properties_ w;
     num_buffered_values_ := num_buffered_values_ w;
     num_buffered_encoded_values_ := num_buffered_encoded_values_ w;
     num_rows_ := num_rows_ w;
     total_bytes_written_ := total_bytes_written_ w; closed_ := closed_ w;
     fallback_ := fallback_ w;
     definition_levels_sink_ := definition_levels_sink_ w;
     repetition_levels_sink_ := repetition_levels_sink_ w;
     definition_levels_rle_ := definition_levels_rle_ w;
     repetition_levels_rle_ := repetition_levels_rle_ w;
     uncompressed_data_ := uncompressed_data_ w;
     compressed_data_ := compressed_data_ w;
     level_encoder_ := level_encoder_ w; data_pages_ := v;
     current_encoder_ := current_encoder_ w;
     page_statistics_ := page_statistics_ w;
     chunk_statistics_ := chunk_statistics_ w |}.

Definition set_current_encoder_ (v : E) (w : ColumnWriter)
  : ColumnWriter :=
  {| descr_ := descr_ w; metadata_ := metadata_ w; pager_ := pager_ w;
     expected_rows_ := expected_rows_ w;
     has_dictionary_ := has_dictionary_ w; encoding_ := encoding_ w;
     properties_ := properties_ w;
     num_buffered_values_ := num_buffered_values_ w;
     num_buffered_encoded_values_ := num_buffered_encoded_values_ w;
     num_rows_ := num_rows_ w;
     total_bytes_written_ := total_bytes_written_ w; closed_ := closed_ w;
     fallback_ := fallback_ w;
     definition_levels_sink_ := definition_levels_sink_ w;
     repetition_levels_sink_ := repetition_levels_sink_ w;
     definition_levels_rle_ := definition_levels_rle_ w;
     repetition_levels_rle_ := repetition_levels_rle_ w;
     uncompressed_data_ := uncompressed_data_ w;
     compressed_data_ := compressed_data_ w;
     level_encoder_ := level_encoder_ w; data_pages_ := data_pages_ w;
     current_encoder_ := v; page_statistics_ := page_statistics_ w;
     chunk_statistics_ := chunk_statistics_ w |}.

Definition set_page_statistics_ (v : option S) (w : ColumnWriter)
  : ColumnWriter :=
  {| descr_ := descr_ w; metadata_ := metadata_ w; pager_ := pager_ w;
     expected_rows_ := expected_rows_ w;
     has_dictionary_ := has_dictionary_ w; encoding_ := encoding_ w;
     properties_ := properties_ w;
     num_buffered_values_ := num_buffered_values_ w;
     num_buffered_encoded_values_ := num_buffered_encoded_values_ w;
     num_rows_ := num_rows_ w;
     total_bytes_written_ := total_bytes_written_ w; closed_ := closed_ w;
     fallback_ := fallback_ w;
     definition_levels_sink_ := definition_levels_sink_ w;
     repetition_levels_sink_ := repetition_levels_sink_ w;
     definition_levels_rle_ := definition_levels_rle_ w;
     repetition_levels_rle_ := repetition_levels_rle_ w;
     uncompressed_data_ := uncompressed_data_ w;
     compressed_data_ := compressed_data_ w;
     level_encoder_ := level_encoder_ w; data_pages_ := data_pages_ w;
     current_encoder_ := current_encoder_ w; page_statistics_ := v;
     chunk_statistics_ := chunk_statistics_ w |}.

Definition set_chunk_statistics_ (v : option S) (w : ColumnWriter)
  : ColumnWriter :=
  {| descr_ := descr_ w; metadata_ := metadata_ w; pager_ := pager_ w;
     expected_rows_ := expected_rows_ w;
     has_dictionary_ := has_dictionary_ w; encoding_ := encoding_ w;
     properties_ := properties_ w;
     num_buffered_values_ := num_buffered_values_ w;
     num_buffered_encoded_values_ := num_buffered_encoded_values_ w;
     num_rows_ := num_rows_ w;
     total_bytes_written_ := total_bytes_written_ w; closed_ := closed_ w;
     fallback_ := fallback_ w;
     definition_levels_sink_ := definition_levels_sink_ w;
     repetition_levels_sink_ := repetition_levels_sink_ w;
     definition_levels_rle_ := definition_levels_rle_ w;
     repetition_levels_rle_ := repetition_levels_rle_ w;
     uncompressed_data_ := uncompressed_data_ w;
     compressed_data_ := compressed_data_ w;
     level_encoder_ := level_encoder_ w; data_pages_ := data_pages_ w;
     current_encoder_ := current_encoder_ w;
     page_statistics_ := page_statistics_ w; chunk_statistics_ := v |}.

Local Abbreviation Method := (M ColumnWriter).

(** A [ResizableBuffer*] argument that designates a member buffer. *)
Record buffer_ref : Type := {
  deref : ColumnWriter -> list byte;
  assign : list byte -> ColumnWriter -> ColumnWriter
}.

Definition definition_levels_rle_ref : buffer_ref :=
  {| deref := definition_levels_rle_; assign := set_definition_levels_rle_ |}.
Definition repetition_levels_rle_ref : buffer_ref :=
  {| deref := repetition_levels_rle_; assign := set_repetition_levels_rle_ |}.

(** A call on the [level_encoder_] member and on the [pager_] member. *)
Definition on_level_encoder {A} (c : M (LevelEncoder.t R BW) A) : Method A :=
  on_member level_encoder_ set_level_encoder_ c.
Definition on_pager {A} (c : M (PageWriter ES) A) : Method A :=
  on_member pager_ set_pager_ c.

(** [ColumnWriter::ColumnWriter], with the member the constructor of
    [TypedColumnWriter] sets next: the value encoder. *)
Definition ColumnWriter_new (descr : ColumnDescriptor)
  (pager : PageWriter ES) (expected_rows : Z) (has_dictionary : bool)
  (encoding : Encoding.type) (properties : WriterProperties)
  (encoder : E) : ColumnWriter :=
  {| descr_ := descr; metadata_ := None; pager_ := pager;
     expected_rows_ := expected_rows; has_dictionary_ := has_dictionary;
     encoding_ := encoding; properties_ := properties;
     num_buffered_values_ := 0; num_buffered_encoded_values_ := 0;
     num_rows_ := 0; total_bytes_written_ := 0;
     closed_ := false; fallback_ := false;
     definition_levels_sink_ := []; repetition_levels_sink_ := [];
     definition_levels_rle_ := []; repetition_levels_rle_ := [];
     uncompressed_data_ := []; compressed_data_ := [];
     level_encoder_ := LevelEncoder.new; data_pages_ := [];
     current_encoder_ := encoder;
     page_statistics_ := None; chunk_statistics_ := None |}.

Definition InitSinks : Method unit :=
  modify (set_definition_levels_sink_ []) ;;
  modify (set_repetition_levels_sink_ []).

Definition WriteDefinitionLevels (num_levels : Z) (levels : list Z)
  : Method unit :=
  modify (fun w =>
    set_definition_levels_sink_
      (definition_levels_sink_ w ++
       bytes_of_levels (array_prefix num_levels levels)) w).

Definition WriteRepetitionLevels (num_levels : Z) (levels : list Z)
  : Method unit :=
  modify (fun w =>
    set_repetition_levels_sink_
      (repetition_levels_sink_ w ++
       bytes_of_levels (array_prefix num_levels levels)) w).

(** return the size of the encoded buffer *)
Definition RleEncodeLevels (src_buffer : list byte) (dest_buffer : buffer_ref)
  (max_level : Z) : Method Z :=
  num_buffered_values <- gets num_buffered_values_ ;;
  max_size <- LevelEncoder.MaxBufferSize Encoding.RLE max_level
                (cast_int num_buffered_values) ;;
  let rle_size := max_size + 4 in
  modify (fun w =>
    assign dest_buffer (Resize rle_size (deref dest_buffer w)) w) ;;
  dest_size <- gets (fun w => buffer_size (deref dest_buffer w)) ;;
  on_level_encoder
    (LevelEncoder.Init Encoding.RLE max_level (cast_int num_buffered_values)
       (cast_int (cast_int dest_size - 4))) ;;
  encoded <- on_level_encoder
    (LevelEncoder.Encode (cast_int num_buffered_values)
       (levels_of_bytes src_buffer)) ;;
  (* what the encoder stored through dest_buffer->mutable_data() + 4 *)
  modify (fun w =>
    assign dest_buffer
      (write_at 4 (LevelEncoder.rle_bytes (level_encoder_ w))
         (deref dest_buffer w)) w) ;;
  len <- on_level_encoder LevelEncoder.len ;;
  modify (fun w =>
    assign dest_buffer (write_at 0 (int32_bytes len) (deref dest_buffer w)) w) ;;
  len' <- on_level_encoder LevelEncoder.len ;;
  let encoded_size := len' + 4 in
  ret encoded_size.

(** [GetValuesBuffer], [GetPageStatistics], [GetChunkStatistics] and
    [ResetPageStatistics] of [TypedColumnWriter].  Modelled from the spec:
    [GetValuesBuffer] is defined in parquet/column_writer.h, which is not
    part of the sources; it is the encoder's flushed value buffer. *)
Definition GetValuesBuffer : Method (list byte) :=
  encoder <- gets current_encoder_ ;;
  let (values, encoder') := Encoder_FlushValues encoder in
  modify (set_current_encoder_ encoder') ;;
  ret values.

Definition GetPageStatistics : Method ES :=
  page_statistics <- gets page_statistics_ ;;
  match page_statistics with
  | Some st => ret (Stats_Encode st)
  | None => ret EncodedStatistics_new
  end.

Definition GetChunkStatistics : Method ES :=
  chunk_statistics <- gets chunk_statistics_ ;;
  match chunk_statistics with
  | Some st => ret (Stats_Encode st)
  | None => ret EncodedStatistics_new
  end.

Definition ResetPageStatistics : Method unit :=
  chunk_statistics <- gets chunk_statistics_ ;;
  page_statistics <- gets page_statistics_ ;;
  match chunk_statistics, page_statistics with
  | Some chunk, Some page =>
      modify (set_chunk_statistics_ (Some (Stats_Merge chunk page))) ;;
      modify (set_page_statistics_ (Some (Stats_Reset page)))
  | Some _, None => throw (UndefinedBehaviour "null page_statistics_")
  | None, _ => ret tt
  end.

Definition WriteDataPage (page : CompressedDataPage ES) : Method unit :=
  n <- on_pager (PageWriter_.WriteDataPage page) ;;
  modify (fun w => set_total_bytes_written_ (total_bytes_written_ w + n) w).

Definition AddDataPage : Method unit :=
  values <- GetValuesBuffer ;;
  descr <- gets descr_ ;;
  definition_levels_rle_size <-
    (if max_definition_level descr >? 0 then
       src <- gets definition_levels_sink_ ;;
       RleEncodeLevels src definition_levels_rle_ref
         (max_definition_level descr)
     else ret 0) ;;
  repetition_levels_rle_size <-
    (if max_repetition_level descr >? 0 then
       src <- gets repetition_levels_sink_ ;;
       RleEncodeLevels src repetition_levels_rle_ref
         (max_repetition_level descr)
     else ret 0) ;;
  let uncompressed_size :=
    definition_levels_rle_size + repetition_levels_rle_size +
    buffer_size values in
  modify (fun w =>
    set_uncompressed_data_ (Resize uncompressed_size (uncompressed_data_ w)) w) ;;
  (* Concatenate data into a single buffer *)
  modify (fun w =>
    set_uncompressed_data_
      (memcpy 0 (repetition_levels_rle_ w) repetition_levels_rle_size
         (uncompressed_data_ w)) w) ;;
  modify (fun w =>
    set_uncompressed_data_
      (memcpy (Z.to_nat repetition_levels_rle_size)
         (definition_levels_rle_ w) definition_levels_rle_size
         (uncompressed_data_ w)) w) ;;
  modify (fun w =>
    set_uncompressed_data_
      (memcpy (Z.to_nat (repetition_levels_rle_size +
                         definition_levels_rle_size))
         values (buffer_size values) (uncompressed_data_ w)) w) ;;
  page_stats <- GetPageStatistics ;;
  ResetPageStatistics ;;
  pager <- gets pager_ ;;
  compressed_data <-
    (if PageWriter_.has_compressor pager then
       modify (fun w =>
         set_compressed_data_
           (PageWriter_.Compress pager (uncompressed_data_ w)) w) ;;
       gets compressed_data_
     else gets uncompressed_data_) ;;
  has_dictionary <- gets has_dictionary_ ;;
  fallback <- gets fallback_ ;;
  num_buffered_values <- gets num_buffered_values_ ;;
  encoding <- gets encoding_ ;;
  let page :=
    {| dp_buffer := compressed_data;
       dp_num_values := cast_int num_buffered_values;
       dp_encoding := encoding;
       dp_definition_level_encoding := Encoding.RLE;
       dp_repetition_level_encoding := Encoding.RLE;
       dp_uncompressed_size := uncompressed_size;
       dp_statistics := page_stats |} in
  (* Write the page to OutputStream eagerly if there is no dictionary or
     if dictionary encoding has fallen back to PLAIN *)
  (if has_dictionary && negb fallback then
     (* Save pages until end of dictionary encoding; the copy of the
        buffer is taken to succeed *)
     modify (fun w => set_data_pages_ (data_pages_ w ++ [page]) w)
   else
     WriteDataPage page) ;;
  (* Re-initialize the sinks for next Page. *)
  InitSinks ;;
  modify (set_num_buffered_values_ 0) ;;
  modify (set_num_buffered_encoded_values_ 0).

(** The loop [for (i = 0; i < data_pages_.size(); i++)] of
    [FlushBufferedDataPages]. *)
Fixpoint for_each {A} (l : list A) (body : A -> Method unit) : Method unit :=
  match l with
  | [] => ret tt
  | x :: rest => body x ;; for_each rest body
  end.

Definition FlushBufferedDataPages : Method unit :=
  (* Write all outstanding data to a new page *)
  num_buffered_values <- gets num_buffered_values_ ;;
  when (num_buffered_values >? 0) AddDataPage ;;
  data_pages <- gets data_pages_ ;;
  for_each data_pages WriteDataPage ;;
  modify (set_data_pages_ []).

Definition WriteDictionaryPage : Method unit :=
  dict_encoder <- gets current_encoder_ ;;
  properties <- gets properties_ ;;
  let buffer :=
    write_at 0 (DictEncoder_WriteDict dict_encoder)
      (Resize (DictEncoder_dict_encoded_size dict_encoder) []) in
  modify (set_current_encoder_ (DictEncoder_FreeAll dict_encoder)) ;;
  dict_encoder' <- gets current_encoder_ ;;
  let page :=
    {| dict_buffer := buffer;
       dict_num_values := DictEncoder_num_entries dict_encoder';
       dict_encoding := dictionary_index_encoding properties |} in
  n <- on_pager (PageWriter_.WriteDictionaryPage page) ;;
  modify (fun w => set_total_bytes_written_ (total_bytes_written_ w + n) w).

Definition dec (z : Z) : string := NilZero.string_of_int (Z.to_int z).

Definition Close : Method Z :=
  closed <- gets closed_ ;;
  when (negb closed)
    (modify (set_closed_ true) ;;
     has_dictionary <- gets has_dictionary_ ;;
     fallback <- gets fallback_ ;;
     when (has_dictionary && negb fallback) WriteDictionaryPage ;;
     FlushBufferedDataPages ;;
     chunk_statistics <- GetChunkStatistics ;;
     when (EncodedStatistics_is_set chunk_statistics)
       (modify (set_metadata_ (Some chunk_statistics))) ;;
     has_dictionary <- gets has_dictionary_ ;;
     fallback <- gets fallback_ ;;
     on_pager (PageWriter_.Close has_dictionary fallback)) ;;
  num_rows <- gets num_rows_ ;;
  expected_rows <- gets expected_rows_ ;;
  if negb (num_rows =? expected_rows) then
    throw (ParquetException
             ("Written rows: " ++ dec num_rows ++ " != expected rows: " ++
              dec expected_rows ++ "in the current column chunk")%string)
  else
    total_bytes_written <- gets total_bytes_written_ ;;
    ret total_bytes_written.

(** Only one Dictionary Page is written.
    Fallback to PLAIN if dictionary page limit is reached. *)
Definition CheckDictionarySizeLimit : Method unit :=
  dict_encoder <- gets current_encoder_ ;;
  properties <- gets properties_ ;;
  descr <- gets descr_ ;;
  when (DictEncoder_dict_encoded_size dict_encoder >=?
        dictionary_pagesize_limit properties)
    (WriteDictionaryPage ;;
     (* Serialize the buffered Dictionary Indicies *)
     FlushBufferedDataPages ;;
     modify (set_fallback_ true) ;;
     (* Only PLAIN encoding is supported for fallback in V1 *)
     modify (set_current_encoder_ (PlainEncoder_new descr)) ;;
     modify (set_encoding_ Encoding.PLAIN)).

(** [TypedColumnWriter<Type>::TypedColumnWriter]: a constructor returns
    the object or throws. *)
Definition TypedColumnWriter_new (descr : ColumnDescriptor)
  (pager : PageWriter ES) (expected_rows : Z) (encoding : Encoding.type)
  (properties : WriterProperties) : M unit ColumnWriter :=
  let base :=
    ColumnWriter_new descr pager expected_rows
      (Encoding.eqb encoding Encoding.PLAIN_DICTIONARY ||
       Encoding.eqb encoding Encoding.RLE_DICTIONARY)
      encoding properties in
  w <- match encoding with
       | Encoding.PLAIN => ret (base (PlainEncoder_new descr))
       | Encoding.PLAIN_DICTIONARY
       | Encoding.RLE_DICTIONARY => ret (base (DictEncoder_new descr))
       | _ => throw (NotImplemented "Selected encoding is not supported")
       end ;;
  if statistics_enabled properties (path descr) then
    ret (set_chunk_statistics_ (Some (TypedStats_new descr))
           (set_page_statistics_ (Some (TypedStats_new descr)) w))
  else ret w.

Definition WriteValues (num_values : Z) (values : list T) : Method unit :=
  modify (fun w =>
    set_current_encoder_
      (Encoder_Put (current_encoder_ w) values (cast_int num_values)) w).

Definition WriteValuesSpaced (num_values : Z) (valid_bits : list byte)
  (valid_bits_offset : Z) (values : list T) : Method unit :=
  modify (fun w =>
    set_current_encoder_
      (Encoder_PutSpaced (current_encoder_ w) values (cast_int num_values)
         valid_bits valid_bits_offset) w).

(** The counting loops [for (i = 0; i < num_values; ++i) if (p(levels[i]))
    ++n;]. *)
Definition count_levels (p : Z -> bool) (num_values : Z) (levels : list Z)
  : Z :=
  Z.of_nat (length (filter p (array_prefix num_values levels))).

Definition WriteMiniBatch (num_values : Z) (def_levels rep_levels : list Z)
  (values : list T) : Method Z :=
  descr <- gets descr_ ;;
  (* If the field is required and non-repeated, there are no definition
     levels *)
  values_to_write <-
    (if max_definition_level descr >? 0 then
       WriteDefinitionLevels num_values def_levels ;;
       ret (count_levels (fun l => l =? max_definition_level descr)
              num_values def_levels)
     else
       (* Required field, write all values *)
       ret num_values) ;;
  (* Not present for non-repeated fields *)
  (if max_repetition_level descr >? 0 then
     (* A row could include more than one value
        Count the occasions where we start a new row *)
     modify (fun w =>
       set_num_rows_
         (num_rows_ w + count_levels (fun l => l =? 0) num_values rep_levels)
         w) ;;
     WriteRepetitionLevels num_values rep_levels
   else
     (* Each value is exactly one row *)
     modify (fun w => set_num_rows_ (num_rows_ w + cast_int num_values) w)) ;;
  num_rows <- gets num_rows_ ;;
  expected_rows <- gets expected_rows_ ;;
  when (num_rows >? expected_rows)
    (throw (ParquetException
              "More rows were written in the column chunk than expected")) ;;
  WriteValues values_to_write values ;;
  modify (fun w =>
    match page_statistics_ w with
    | Some st =>
        set_page_statistics_
          (Some (Stats_Update st values values_to_write
                   (num_values - values_to_write))) w
    | None => w
    end) ;;
  modify (fun w =>
    set_num_buffered_values_ (num_buffered_values_ w + num_values) w) ;;
  modify (fun w =>
    set_num_buffered_encoded_values_
      (num_buffered_encoded_values_ w + values_to_write) w) ;;
  encoder <- gets current_encoder_ ;;
  properties <- gets properties_ ;;
  when (Encoder_EstimatedDataEncodedSize encoder >=? data_pagesize properties)
    AddDataPage ;;
  has_dictionary <- gets has_dictionary_ ;;
  fallback <- gets fallback_ ;;
  when (has_dictionary && negb fallback) CheckDictionarySizeLimit ;;
  ret values_to_write.

(** It returns [values_to_write] and stores [spaced_values_to_write] in
    [*num_spaced_written]: the pair (values_to_write,
    num_spaced_written). *)
Definition WriteMiniBatchSpaced (num_values : Z)
  (def_levels rep_levels : list Z) (valid_bits : list byte)
  (valid_bits_offset : Z) (values : list T) : Method (Z * Z) :=
  descr <- gets descr_ ;;
  to_write <-
    (if max_definition_level descr >? 0 then
       (* Minimal definition level for which spaced values are written *)
       let min_spaced_def_level :=
         if is_optional descr
         then wrap_signed 16 (max_definition_level descr - 1)
         else max_definition_level descr in
       WriteDefinitionLevels num_values def_levels ;;
       ret (count_levels (fun l => l =? max_definition_level descr)
              num_values def_levels,
            count_levels (fun l => l >=? min_spaced_def_level)
              num_values def_levels)
     else
       (* Required field, write all values *)
       ret (num_values, num_values)) ;;
  let values_to_write := fst to_write in
  let spaced_values_to_write := snd to_write in
  (* Not present for non-repeated fields *)
  (if max_repetition_level descr >? 0 then
     modify (fun w =>
       set_num_rows_
         (num_rows_ w + count_levels (fun l => l =? 0) num_values rep_levels)
         w) ;;
     WriteRepetitionLevels num_values rep_levels
   else
     (* Each value is exactly one row *)
     modify (fun w => set_num_rows_ (num_rows_ w + cast_int num_values) w)) ;;
  num_rows <- gets num_rows_ ;;
  expected_rows <- gets expected_rows_ ;;
  when (num_rows >? expected_rows)
    (throw (ParquetException
              "More rows were written in the column chunk than expected")) ;;
  (if is_optional descr then
     WriteValuesSpaced spaced_values_to_write valid_bits valid_bits_offset
       values
   else WriteValues values_to_write values) ;;
  modify (fun w =>
    match page_statistics_ w with
    | Some st =>
        set_page_statistics_
          (Some (Stats_UpdateSpaced st values valid_bits valid_bits_offset
                   values_to_write (num_values - values_to_write))) w
    | None => w
    end) ;;
  modify (fun w =>
    set_num_buffered_values_ (num_buffered_values_ w + num_values) w) ;;
  modify (fun w =>
    set_num_buffered_encoded_values_
      (num_buffered_encoded_values_ w + values_to_write) w) ;;
  encoder <- gets current_encoder_ ;;
  properties <- gets properties_ ;;
  when (Encoder_EstimatedDataEncodedSize encoder >=? data_pagesize properties)
    AddDataPage ;;
  has_dictionary <- gets has_dictionary_ ;;
  fallback <- gets fallback_ ;;
  when (has_dictionary && negb fallback) CheckDictionarySizeLimit ;;
  ret (values_to_write, spaced_values_to_write).

(** The loop [for (round = 0; round < num_batches; round++)] of
    [WriteBatch]; it returns the final [value_offset]. *)
Fixpoint WriteBatch_rounds (rounds : nat) (round : Z)
  (write_batch_size : Z) (def_levels rep_levels : list Z) (values : list T)
  (value_offset : Z) : Method Z :=
  match rounds with
  | O => ret value_offset
  | Datatypes.S rounds' =>
      let offset := round * write_batch_size in
      num_values <- WriteMiniBatch write_batch_size
                      (array_from offset def_levels)
                      (array_from offset rep_levels)
                      (array_from value_offset values) ;;
      WriteBatch_rounds rounds' (round + 1) write_batch_size
        def_levels rep_levels values (value_offset + num_values)
  end.

Definition WriteBatch (num_values : Z) (def_levels rep_levels : list Z)
  (values : list T) : Method unit :=
  properties <- gets properties_ ;;
  let write_batch_size := write_batch_size properties in
  if write_batch_size =? 0 then
    throw (UndefinedBehaviour "division by zero")
  else
    let num_batches := cast_int (Z.quot num_values write_batch_size) in
    let num_remaining := Z.rem num_values write_batch_size in
    value_offset <- WriteBatch_rounds (Z.to_nat num_batches) 0
                      write_batch_size def_levels rep_levels values 0 ;;
    (* Write the remaining values *)
    let offset := num_batches * write_batch_size in
    WriteMiniBatch num_remaining (array_from offset def_levels)
      (array_from offset rep_levels) (array_from value_offset values) ;;
    ret tt.

(** The loop of [WriteBatchSpaced]; it returns the final
    [values_offset]. *)
Fixpoint WriteBatchSpaced_rounds (rounds : nat) (round : Z)
  (write_batch_size : Z) (def_levels rep_levels : list Z)
  (valid_bits : list byte) (valid_bits_offset : Z) (values : list T)
  (values_offset : Z) : Method Z :=
  match rounds with
  | O => ret values_offset
  | Datatypes.S rounds' =>
      let offset := round * write_batch_size in
      written <- WriteMiniBatchSpaced write_batch_size
                   (array_from offset def_levels)
                   (array_from offset rep_levels)
                   valid_bits (valid_bits_offset + values_offset)
                   (array_from values_offset values) ;;
      let num_spaced_written := snd written in
      WriteBatchSpaced_rounds rounds' (round + 1) write_batch_size
        def_levels rep_levels valid_bits valid_bits_offset values
        (values_offset + num_spaced_written)
  end.

Definition WriteBatchSpaced (num_values : Z) (def_levels rep_levels : list Z)
  (valid_bits : list byte) (valid_bits_offset : Z) (values : list T)
  : Method unit :=
  properties <- gets properties_ ;;
  let write_batch_size := write_batch_size properties in
  if write_batch_size =? 0 then
    throw (UndefinedBehaviour "division by zero")
  else
    let num_batches := cast_int (Z.quot num_values write_batch_size) in
    let num_remaining := Z.rem num_values write_batch_size in
    values_offset <- WriteBatchSpaced_rounds (Z.to_nat num_batches) 0
                       write_batch_size def_levels rep_levels
                       valid_bits valid_bits_offset values 0 ;;
    (* Write the remaining values *)
    let offset := num_batches * write_batch_size in
    WriteMiniBatchSpaced num_remaining (array_from offset def_levels)
      (array_from offset rep_levels) valid_bits
      (valid_bits_offset + values_offset)
      (array_from values_offset values) ;;
    ret tt.
End ColumnWriter.

Arguments ColumnWriter E S ES R BW : clear implicits.

(* ------------------------------------------------------------------ *)
(** ** Dynamic column writer constructor *)

(** The class the factory instantiates: [BoolWriter] is
    [TypedColumnWriter<BooleanType>], and so on. *)
Inductive TypedWriter (W : Type) : Type :=
| BoolWriter (w : W)
| Int32Writer (w : W)
| Int64Writer (w : W)
| Int96Writer (w : W)
| FloatWriter (w : W)
| DoubleWriter (w : W)
| ByteArrayWriter (w : W)
| FixedLenByteArrayWriter (w : W).

Section Make.
Context {T E S ES R BW : Type}
        {rle_ops : RleEncoderOps R} {bw_ops : BitWriterOps BW}
        {enc_ops : EncoderOps T E} {stats_ops : StatisticsOps T S ES}.

Local Abbreviation Writer := (ColumnWriter E S ES R BW).

(** [metadata->descr()] is the [descr] argument. *)
Definition Make (descr : ColumnDescriptor) (pager : PageWriter ES)
  (expected_rows : Z) (properties : WriterProperties)
  : M unit (TypedWriter Writer) :=
  let encoding :=
    if dictionary_enabled properties (path descr) &&
       negb (Type_.is_BOOLEAN (physical_type descr))
    then dictionary_page_encoding properties
    else encoding properties (path descr) in
  let make_shared (writer : Writer -> TypedWriter Writer) :=
    w <- TypedColumnWriter_new descr pager expected_rows encoding properties ;;
    ret (writer w) in
  match physical_type descr with
  | Type_.BOOLEAN => make_shared (@BoolWriter _)
  | Type_.INT32 => make_shared (@Int32Writer _)
  | Type_.INT64 => make_shared (@Int64Writer _)
  | Type_.INT96 => make_shared (@Int96Writer _)
  | Type_.FLOAT => make_shared (@FloatWriter _)
  | Type_.DOUBLE => make_shared (@DoubleWriter _)
  | Type_.BYTE_ARRAY => make_shared (@ByteArrayWriter _)
  | Type_.FIXED_LEN_BYTE_ARRAY => make_shared (@FixedLenByteArrayWriter _)
  | Type_.UNDEFINED => throw (NotImplemented "type reader not implemented")
  end.
End Make.

(* ------------------------------------------------------------------ *)
(** ** An INT32 column: implementations of the interfaces

    The properties below hold for every implementation of the interfaces;
    the implementations of this module are the ones they are evaluated on. *)

Module Int32Column.

(** A stand-in for Arrow's [RleEncoder] and [BitWriter]: one byte per
    value, stored while the region it was given has room. *)
Record ByteCodec : Type := {
  capacity : Z;
  stored : list byte
}.

Definition codec_put (c : ByteCodec) (v : Z) : bool * ByteCodec :=
  if buffer_size (stored c) <? capacity c
  then (true, {| capacity := capacity c; stored := stored c ++ [v mod 256] |})
  else (false, c).

Definition rle_encoder_ops : RleEncoderOps ByteCodec :=
  {| RleEncoder_new := fun data_size _ =>
       {| capacity := data_size; stored := [] |};
     RleEncoder_Put := codec_put;
     RleEncoder_Flush := fun c => c;
     RleEncoder_data := stored;
     RleEncoder_MaxBufferSize := fun _ num_values => Z.max 0 num_values;
     RleEncoder_MinBufferSize := fun _ => 1 |}.

Definition bit_writer_ops : BitWriterOps ByteCodec :=
  {| BitWriter_new := fun num_bytes =>
       {| capacity := num_bytes; stored := [] |};
     BitWriter_PutValue := fun c v _ => codec_put c v;
     BitWriter_Flush := fun c => c |}.

(** Modelled from the spec: the value encoders of
    parquet/encoding-internal.h, which is not part of the sources, for
    INT32 values.  The plain encoder writes little-endian raw values; the
    dictionary encoder keeps an insertion-ordered, deduplicated dictionary
    and the sequence of indices, serialises the dictionary as the plain
    encoding of its entries and the indices behind one byte that gives
    their bit width. *)
Inductive Int32Encoder : Type :=
| PlainEncoder (sink : list byte)
| DictEncoder (dict : list Z) (indices : list Z).

Fixpoint index_of (v : Z) (dict : list Z) (i : Z) : option Z :=
  match dict with
  | [] => None
  | d :: rest => if d =? v then Some i else index_of v rest (i + 1)
  end.

Definition put_one (e : Int32Encoder) (v : Z) : Int32Encoder :=
  match e with
  | PlainEncoder sink => PlainEncoder (sink ++ int32_bytes v)
  | DictEncoder dict indices =>
      match index_of v dict 0 with
      | Some i => DictEncoder dict (indices ++ [i])
      | None =>
          DictEncoder (dict ++ [v]) (indices ++ [Z.of_nat (length dict)])
      end
  end.

Definition put (e : Int32Encoder) (values : list Z) (num_values : Z)
  : Int32Encoder :=
  fold_left put_one (array_prefix num_values values) e.

Definition bit_is_set (bits : list byte) (i : Z) : bool :=
  Z.testbit (nth (Z.to_nat (i / 8)) bits 0) (i mod 8).

(** Null slots contribute nothing to the encoded payload. *)
Definition put_spaced (e : Int32Encoder) (values : list Z) (num_values : Z)
  (valid_bits : list byte) (valid_bits_offset : Z) : Int32Encoder :=
  fold_left
    (fun e i =>
       if bit_is_set valid_bits (valid_bits_offset + Z.of_nat i)
       then put_one e (nth i values 0) else e)
    (seq 0 (Z.to_nat num_values)) e.

Definition estimated_size (e : Int32Encoder) : Z :=
  match e with
  | PlainEncoder sink => buffer_size sink
  | DictEncoder _ indices => 1 + buffer_size indices
  end.

Definition flush_values (e : Int32Encoder) : list byte * Int32Encoder :=
  match e with
  | PlainEncoder sink => (sink, PlainEncoder [])
  | DictEncoder dict indices =>
      (BitUtil.Log2 (Z.of_nat (length dict)) :: map (fun i => i mod 256) indices,
       DictEncoder dict [])
  end.

Definition dict_entries (e : Int32Encoder) : list Z :=
  match e with
  | PlainEncoder _ => []
  | DictEncoder dict _ => dict
  end.

Definition encoder_ops : EncoderOps Z Int32Encoder :=
  {| PlainEncoder_new := fun _ => PlainEncoder [];
     DictEncoder_new := fun _ => DictEncoder [] [];
     Encoder_Put := put;
     Encoder_PutSpaced := put_spaced;
     Encoder_EstimatedDataEncodedSize := estimated_size;
     Encoder_FlushValues := flush_values;
     DictEncoder_dict_encoded_size := fun e =>
       4 * Z.of_nat (length (dict_entries e));
     DictEncoder_WriteDict := fun e => flat_map int32_bytes (dict_entries e);
     DictEncoder_FreeAll := fun e => e;
     DictEncoder_num_entries := fun e => Z.of_nat (length (dict_entries e)) |}.

(** Modelled from the spec: the statistics accumulator of
    parquet/statistics.h, which is not part of the sources: minimum and
    maximum in two's-complement order, null count and non-null count. *)
Record Int32Stats : Type := {
  min_max : option (Z * Z);
  null_count : Z;
  non_null_count : Z
}.

Definition widen (mm : option (Z * Z)) (v : Z) : option (Z * Z) :=
  match mm with
  | None => Some (v, v)
  | Some (lo, hi) => Some (Z.min lo v, Z.max hi v)
  end.

Definition stats_update (st : Int32Stats) (values : list Z)
  (num_not_null num_null : Z) : Int32Stats :=
  {| min_max := fold_left widen (array_prefix num_not_null values) (min_max st);
     null_count := null_count st + num_null;
     non_null_count := non_null_count st + num_not_null |}.

Definition stats_merge (a b : Int32Stats) : Int32Stats :=
  {| min_max :=
       match min_max b with
       | None => min_max a
       | Some (lo, hi) => widen (widen (min_max a) lo) hi
       end;
     null_count := null_count a + null_count b;
     non_null_count := non_null_count a + non_null_count b |}.

Definition stats_empty : Int32Stats :=
  {| min_max := None; null_count := 0; non_null_count := 0 |}.

Definition statistics_ops : StatisticsOps Z Int32Stats Int32Stats :=
  {| TypedStats_new := fun _ => stats_empty;
     Stats_Update := stats_update;
     Stats_UpdateSpaced := fun st values valid_bits offset num_not_null num_null =>
       {| min_max :=
            fold_left
              (fun mm i =>
                 if bit_is_set valid_bits (offset + Z.of_nat i)
                 then widen mm (nth i values 0) else mm)
              (seq 0 (Z.to_nat (num_not_null + num_null))) (min_max st);
          null_count := null_count st + num_null;
          non_null_count := non_null_count st + num_not_null |};
     Stats_Encode := fun st => st;
     Stats_Merge := stats_merge;
     Stats_Reset := fun _ => stats_empty;
     EncodedStatistics_new := stats_empty;
     EncodedStatistics_is_set := fun st =>
       match min_max st with Some _ => true | None => false end |}.

(** The page writer reports the size of the page's buffer. *)
Definition page_writer_ops : PageWriterOps Int32Stats :=
  {| data_page_bytes_written := fun p => buffer_size (dp_buffer p);
     dictionary_page_bytes_written := fun p => buffer_size (dict_buffer p) |}.

Definition Writer : Type :=
  ColumnWriter Int32Encoder Int32Stats Int32Stats ByteCodec ByteCodec.

(** An uncompressed page writer that has received nothing. *)
Definition fresh_pager : PageWriter Int32Stats :=
  {| compressor := None; written := []; closed_with := None |}.

Definition properties (value_encoding : Encoding.type)
  (dictionary : bool) (dictionary_limit pagesize : Z) : WriterProperties :=
  {| encoding := fun _ => value_encoding;
     dictionary_enabled := fun _ => dictionary;
     dictionary_page_encoding := Encoding.PLAIN_DICTIONARY;
     dictionary_index_encoding := Encoding.PLAIN_DICTIONARY;
     dictionary_pagesize_limit := dictionary_limit;
     data_pagesize := pagesize;
     write_batch_size := 1024;
     statistics_enabled := fun _ => false |}.

Definition column (max_def max_rep : Z) : ColumnDescriptor :=
  {| physical_type := Type_.INT32; path := "a"%string;
     max_definition_level := max_def; max_repetition_level := max_rep;
     is_optional := 0 <? max_def |}.

(** A writer as its constructor leaves it. *)
Definition writer (descr : ColumnDescriptor) (expected_rows : Z)
  (value_encoding : Encoding.type) (props : WriterProperties) : Writer :=
  ColumnWriter_new descr fresh_pager expected_rows
    (Encoding.eqb value_encoding Encoding.PLAIN_DICTIONARY ||
     Encoding.eqb value_encoding Encoding.RLE_DICTIONARY)
    value_encoding props
    (match value_encoding with
     | Encoding.PLAIN => PlainEncoder []
     | _ => DictEncoder [] []
     end).
End Int32Column.

Unset Implicit Arguments.

(* ------------------------------------------------------------------ *)
(** ** Reasoning about methods *)

(** [wp c s Q X]: from state [s], [c] returns a value and a state that
    satisfy [Q], or throws an exception and leaves a state that satisfy
    [X]. *)
Definition wp {St A} (c : M St A) (s : St)
  (Q : A -> St -> Prop) (X : exn -> St -> Prop) : Prop :=
  match c s with
  | Ret a s' => Q a s'
  | Raise e s' => X e s'
  end.

(** No exception. *)
Definition never {St} : exn -> St -> Prop := fun _ _ => False.

Section Vocabulary.
Context {T E S ES R BW : Type}
        {rle_ops : RleEncoderOps R} {bw_ops : BitWriterOps BW}
        {enc_ops : EncoderOps T E} {stats_ops : StatisticsOps T S ES}
        {pw_ops : PageWriterOps ES}.
Local Abbreviation Writer := (ColumnWriter E S ES R BW).

(** The bytes [LevelEncoder] produces for the first [num] of [levels]
    with an RLE encoder over a region of [data_size] bytes. *)
Definition rle_encoded_levels (max_level data_size num : Z)
  (levels : list Z) : list byte :=
  RleEncoder_data
    (RleEncoder_Flush
       (fst (LevelEncoder.rle_put_loop
               (RleEncoder_new data_size (BitUtil.Log2 (max_level + 1)))
               (array_prefix num levels) 0))).

(** The size [LevelEncoder::MaxBufferSize] asks for the levels buffered
    in [w]. *)
Definition level_buffer_size (w : Writer) (max_level : Z) : Z :=
  RleEncoder_MaxBufferSize (BitUtil.Log2 (max_level + 1))
    (cast_int (num_buffered_values_ w)) +
  RleEncoder_MinBufferSize (BitUtil.Log2 (max_level + 1)).

(** The level buffer of a present level stream has room for its length
    prefix and its size fits an [int]. *)
Definition level_buffer_fits (w : Writer) (max_level : Z) : Prop :=
  max_level > 0 -> 0 <= level_buffer_size w max_level < 2 ^ 31 - 4.

(** The chunk of a level stream in a page: nothing when the stream is
    absent, else the length of the RLE bytes as a little-endian 32-bit
    integer, followed by the RLE bytes. *)
Definition level_chunk (w : Writer) (max_level : Z) (sink : list byte)
  : list byte :=
  if max_level >? 0 then
    let data :=
      rle_encoded_levels max_level (level_buffer_size w max_level)
        (cast_int (num_buffered_values_ w)) (levels_of_bytes sink) in
    int32_bytes (Z.of_nat (length data)) ++ data
  else [].

(** Per-page statistics exist whenever chunk statistics do, as the
    constructor leaves them. *)
Definition stats_ok (w : Writer) : Prop :=
  match chunk_statistics_ w, page_statistics_ w with
  | Some _, None => False
  | _, _ => True
  end.

(** Dictionary encoding is in use and has not fallen back. *)
Definition dict_active (w : Writer) : bool :=
  has_dictionary_ w && negb (fallback_ w).

(** The pages the page writer has received. *)
Definition sink (w : Writer) : list (Page ES) := written (pager_ w).

(** The uncompressed payload of the page [AddDataPage] cuts from [w]. *)
Definition page_payload (w : Writer) : list byte :=
  level_chunk w (max_repetition_level (descr_ w)) (repetition_levels_sink_ w) ++
  level_chunk w (max_definition_level (descr_ w)) (definition_levels_sink_ w) ++
  fst (Encoder_FlushValues (current_encoder_ w)).

(** What no page cut and no dictionary check assigns. *)
Definition same_settings (w w' : Writer) : Prop :=
  descr_ w' = descr_ w /\ properties_ w' = properties_ w /\
  expected_rows_ w' = expected_rows_ w /\
  has_dictionary_ w' = has_dictionary_ w /\
  closed_ w' = closed_ w /\ num_rows_ w' = num_rows_ w /\
  compressor (pager_ w') = compressor (pager_ w) /\
  closed_with (pager_ w') = closed_with (pager_ w).

(** The effect of [AddDataPage]: [page] is cut from [w] and queued or
    handed to the page writer. *)
Definition page_cut (w w' : Writer) (page : CompressedDataPage ES) : Prop :=
  dp_buffer page = PageWriter_.Compress (pager_ w) (uncompressed_data_ w') /\
  dp_num_values page = cast_int (num_buffered_values_ w) /\
  dp_encoding page = encoding_ w /\
  (if dict_active w
   then sink w' = sink w /\ data_pages_ w' = data_pages_ w ++ [page] /\
        total_bytes_written_ w' = total_bytes_written_ w
   else sink w' = sink w ++ [DataPage page] /\
        data_pages_ w' = data_pages_ w /\
        total_bytes_written_ w' =
        total_bytes_written_ w + data_page_bytes_written page) /\
  num_buffered_values_ w' = 0 /\ num_buffered_encoded_values_ w' = 0 /\
  definition_levels_sink_ w' = [] /\ repetition_levels_sink_ w' = [] /\
  current_encoder_ w' = snd (Encoder_FlushValues (current_encoder_ w)) /\
  fallback_ w' = fallback_ w /\ encoding_ w' = encoding_ w /\
  same_settings w w' /\ stats_ok w'.

(** The layout of the page [AddDataPage] cuts from [w]. *)
Definition page_layout (w w' : Writer) (page : CompressedDataPage ES)
  : Prop :=
  uncompressed_data_ w' = page_payload w /\
  dp_uncompressed_size page = buffer_size (page_payload w).

(** The pages a call cuts from the values buffered in [w]: none, or one
    page that carries the number of buffered level entries and the
    current value encoding. *)
Definition cut_from (w w' : Writer) (cuts : list (CompressedDataPage ES))
  : Prop :=
  (cuts = [] /\ num_buffered_values_ w' = num_buffered_values_ w) \/
  (exists page,
      cuts = [page] /\
      dp_num_values page = cast_int (num_buffered_values_ w) /\
      dp_encoding page = encoding_ w /\
      num_buffered_values_ w' = 0).

(** The effect of [FlushBufferedDataPages]. *)
Definition buffered_flushed (w w' : Writer)
  (cuts : list (CompressedDataPage ES)) : Prop :=
  cut_from w w' cuts /\
  (num_buffered_values_ w <= 0 <-> cuts = []) /\
  sink w' =
  sink w ++ map DataPage (if dict_active w then data_pages_ w ++ cuts
                          else cuts ++ data_pages_ w) /\
  data_pages_ w' = [] /\
  fallback_ w' = fallback_ w /\ encoding_ w' = encoding_ w /\
  same_settings w w' /\ stats_ok w'.

(** The effect of [WriteDictionaryPage]. *)
Definition dictionary_written (w w' : Writer) (page : DictionaryPage)
  : Prop :=
  sink w' = sink w ++ [DictPage page] /\
  dict_encoding page = dictionary_index_encoding (properties_ w) /\
  data_pages_ w' = data_pages_ w /\
  num_buffered_values_ w' = num_buffered_values_ w /\
  encoding_ w' = encoding_ w /\ fallback_ w' = fallback_ w /\
  same_settings w w' /\ (stats_ok w -> stats_ok w').

(** The effect of a dictionary fallback. *)
Definition fallen_back (w w' : Writer) (page : DictionaryPage)
  (cuts : list (CompressedDataPage ES)) : Prop :=
  cut_from w w' cuts /\
  (num_buffered_values_ w <= 0 <-> cuts = []) /\
  sink w' =
  sink w ++ DictPage page ::
    map DataPage (if dict_active w then data_pages_ w ++ cuts
                  else cuts ++ data_pages_ w) /\
  dict_encoding page = dictionary_index_encoding (properties_ w) /\
  data_pages_ w' = [] /\
  fallback_ w' = true /\ encoding_ w' = Encoding.PLAIN /\
  current_encoder_ w' = PlainEncoder_new (descr_ w) /\
  same_settings w w' /\ stats_ok w'.

(** What a call that may cut a page and may fall back does to the page
    writer and to the queue of deferred pages. *)
Definition emission (w w' : Writer) (cuts : list (CompressedDataPage ES))
  : Prop :=
  cut_from w w' cuts /\
  (if dict_active w
   then (fallback_ w' = false /\ encoding_ w' = encoding_ w /\
         sink w' = sink w /\ data_pages_ w' = data_pages_ w ++ cuts) \/
        (exists page,
            fallback_ w' = true /\ encoding_ w' = Encoding.PLAIN /\
            sink w' =
            sink w ++ DictPage page :: map DataPage (data_pages_ w ++ cuts) /\
            data_pages_ w' = [])
   else fallback_ w' = fallback_ w /\ encoding_ w' = encoding_ w /\
        sink w' = sink w ++ map DataPage cuts /\
        data_pages_ w' = data_pages_ w) /\
  same_settings w w' /\ stats_ok w'.

(** The rows [WriteMiniBatch] counts in a batch. *)
Definition rows_in_batch (w : Writer) (num_values : Z)
  (rep_levels : list Z) : Z :=
  if max_repetition_level (descr_ w) >? 0
  then count_levels (fun l => l =? 0) num_values rep_levels
  else cast_int num_values.

(** The writer when [WriteMiniBatch] compares [num_rows_] with
    [expected_rows_]: the levels of the batch are in the sinks and its
    rows are counted. *)
Definition levels_buffered (num_values : Z) (def_levels rep_levels : list Z)
  (w : Writer) : Writer :=
  let w1 :=
    if max_definition_level (descr_ w) >? 0
    then set_definition_levels_sink_
           (definition_levels_sink_ w ++
            bytes_of_levels (array_prefix num_values def_levels)) w
    else w in
  let w2 :=
    set_num_rows_ (num_rows_ w + rows_in_batch w num_values rep_levels) w1 in
  if max_repetition_level (descr_ w) >? 0
  then set_repetition_levels_sink_
         (repetition_levels_sink_ w ++
          bytes_of_levels (array_prefix num_values rep_levels)) w2
  else w2.

(** The writer [w2] when a mini-batch of [num_values] entries has been
    buffered in [w] and the page cut is about to be considered. *)
Definition batch_buffered (w w2 : Writer) (num_values : Z)
  (rep_levels : list Z) : Prop :=
  sink w2 = sink w /\ data_pages_ w2 = data_pages_ w /\
  fallback_ w2 = fallback_ w /\ encoding_ w2 = encoding_ w /\
  num_buffered_values_ w2 = num_buffered_values_ w + num_values /\
  num_rows_ w2 = num_rows_ w + rows_in_batch w num_values rep_levels /\
  descr_ w2 = descr_ w /\ properties_ w2 = properties_ w /\
  expected_rows_ w2 = expected_rows_ w /\
  has_dictionary_ w2 = has_dictionary_ w /\ closed_ w2 = closed_ w /\
  stats_ok w2.

Definition row_budget_error : exn :=
  ParquetException "More rows were written in the column chunk than expected".

(** The outcome of a mini-batch write: it returns after the emission of
    the pages it cut, or throws the row budget error with the levels
    buffered. *)
Definition mini_batch_written (w : Writer) (num_values : Z)
  (def_levels rep_levels : list Z) (w' : Writer) : Prop :=
  exists w2 cuts,
    batch_buffered w w2 num_values rep_levels /\
    num_rows_ w2 <= expected_rows_ w /\
    emission w2 w' cuts.

Definition mini_batch_refused (w : Writer) (num_values : Z)
  (def_levels rep_levels : list Z) (e : exn) (w' : Writer) : Prop :=
  e = row_budget_error /\
  w' = levels_buffered num_values def_levels rep_levels w /\
  num_rows_ w' > expected_rows_ w.
Definition row_count_error (num_rows expected_rows : Z) : exn :=
  ParquetException
    ("Written rows: " ++ dec num_rows ++ " != expected rows: " ++
     dec expected_rows ++ "in the current column chunk")%string.

(** The effect of [Close] on a writer that is not closed. *)
Definition closed_from (w w' : Writer)
  (cuts : list (CompressedDataPage ES)) : Prop :=
  cut_from w w' cuts /\
  (num_buffered_values_ w <= 0 <-> cuts = []) /\
  (if dict_active w
   then exists page,
       sink w' =
       sink w ++ DictPage page :: map DataPage (data_pages_ w ++ cuts) /\
       dict_encoding page = dictionary_index_encoding (properties_ w)
   else sink w' = sink w ++ map DataPage (cuts ++ data_pages_ w)) /\
  data_pages_ w' = [] /\ closed_ w' = true /\
  fallback_ w' = fallback_ w /\ encoding_ w' = encoding_ w /\
  closed_with (pager_ w') = Some (has_dictionary_ w, fallback_ w) /\
  descr_ w' = descr_ w /\ properties_ w' = properties_ w /\
  expected_rows_ w' = expected_rows_ w /\
  has_dictionary_ w' = has_dictionary_ w /\
  num_rows_ w' = num_rows_ w /\ stats_ok w'.

(** The end of [WriteMiniBatch] and of [WriteMiniBatchSpaced]: the page
    cut on the estimated size, then the dictionary size check. *)
Definition cut_and_check {A} (a : A) : M Writer A :=
  encoder <- gets current_encoder_ ;;
  properties <- gets properties_ ;;
  when (Encoder_EstimatedDataEncodedSize encoder >=? data_pagesize properties)
    AddDataPage ;;
  has_dictionary <- gets has_dictionary_ ;;
  fallback <- gets fallback_ ;;
  when (has_dictionary && negb fallback) CheckDictionarySizeLimit ;;
  ret a.
End Vocabulary.

(** The encoder never writes past the region it was given. *)
Class RleEncoderLaws (R : Type) {rle_ops : RleEncoderOps R} : Prop := {
  RleEncoder_fits : forall data_size bit_width levels n,
    Z.of_nat (length (RleEncoder_data
                        (RleEncoder_Flush
                           (fst (LevelEncoder.rle_put_loop
                                   (RleEncoder_new data_size bit_width)
                                   levels n))))) <= Z.max 0 data_size
}.
Arguments RleEncoderLaws R {rle_ops}.

Section Executions.
Context {T E S ES R BW : Type}
        {rle_ops : RleEncoderOps R} {bw_ops : BitWriterOps BW}
        {enc_ops : EncoderOps T E} {stats_ops : StatisticsOps T S ES}
        {pw_ops : PageWriterOps ES}.
Local Abbreviation Writer := (ColumnWriter E S ES R BW).

(** The arguments of one [WriteMiniBatch] call. *)
Record MiniBatch : Type := {
  num_values : Z;
  def_levels : list Z;
  rep_levels : list Z;
  values : list T
}.

(** The repetition levels of a batch: the [num_values] first entries of
    the array it designates. *)
Definition batch_rep_levels (b : MiniBatch) : list Z :=
  array_prefix (num_values b) (rep_levels b).

(** The repetition level entries of a batch that are zero. *)
Definition rows_started (b : MiniBatch) : Z :=
  Z.of_nat (count_occ Z.eq_dec (batch_rep_levels b) 0).

Definition sum (l : list Z) : Z := fold_right Z.add 0 l.

(** The level entries of a sequence of batches. *)
Definition total_levels (bs : list MiniBatch) : Z :=
  sum (map num_values bs).

(** Successive [WriteMiniBatch] calls, as long as none throws. *)
Fixpoint WriteMiniBatches (bs : list MiniBatch) : M Writer unit :=
  match bs with
  | [] => ret tt
  | b :: rest =>
      WriteMiniBatch (num_values b) (def_levels b) (rep_levels b) (values b) ;;
      WriteMiniBatches rest
  end.

(** A call of the write interface. *)
Inductive WriteCall : Type :=
| CallWriteBatch (num_values : Z) (def_levels rep_levels : list Z)
    (values : list T)
| CallWriteBatchSpaced (num_values : Z) (def_levels rep_levels : list Z)
    (valid_bits : list byte) (valid_bits_offset : Z) (values : list T)
| CallWriteMiniBatch (num_values : Z) (def_levels rep_levels : list Z)
    (values : list T)
| CallWriteMiniBatchSpaced (num_values : Z) (def_levels rep_levels : list Z)
    (valid_bits : list byte) (valid_bits_offset : Z) (values : list T).

Definition perform (c : WriteCall) : M Writer unit :=
  match c with
  | CallWriteBatch n d r v => WriteBatch n d r v
  | CallWriteBatchSpaced n d r bits off v => WriteBatchSpaced n d r bits off v
  | CallWriteMiniBatch n d r v => WriteMiniBatch n d r v ;; ret tt
  | CallWriteMiniBatchSpaced n d r bits off v =>
      WriteMiniBatchSpaced n d r bits off v ;; ret tt
  end.

(** The writer after a sequence of calls, each of which has returned or
    has thrown. *)
Definition after_calls (cs : list WriteCall) (w : Writer) : Writer :=
  fold_left (fun w c => state_of (perform c w)) cs w.

(** The pages of a list that are data pages, and the shapes of what the
    page writer may have received. *)
Definition data_pages_of (l : list (Page ES))
  : list (CompressedDataPage ES) :=
  flat_map (fun p => match p with DataPage d => [d] | DictPage _ => [] end) l.

Definition only_data_pages (l : list (Page ES)) : Prop :=
  exists pages, l = map DataPage pages.

Definition dictionary_page_first (l : list (Page ES)) : Prop :=
  exists dict pages, l = DictPage dict :: map DataPage pages.
End Executions.

Arguments MiniBatch T : clear implicits.

Section Shapes.
Context {T E S ES R BW : Type}
        {rle_ops : RleEncoderOps R} {bw_ops : BitWriterOps BW}
        {enc_ops : EncoderOps T E} {stats_ops : StatisticsOps T S ES}
        {pw_ops : PageWriterOps ES}.
Local Abbreviation Writer := (ColumnWriter E S ES R BW).

(** While the writer is open: nothing before the dictionary page, which
    comes first; data pages only without a dictionary. *)
Definition sink_ok (w : Writer) : Prop :=
  if has_dictionary_ w
  then if fallback_ w then dictionary_page_first (sink w) else sink w = []
  else only_data_pages (sink w).

(** The writer has fallen back to PLAIN and has handed over, after
    [base], data pages that are all PLAIN. *)
Definition plain_since (base : list (Page ES)) (w : Writer) : Prop :=
  fallback_ w = true /\ encoding_ w = Encoding.PLAIN /\
  data_pages_ w = [] /\
  exists pages,
    sink w = base ++ map DataPage pages /\
    Forall (fun p => dp_encoding p = Encoding.PLAIN) pages.

(** The data pages cut so far, handed over or deferred, in the order they
    were cut. *)
Definition cut_pages (w : Writer) : list (CompressedDataPage ES) :=
  data_pages_of (sink w) ++ data_pages_ w.

(** [groups] are the runs of batches the pages cut so far were cut from,
    one run per page, and [pending] are the batches buffered since the
    last cut. *)
Definition grouped (groups : list (list (MiniBatch T)))
  (pending : list (MiniBatch T)) (w : Writer) : Prop :=
  map (@dp_num_values ES) (cut_pages w) =
  map (fun g => cast_int (total_levels g)) groups /\
  num_buffered_values_ w = total_levels pending /\
  (dict_active w = false -> data_pages_ w = []) /\
  closed_ w = false /\ stats_ok w.
End Shapes.

Section Factory.
Context {T E S ES R BW : Type}
        {rle_ops : RleEncoderOps R} {bw_ops : BitWriterOps BW}
        {enc_ops : EncoderOps T E} {stats_ops : StatisticsOps T S ES}
        {pw_ops : PageWriterOps ES}.
Local Abbreviation Writer := (ColumnWriter E S ES R BW).

Definition writer_of (tw : TypedWriter Writer) : Writer :=
  match tw with
  | BoolWriter w | Int32Writer w | Int64Writer w | Int96Writer w
  | FloatWriter w | DoubleWriter w | ByteArrayWriter w
  | FixedLenByteArrayWriter w => w
  end.

(** The physical type a typed writer is instantiated at. *)
Definition writer_type (tw : TypedWriter Writer) : Type_.type :=
  match tw with
  | BoolWriter _ => Type_.BOOLEAN
  | Int32Writer _ => Type_.INT32
  | Int64Writer _ => Type_.INT64
  | Int96Writer _ => Type_.INT96
  | FloatWriter _ => Type_.FLOAT
  | DoubleWriter _ => Type_.DOUBLE
  | ByteArrayWriter _ => Type_.BYTE_ARRAY
  | FixedLenByteArrayWriter _ => Type_.FIXED_LEN_BYTE_ARRAY
  end.

Definition is_dictionary_encoding (e : Encoding.type) : bool :=
  Encoding.eqb e Encoding.PLAIN_DICTIONARY ||
  Encoding.eqb e Encoding.RLE_DICTIONARY.

(** C7 as the specification words it: with dictionary encoding enabled
    for a column that is not BOOLEAN, the writer made has the configured
    dictionary index encoding as value encoding. *)
Definition factory_selects_index_encoding descr (pager : PageWriter ES)
  expected_rows props : Prop :=
  dictionary_enabled props (path descr) &&
  negb (Type_.is_BOOLEAN (physical_type descr)) = true ->
  exists tw,
    Make (R := R) (BW := BW) descr pager expected_rows props tt = Ret tw tt /\
    encoding_ (writer_of tw) = dictionary_index_encoding props.
End Factory.

Section AsWorded.
Context {T E S ES R BW : Type}
        {rle_ops : RleEncoderOps R} {bw_ops : BitWriterOps BW}
        {enc_ops : EncoderOps T E} {stats_ops : StatisticsOps T S ES}
        {pw_ops : PageWriterOps ES}.
Local Abbreviation Writer := (ColumnWriter E S ES R BW).

(** [contains needle hay]: [needle] occurs in [hay]. *)
Fixpoint contains (needle hay : string) : bool :=
  prefix needle hay ||
  match hay with
  | EmptyString => false
  | String _ rest => contains needle rest
  end.

(** C3 as the specification words it, for the write: the error a write
    fails with carries both row counts. *)
Definition write_error_carries_counts (w : Writer) n d r (v : list T)
  : Prop :=
  forall e w',
    WriteMiniBatch n d r v w = Raise e w' ->
    exists msg,
      e = ParquetException msg /\
      contains (dec (num_rows_ w')) msg = true /\
      contains (dec (expected_rows_ w')) msg = true.

(** C5 as the specification words it: a call that falls back hands the
    deferred data pages to the page writer first, then the dictionary
    page. *)
Definition deferred_pages_before_dictionary (w w' : Writer) : Prop :=
  fallback_ w = false -> fallback_ w' = true ->
  exists dict rest,
    sink w' = sink w ++ map DataPage (data_pages_ w) ++ DictPage dict :: rest.


(** C9 as the specification words it: a batch of zero values leaves what
    can be observed of the writer as it was. *)
Definition empty_batch_changes_nothing (w : Writer) d r (v : list T)
  : Prop :=
  let w' := state_of (WriteBatch 0 d r v w) in
  sink w' = sink w /\ data_pages_ w' = data_pages_ w /\
  num_rows_ w' = num_rows_ w /\ fallback_ w' = fallback_ w /\
  encoding_ w' = encoding_ w /\
  total_bytes_written_ w' = total_bytes_written_ w.
End AsWorded.

(** ** Example column chunks *)

Module Int32Chunks.
Import Int32Column.

#[local] Existing Instance rle_encoder_ops.
#[local] Existing Instance bit_writer_ops.
#[local] Existing Instance encoder_ops.
#[local] Existing Instance statistics_ops.
#[local] Existing Instance page_writer_ops.

(** A nullable, repeated column, PLAIN, pages of at most 1000 bytes. *)
Definition nested_writer (expected_rows : Z) : Writer :=
  writer (column 1 1) expected_rows Encoding.PLAIN
    (properties Encoding.PLAIN false 100 1000).

(** A required column, PLAIN. *)
Definition required_writer (expected_rows : Z) : Writer :=
  writer (column 0 0) expected_rows Encoding.PLAIN
    (properties Encoding.PLAIN false 100 1000).

(** A required column with a dictionary, of the given size limit and
    data page size. *)
Definition dictionary_writer (limit pagesize : Z) : Writer :=
  writer (column 0 0) 4 Encoding.PLAIN_DICTIONARY
    (properties Encoding.PLAIN true limit pagesize).

(** The batch of scenario 5: six entries in three rows, one null. *)
Definition three_rows : MiniBatch Z :=
  {| num_values := 6; def_levels := [1; 1; 0; 1; 1; 1];
     rep_levels := [0; 1; 1; 0; 1; 0]; values := [10; 20; 30; 40; 50] |}.

(** The nested writer with the six entries buffered. *)
Definition buffered_writer : Writer :=
  state_of (WriteMiniBatches [three_rows] (nested_writer 3)).

(** The calls of a chunk that falls back: the dictionary reaches its
    limit of 8 bytes with the second value. *)
Definition falling_back : list (WriteCall (T := Z)) :=
  [CallWriteBatch 1 [] [] [10]; CallWriteBatch 1 [] [] [20];
   CallWriteBatch 2 [] [] [30; 40]].

(** The writer [dictionary_writer 4 2] is in when [WriteMiniBatch] of the
    value 10 reaches [CheckDictionarySizeLimit]: the page of the value is
    deferred and the dictionary has reached its limit of 4 bytes. *)
Definition writer_at_limit : Writer :=
  state_of
    (AddDataPage
       (set_num_buffered_encoded_values_ 1
          (set_num_buffered_values_ 1
             (set_current_encoder_ (DictEncoder [10] [0])
                (set_num_rows_ 1 (dictionary_writer 4 2)))))).

(** The writer [dictionary_writer 8 2] after the value 10 was written:
    its page is deferred, the dictionary is below its limit of 8 bytes. *)
Definition deferring_writer : Writer :=
  state_of (WriteMiniBatch 1 [] [] [10] (dictionary_writer 8 2)).

(** The same writer after the value 20 was written: the dictionary has
    reached its limit and the writer has fallen back. *)
Definition fallen_back_writer : Writer :=
  state_of (WriteMiniBatch 1 [] [] [20] deferring_writer).

(** Two batches of a nested column written with pages of 20 bytes: the
    first fills a page, the second is cut at the close. *)
Definition two_batches : list (MiniBatch Z) :=
  [three_rows;
   {| num_values := 3; def_levels := [0; 1; 0]; rep_levels := [0; 0; 0];
      values := [60] |}].

Definition small_page_properties : WriterProperties :=
  properties Encoding.PLAIN false 100 20.

Definition small_page_writer : Writer :=
  writer (column 1 1) 6 Encoding.PLAIN small_page_properties.

Definition two_batches_written : Writer :=
  state_of (WriteMiniBatches two_batches small_page_writer).

(** Properties that configure RLE_DICTIONARY as dictionary page encoding
    and PLAIN_DICTIONARY as dictionary index encoding. *)
Definition two_dictionary_encodings : WriterProperties :=
  {| encoding := fun _ => Encoding.PLAIN;
     dictionary_enabled := fun _ => true;
     dictionary_page_encoding := Encoding.RLE_DICTIONARY;
     dictionary_index_encoding := Encoding.PLAIN_DICTIONARY;
     dictionary_pagesize_limit := 1000;
     data_pagesize := 1000;
     write_batch_size := 1024;
     statistics_enabled := fun _ => false |}.

(** The writer after three rows were written to a chunk of two. *)
Definition over_budget_writer : Writer :=
  state_of (WriteMiniBatch 6 [1; 1; 0; 1; 1; 1] [0; 1; 1; 0; 1; 0]
              [10; 20; 30; 40; 50] (nested_writer 2)).
End Int32Chunks.

(* ------------------------------------------------------------------ *)
(** ** Further vocabulary: level encoder, byte counts, buffered levels *)

(** A level that an [int16_t] holds. *)
Definition int16 (l : Z) : Prop := - 2 ^ 15 <= l < 2 ^ 15.

(** The encodings [LevelEncoder] implements. *)
Definition level_encoding (e : Encoding.type) : bool :=
  Encoding.eqb e Encoding.RLE || Encoding.eqb e Encoding.BIT_PACKED.

Definition unknown_level_encoding : exn :=
  ParquetException "Unknown encoding type for levels.".

(** The encoder after [levels] have been offered to it one after the
    other with [put], whether it accepted them or not. *)
Definition offered {X} (put : X -> Z -> bool * X) (x : X) (levels : list Z)
  : X :=
  fold_left (fun x level => snd (put x level)) levels x.

(** [*(levels + i)]. *)
Definition level_at (i : Z) (levels : list Z) : Z :=
  nth (Z.to_nat i) levels 0.

(** [k] of the [batch_size] first levels of the array [levels] have been
    put into the encoder [x], which is left as [x']: the encoder has
    accepted each of the [k] first levels in turn; when levels remain it
    has refused the next one, and none has been offered after that. *)
Definition levels_put {X} (put : X -> Z -> bool * X) (x : X)
  (batch_size : Z) (levels : list Z) (k : Z) (x' : X) : Prop :=
  0 <= k <= Z.max 0 batch_size /\
  (forall i, 0 <= i < k ->
     fst (put (offered put x (array_prefix i levels)) (level_at i levels)) =
     true) /\
  (k < batch_size ->
     fst (put (offered put x (array_prefix k levels)) (level_at k levels)) =
     false) /\
  x' = offered put x (array_prefix (Z.min (k + 1) batch_size) levels).


Section Accounting.
Context {T E S ES R BW : Type}
        {rle_ops : RleEncoderOps R} {bw_ops : BitWriterOps BW}
        {enc_ops : EncoderOps T E} {stats_ops : StatisticsOps T S ES}
        {pw_ops : PageWriterOps ES}.
Local Abbreviation Writer := (ColumnWriter E S ES R BW).

(** The bytes the page writer reports for a page it is handed, and for a
    sequence of pages. *)
Definition page_bytes (p : Page ES) : Z :=
  match p with
  | DataPage d => data_page_bytes_written d
  | DictPage d => dictionary_page_bytes_written d
  end.

Definition sink_bytes (l : list (Page ES)) : Z := sum (map page_bytes l).

(** The part of [total_bytes_written_] that no page handed to the page
    writer accounts for. *)
Definition unaccounted (w : Writer) : Z :=
  total_bytes_written_ w - sink_bytes (sink w).

(** The level sinks and the counters of buffered entries are those of
    [w]; they are those of a writer that buffers nothing. *)
Definition buffer_kept (w w' : Writer) : Prop :=
  definition_levels_sink_ w' = definition_levels_sink_ w /\
  repetition_levels_sink_ w' = repetition_levels_sink_ w /\
  num_buffered_values_ w' = num_buffered_values_ w /\
  num_buffered_encoded_values_ w' = num_buffered_encoded_values_ w.

Definition buffer_cleared (w' : Writer) : Prop :=
  definition_levels_sink_ w' = [] /\ repetition_levels_sink_ w' = [] /\
  num_buffered_values_ w' = 0 /\ num_buffered_encoded_values_ w' = 0.

(** What the page cut and the dictionary check do to the byte count and to
    the buffered levels: the bytes they add are those of the pages they
    hand over, and the buffer is as it was or has been cut into a page. *)
Definition tracked (w w' : Writer) : Prop :=
  unaccounted w' = unaccounted w /\ descr_ w' = descr_ w /\
  (buffer_kept w w' \/ buffer_cleared w').

(** The values [WriteMiniBatch] writes of a batch: the entries at the
    maximum definition level, all of them for a column without definition
    levels. *)
Definition values_in_batch (w : Writer) (num_values : Z)
  (def_levels : list Z) : Z :=
  if max_definition_level (descr_ w) >? 0
  then count_levels (fun l => l =? max_definition_level (descr_ w))
         num_values def_levels
  else num_values.

(** The bytes a mini-batch appends to a level sink of a column whose
    maximum level is [max_level]. *)
Definition level_bytes (max_level num_values : Z) (levels : list Z)
  : list byte :=
  if max_level >? 0 then bytes_of_levels (array_prefix num_values levels)
  else [].

(** The writer when [WriteMiniBatch] has buffered a batch of which it
    writes [k] values, before it considers the page cut. *)
Definition batch_in_buffer (w w2 : Writer) (num_values k : Z)
  (def_levels rep_levels : list Z) : Prop :=
  definition_levels_sink_ w2 =
    definition_levels_sink_ w ++
    level_bytes (max_definition_level (descr_ w)) num_values def_levels /\
  repetition_levels_sink_ w2 =
    repetition_levels_sink_ w ++
    level_bytes (max_repetition_level (descr_ w)) num_values rep_levels /\
  num_buffered_values_ w2 = num_buffered_values_ w + num_values /\
  num_buffered_encoded_values_ w2 = num_buffered_encoded_values_ w + k /\
  unaccounted w2 = unaccounted w /\ descr_ w2 = descr_ w.

(** The slots [WriteMiniBatchSpaced] writes of a batch: for an optional
    column, the entries at the maximum definition level and those one
    level below it (the nulls of the column itself). *)
Definition spaced_values_in_batch (w : Writer) (num_values : Z)
  (def_levels : list Z) : Z :=
  if max_definition_level (descr_ w) >? 0
  then count_levels
         (fun l => l >=? (if is_optional (descr_ w)
                          then wrap_signed 16 (max_definition_level (descr_ w) - 1)
                          else max_definition_level (descr_ w)))
         num_values def_levels
  else num_values.

(** The level bytes the batches [pending] append to the sink of a level
    stream, and the writer that buffers exactly these batches. *)
Definition pending_level_bytes (max_level : Z)
  (levels_of : MiniBatch T -> list Z) (pending : list (MiniBatch T))
  : list byte :=
  flat_map (fun b => level_bytes max_level (num_values b) (levels_of b))
    pending.

Definition buffers (pending : list (MiniBatch T)) (w : Writer) : Prop :=
  num_buffered_values_ w = total_levels pending /\
  definition_levels_sink_ w =
    pending_level_bytes (max_definition_level (descr_ w))
      (@def_levels T) pending /\
  repetition_levels_sink_ w =
    pending_level_bytes (max_repetition_level (descr_ w))
      (@rep_levels T) pending.

(** The data pages cut so far: those handed to the page writer and those
    deferred. *)
Definition pages_cut (w : Writer) : Z :=
  Z.of_nat (length (data_pages_of (sink w)) + length (data_pages_ w)).

(** What a call that may cut a page does to the buffered levels: it cuts
    no page and keeps them, or it cuts one page and nothing is buffered. *)
Definition cut_or_kept (w w' : Writer) : Prop :=
  descr_ w' = descr_ w /\
  ((pages_cut w' = pages_cut w /\ buffer_kept w w') \/
   (pages_cut w' = pages_cut w + 1 /\ buffer_cleared w')).

(** The batches written since the last page cut, after the
    [WriteMiniBatch] calls [bs] on [w], where [pending] are those before
    the calls: a call during which a page is cut leaves none, any other
    call adds its batch. *)
Fixpoint since_last_cut (bs pending : list (MiniBatch T)) (w : Writer)
  : list (MiniBatch T) :=
  match bs with
  | [] => pending
  | b :: rest =>
      let w' :=
        state_of (WriteMiniBatch (num_values b) (def_levels b) (rep_levels b)
                    (values b) w) in
      since_last_cut rest
        (if pages_cut w <? pages_cut w' then [] else pending ++ [b]) w'
  end.

(** The level entries of a batch: the [num_values] first entries of the
    array it designates. *)
Definition batch_def_levels (b : MiniBatch T) : list Z :=
  array_prefix (num_values b) (def_levels b).

(** The arrays of a batch hold [num_values] levels, each an [int16_t]. *)
Definition well_formed_levels (levels_of : MiniBatch T -> list Z)
  (b : MiniBatch T) : Prop :=
  0 <= num_values b <= Z.of_nat (length (levels_of b)) /\
  Forall int16 (levels_of b).

(** What a mini-batch write that returns leaves as it was, and the rows
    it counts. *)
Definition rows_counted (w : Writer) (rows : Z) (w' : Writer) : Prop :=
  stats_ok w' /\ descr_ w' = descr_ w /\ properties_ w' = properties_ w /\
  num_rows_ w' = num_rows_ w + rows.

(** The members of a writer that configure it. *)
Definition same_configuration (w w' : Writer) : Prop :=
  descr_ w' = descr_ w /\ properties_ w' = properties_ w /\
  expected_rows_ w' = expected_rows_ w /\
  has_dictionary_ w' = has_dictionary_ w /\ closed_ w' = closed_ w.

(** No page is deferred unless dictionary encoding is in use. *)
Definition defers_for_dictionary_only (w : Writer) : Prop :=
  dict_active w = false -> data_pages_ w = [].

(** The value encoding of [w'] is the one of [w], or [w] used a dictionary
    and [w'] has fallen back to PLAIN. *)
Definition encoding_kept_or_fallen_back (w w' : Writer) : Prop :=
  has_dictionary_ w' = has_dictionary_ w /\
  ((fallback_ w' = fallback_ w /\ encoding_ w' = encoding_ w) \/
   (dict_active w = true /\ fallback_ w' = true /\
    encoding_ w' = Encoding.PLAIN)).

(** What [GetPageStatistics] returns for [w]. *)
Definition page_statistics_encoded (w : Writer) : ES :=
  match page_statistics_ w with
  | Some st => Stats_Encode st
  | None => EncodedStatistics_new
  end.

(** The dictionary page [WriteDictionaryPage] makes of the encoder of [w]. *)
Definition dictionary_page_of (w : Writer) : DictionaryPage :=
  {| dict_buffer :=
       write_at 0 (DictEncoder_WriteDict (current_encoder_ w))
         (Resize (DictEncoder_dict_encoded_size (current_encoder_ w)) []);
     dict_num_values :=
       DictEncoder_num_entries (DictEncoder_FreeAll (current_encoder_ w));
     dict_encoding := dictionary_index_encoding (properties_ w) |}.
End Accounting.

Section ClosedFlag.
Context {T E S ES R BW : Type}
        {rle_ops : RleEncoderOps R} {bw_ops : BitWriterOps BW}
        {enc_ops : EncoderOps T E} {stats_ops : StatisticsOps T S ES}
        {pw_ops : PageWriterOps ES}.
Local Abbreviation Writer := (ColumnWriter E S ES R BW).

(** An outcome with the [closed_] flag of its writer set to [b]. *)
Definition with_closed {A} (b : bool) (o : outcome Writer A)
  : outcome Writer A :=
  match o with
  | Ret a s => Ret a (set_closed_ b s)
  | Raise e s => Raise e (set_closed_ b s)
  end.

(** A method that neither reads nor writes [closed_]. *)
Definition ignores_closed {A} (c : M Writer A) : Prop :=
  forall b w, c (set_closed_ b w) = with_closed b (c w).
End ClosedFlag.

Section Metadata.
Context {T E S ES R BW : Type}
        {rle_ops : RleEncoderOps R} {bw_ops : BitWriterOps BW}
        {enc_ops : EncoderOps T E} {stats_ops : StatisticsOps T S ES}
        {pw_ops : PageWriterOps ES}.
Local Abbreviation Writer := (ColumnWriter E S ES R BW).

(** A method that leaves the statistics given to the metadata builder as
    they were, whether it returns or throws. *)
Definition keeps_metadata {A} (c : M Writer A) : Prop :=
  forall w, metadata_ (state_of (c w)) = metadata_ w.

(** What [GetChunkStatistics] returns for [w]. *)
Definition chunk_statistics_encoded (w : Writer) : ES :=
  match chunk_statistics_ w with
  | Some st => Stats_Encode st
  | None => EncodedStatistics_new
  end.
End Metadata.

(** ** More example column chunks *)

Module Int32Cases.
Import Int32Column Int32Chunks.

#[local] Existing Instance rle_encoder_ops.
#[local] Existing Instance bit_writer_ops.
#[local] Existing Instance encoder_ops.
#[local] Existing Instance statistics_ops.
#[local] Existing Instance page_writer_ops.

(** A level encoder initialised for RLE over a region of two bytes. *)
Definition two_byte_encoder : LevelEncoder.t ByteCodec ByteCodec :=
  state_of (LevelEncoder.Init Encoding.RLE 1 3 2 LevelEncoder.new).

(** The slots of [three_rows], with a slot for its null, and their
    validity bitmap. *)
Definition three_rows_slots : list Z := [10; 20; 0; 30; 40; 50].
Definition three_rows_valid : list byte := [59].

(** Properties that chunk batches by two entries. *)
Definition chunking_properties : WriterProperties :=
  {| encoding := fun _ => Encoding.PLAIN;
     dictionary_enabled := fun _ => false;
     dictionary_page_encoding := Encoding.PLAIN_DICTIONARY;
     dictionary_index_encoding := Encoding.PLAIN_DICTIONARY;
     dictionary_pagesize_limit := 100;
     data_pagesize := 1000;
     write_batch_size := 2;
     statistics_enabled := fun _ => false |}.

(** A nullable, repeated column written in chunks of two entries. *)
Definition chunking_writer : Writer :=
  writer (column 1 1) 3 Encoding.PLAIN chunking_properties.

(** Properties that enable statistics. *)
Definition statistics_properties : WriterProperties :=
  {| encoding := fun _ => Encoding.PLAIN;
     dictionary_enabled := fun _ => false;
     dictionary_page_encoding := Encoding.PLAIN_DICTIONARY;
     dictionary_index_encoding := Encoding.PLAIN_DICTIONARY;
     dictionary_pagesize_limit := 100;
     data_pagesize := 1000;
     write_batch_size := 1024;
     statistics_enabled := fun _ => true |}.

(** A required column with statistics, as its constructor leaves it, and
    after three values. *)
Definition new_statistics_writer : Writer :=
  set_chunk_statistics_ (Some stats_empty)
    (set_page_statistics_ (Some stats_empty)
       (writer (column 0 0) 3 Encoding.PLAIN statistics_properties)).

Definition statistics_writer : Writer :=
  state_of (WriteMiniBatch 3 [] [] [30; 10; 20] new_statistics_writer).

(** The five entries written to [chunking_writer]: three rows. *)
Definition five_entries_def : list Z := [1; 1; 0; 1; 1].
Definition five_entries_rep : list Z := [0; 1; 0; 0; 1].
Definition five_entries_values : list Z := [10; 20; 30; 40].
Definition five_entries_slots : list Z := [10; 20; 0; 30; 40].
Definition five_entries_valid : list byte := [27].

(** A required column after a batch of three values for a chunk of two
    rows. *)
Definition refused_writer : Writer :=
  state_of (WriteBatch 3 [] [] [1; 2; 3] (required_writer 2)).


End Int32Cases.

(* ------------------------------------------------------------------ *)
(** * Properties *)

Section WpRules.
Context {St : Type}.
Implicit Types (s : St) (X : exn -> St -> Prop).

Lemma wp_ret A (a : A) s (Q : A -> St -> Prop) X :
  Q a s -> wp (ret a) s Q X.
Proof. exact (fun H => H). Qed.

Lemma wp_bind A B (c : M St A) (k : A -> M St B) s (Q : B -> St -> Prop) X :
  wp c s (fun a s' => wp (k a) s' Q X) X -> wp (bind c k) s Q X.
Proof. unfold wp, bind. destruct (c s); auto. Qed.

Lemma wp_gets A (f : St -> A) s (Q : A -> St -> Prop) X :
  Q (f s) s -> wp (gets f) s Q X.
Proof. exact (fun H => H). Qed.

Lemma wp_modify (f : St -> St) s (Q : unit -> St -> Prop) X :
  Q tt (f s) -> wp (modify f) s Q X.
Proof. exact (fun H => H). Qed.

Lemma wp_throw A e s (Q : A -> St -> Prop) X :
  X e s -> wp (throw e) s Q X.
Proof. exact (fun H => H). Qed.

Lemma wp_when (c : bool) (m : M St unit) s (Q : unit -> St -> Prop) X :
  (c = true -> wp m s Q X) -> (c = false -> Q tt s) -> wp (when c m) s Q X.
Proof. destruct c; cbn; auto. Qed.

Lemma wp_conseq A (c : M St A) s (Q Q' : A -> St -> Prop) X X' :
  wp c s Q X ->
  (forall a s', Q a s' -> Q' a s') ->
  (forall e s', X e s' -> X' e s') ->
  wp c s Q' X'.
Proof. unfold wp. destruct (c s); auto. Qed.

Lemma wp_on_member Sub A (proj : St -> Sub) (upd : Sub -> St -> St)
  (c : M Sub A) s (Q : A -> St -> Prop) X :
  wp c (proj s) (fun a m => Q a (upd m s)) (fun e m => X e (upd m s)) ->
  wp (on_member proj upd c) s Q X.
Proof. unfold wp, on_member. destruct (c (proj s)); auto. Qed.

Lemma wp_returns A (c : M St A) s (Q : A -> St -> Prop) :
  wp c s Q never -> exists a s', c s = Ret a s' /\ Q a s'.
Proof.
  unfold wp, never. destruct (c s) as [a s'|e s']; [eauto | contradiction].
Qed.

Lemma wp_state_of A (c : M St A) s (P : St -> Prop) :
  wp c s (fun _ => P) (fun _ => P) -> P (state_of (c s)).
Proof. unfold wp. destruct (c s); auto. Qed.

Lemma wp_of_eq A (c : M St A) s o (Q : A -> St -> Prop) X :
  c s = o ->
  match o with Ret a s' => Q a s' | Raise e s' => X e s' end ->
  wp c s Q X.
Proof. unfold wp. intros ->. auto. Qed.
End WpRules.

(** One step through the body of a method. *)
Ltac wp_step :=
  lazymatch goal with
  | |- wp (bind _ _) _ _ _ => apply wp_bind
  | |- wp (ret _) _ _ _ => apply wp_ret
  | |- wp (gets _) _ _ _ => apply wp_gets
  | |- wp (modify _) _ _ _ => apply wp_modify
  | |- wp (throw _) _ _ _ => apply wp_throw
  | |- wp (on_member _ _ _) _ _ _ => apply wp_on_member
  end.

Ltac wp_steps := repeat wp_step.

(** Use the specification [H] of the method call the goal starts with. *)
Ltac wp_call H :=
  lazymatch goal with
  | |- wp (bind _ _) _ _ _ => apply wp_bind; eapply wp_conseq; [ eapply H | | ]
  | |- _ => eapply wp_conseq; [ eapply H | | ]
  end.

(* ------------------------------------------------------------------ *)
(** ** Buffers *)

Lemma length_Resize n buf : length (Resize n buf) = Z.to_nat n.
Proof.
  unfold Resize. rewrite length_app, length_firstn, repeat_length. lia.
Qed.

Lemma write_at_app pre src rest :
  (length src <= length rest)%nat ->
  write_at (length pre) src (pre ++ rest) =
  pre ++ src ++ skipn (length src) rest.
Proof.
  intros Hle. unfold write_at.
  rewrite firstn_app, firstn_all, Nat.sub_diag, firstn_O, app_nil_r.
  rewrite firstn_all2 by (rewrite length_app; lia).
  rewrite skipn_app, skipn_all2 by lia.
  replace (length pre + length src - length pre)%nat with (length src) by lia.
  reflexivity.
Qed.

Lemma write_at_0 src buf :
  (length src <= length buf)%nat ->
  write_at 0 src buf = src ++ skipn (length src) buf.
Proof. intros H. exact (write_at_app [] src buf H). Qed.

Lemma length_write_at off src buf :
  length (write_at off src buf) = length buf.
Proof.
  unfold write_at.
  rewrite !length_app, !length_firstn, length_skipn. lia.
Qed.

(** Three stores that tile a buffer leave the concatenation of what was
    stored. *)
Lemma write_at_tile (a b c buf : list byte) :
  length buf = (length a + length b + length c)%nat ->
  write_at (length a + length b) c
    (write_at (length a) b (write_at 0 a buf)) = a ++ b ++ c.
Proof.
  intros Hlen.
  rewrite write_at_0 by lia.
  rewrite write_at_app by (rewrite length_skipn; lia).
  rewrite app_assoc, <- length_app.
  rewrite write_at_app by (rewrite !length_skipn; lia).
  rewrite skipn_all2 by (rewrite !length_skipn; lia).
  rewrite app_nil_r, <- app_assoc. reflexivity.
Qed.

(** A length prefix stored in front of the bytes it counts. *)
Lemma firstn_prefixed (hdr data buf : list byte) :
  length hdr = 4%nat ->
  (4 + length data <= length buf)%nat ->
  firstn (4 + length data) (write_at 0 hdr (write_at 4 data buf)) = hdr ++ data.
Proof.
  intros Hh Hlen.
  assert (Hp : length (firstn 4 buf) = 4%nat) by (rewrite length_firstn; lia).
  assert (Hq : (length data <= length (skipn 4 buf))%nat)
    by (rewrite length_skipn; lia).
  assert (H1 : write_at 4 data buf =
               firstn 4 buf ++ data ++ skipn (length data) (skipn 4 buf)).
  { rewrite <- (firstn_skipn 4 buf) at 1.
    rewrite <- (write_at_app (firstn 4 buf) data (skipn 4 buf) Hq).
    rewrite Hp. reflexivity. }
  rewrite H1.
  rewrite write_at_0 by (rewrite !length_app; lia).
  rewrite Hh, skipn_app, Hp, Nat.sub_diag, skipn_all2 by lia.
  cbn [skipn app].
  rewrite app_assoc.
  replace (4 + length data)%nat with (length (hdr ++ data))
    by (rewrite length_app; lia).
  rewrite firstn_app, firstn_all, Nat.sub_diag, firstn_O, app_nil_r.
  reflexivity.
Qed.

Lemma length_int32_bytes v : length (int32_bytes v) = 4%nat.
Proof. reflexivity. Qed.

Lemma cast_int_id x : - 2 ^ 31 <= x < 2 ^ 31 -> cast_int x = x.
Proof.
  intros H. unfold cast_int, wrap_signed.
  change (2 ^ 32 / 2) with (2 ^ 31).
  rewrite Z.mod_small by lia. lia.
Qed.

(** Reduce member accesses on assigned states, and nothing else. *)
Ltac simpl_state :=
  cbn [
    descr_ metadata_ pager_ expected_rows_ has_dictionary_ encoding_
    properties_ num_buffered_values_ num_buffered_encoded_values_
    num_rows_ total_bytes_written_ closed_ fallback_
    definition_levels_sink_ repetition_levels_sink_
    definition_levels_rle_ repetition_levels_rle_ uncompressed_data_
    compressed_data_ level_encoder_ data_pages_ current_encoder_
    page_statistics_ chunk_statistics_ set_metadata_ set_pager_
    set_encoding_ set_num_buffered_values_
    set_num_buffered_encoded_values_ set_num_rows_
    set_total_bytes_written_ set_closed_ set_fallback_
    set_definition_levels_sink_ set_repetition_levels_sink_
    set_definition_levels_rle_ set_repetition_levels_rle_
    set_uncompressed_data_ set_compressed_data_ set_level_encoder_
    set_data_pages_ set_current_encoder_ set_page_statistics_
    set_chunk_statistics_ LevelEncoder.bit_width_
    LevelEncoder.rle_length_ LevelEncoder.encoding_
    LevelEncoder.rle_encoder_ LevelEncoder.bit_packed_encoder_
    LevelEncoder.set_bit_width_ LevelEncoder.set_rle_length_
    LevelEncoder.set_encoding_ LevelEncoder.set_rle_encoder_
    LevelEncoder.set_bit_packed_encoder_ deref assign
    definition_levels_rle_ref repetition_levels_rle_ref written
    compressor closed_with set_written set_closed_with fst snd
    ColumnWriter_new LevelEncoder.new Encoding.eqb dp_buffer dp_num_values
    dp_encoding dp_uncompressed_size dp_statistics dict_buffer
    dict_num_values dict_encoding ] in *.

(** The same, in the goal only. *)
Ltac simpl_goal :=
  cbn [
    descr_ metadata_ pager_ expected_rows_ has_dictionary_ encoding_
    properties_ num_buffered_values_ num_buffered_encoded_values_
    num_rows_ total_bytes_written_ closed_ fallback_
    definition_levels_sink_ repetition_levels_sink_
    definition_levels_rle_ repetition_levels_rle_ uncompressed_data_
    compressed_data_ level_encoder_ data_pages_ current_encoder_
    page_statistics_ chunk_statistics_ set_metadata_ set_pager_
    set_encoding_ set_num_buffered_values_
    set_num_buffered_encoded_values_ set_num_rows_
    set_total_bytes_written_ set_closed_ set_fallback_
    set_definition_levels_sink_ set_repetition_levels_sink_
    set_definition_levels_rle_ set_repetition_levels_rle_
    set_uncompressed_data_ set_compressed_data_ set_level_encoder_
    set_data_pages_ set_current_encoder_ set_page_statistics_
    set_chunk_statistics_ LevelEncoder.bit_width_
    LevelEncoder.rle_length_ LevelEncoder.encoding_
    LevelEncoder.rle_encoder_ LevelEncoder.bit_packed_encoder_
    LevelEncoder.set_bit_width_ LevelEncoder.set_rle_length_
    LevelEncoder.set_encoding_ LevelEncoder.set_rle_encoder_
    LevelEncoder.set_bit_packed_encoder_ deref assign
    definition_levels_rle_ref repetition_levels_rle_ref written
    compressor closed_with set_written set_closed_with fst snd
    ColumnWriter_new LevelEncoder.new Encoding.eqb dp_buffer dp_num_values
    dp_encoding dp_uncompressed_size dp_statistics dict_buffer
    dict_num_values dict_encoding ].

Section Properties.
Context {T E S ES R BW : Type}
        {rle_ops : RleEncoderOps R} {bw_ops : BitWriterOps BW}
        {enc_ops : EncoderOps T E} {stats_ops : StatisticsOps T S ES}
        {pw_ops : PageWriterOps ES}.
Local Abbreviation Writer := (ColumnWriter E S ES R BW).
Implicit Types (w : Writer).

(** Two writers with the same members are equal. *)
Lemma ColumnWriter_ext (w1 w2 : Writer) :
  descr_ w1 = descr_ w2 ->
  metadata_ w1 = metadata_ w2 ->
  pager_ w1 = pager_ w2 ->
  expected_rows_ w1 = expected_rows_ w2 ->
  has_dictionary_ w1 = has_dictionary_ w2 ->
  encoding_ w1 = encoding_ w2 ->
  properties_ w1 = properties_ w2 ->
  num_buffered_values_ w1 = num_buffered_values_ w2 ->
  num_buffered_encoded_values_ w1 = num_buffered_encoded_values_ w2 ->
  num_rows_ w1 = num_rows_ w2 ->
  total_bytes_written_ w1 = total_bytes_written_ w2 ->
  closed_ w1 = closed_ w2 ->
  fallback_ w1 = fallback_ w2 ->
  definition_levels_sink_ w1 = definition_levels_sink_ w2 ->
  repetition_levels_sink_ w1 = repetition_levels_sink_ w2 ->
  definition_levels_rle_ w1 = definition_levels_rle_ w2 ->
  repetition_levels_rle_ w1 = repetition_levels_rle_ w2 ->
  uncompressed_data_ w1 = uncompressed_data_ w2 ->
  compressed_data_ w1 = compressed_data_ w2 ->
  level_encoder_ w1 = level_encoder_ w2 ->
  data_pages_ w1 = data_pages_ w2 ->
  current_encoder_ w1 = current_encoder_ w2 ->
  page_statistics_ w1 = page_statistics_ w2 ->
  chunk_statistics_ w1 = chunk_statistics_ w2 ->
  w1 = w2.
Proof.
  destruct w1, w2. cbn. intros. subst. reflexivity.
Qed.

(** Assignments to the level encoder and to a level buffer commute and
    absorb earlier ones. *)
Lemma assign_level_encoder (dest : buffer_ref) b l w :
  dest = definition_levels_rle_ref \/ dest = repetition_levels_rle_ref ->
  set_level_encoder_ l (assign dest b w) =
  assign dest b (set_level_encoder_ l w).
Proof. intros [-> | ->]; reflexivity. Qed.

Lemma assign_assign (dest : buffer_ref) b b' w :
  dest = definition_levels_rle_ref \/ dest = repetition_levels_rle_ref ->
  assign dest b (assign dest b' w) = assign dest b w.
Proof. intros [-> | ->]; reflexivity. Qed.

Lemma set_level_encoder_twice l l' w :
  set_level_encoder_ l (set_level_encoder_ l' w) = set_level_encoder_ l w.
Proof. reflexivity. Qed.

Lemma deref_assign (dest : buffer_ref) b w :
  dest = definition_levels_rle_ref \/ dest = repetition_levels_rle_ref ->
  deref dest (assign dest b w) = b.
Proof. intros [-> | ->]; reflexivity. Qed.

Lemma deref_set_level_encoder (dest : buffer_ref) l w :
  dest = definition_levels_rle_ref \/ dest = repetition_levels_rle_ref ->
  deref dest (set_level_encoder_ l w) = deref dest w.
Proof. intros [-> | ->]; reflexivity. Qed.

Lemma level_encoder_assign (dest : buffer_ref) b w :
  dest = definition_levels_rle_ref \/ dest = repetition_levels_rle_ref ->
  level_encoder_ (assign dest b w) = level_encoder_ w.
Proof. intros [-> | ->]; reflexivity. Qed.

Lemma num_buffered_values_assign (dest : buffer_ref) b w :
  dest = definition_levels_rle_ref \/ dest = repetition_levels_rle_ref ->
  num_buffered_values_ (assign dest b w) = num_buffered_values_ w.
Proof. intros [-> | ->]; reflexivity. Qed.

Lemma LevelEncoder_Init_RLE (le : LevelEncoder.t R BW) max_level n size :
  LevelEncoder.Init Encoding.RLE max_level n size le =
  Ret tt
    (LevelEncoder.set_rle_encoder_
       (Some (RleEncoder_new size (BitUtil.Log2 (max_level + 1))))
       (LevelEncoder.set_encoding_ Encoding.RLE
          (LevelEncoder.set_bit_width_ (BitUtil.Log2 (max_level + 1)) le))).
Proof. reflexivity. Qed.

Lemma LevelEncoder_Encode_RLE (le : LevelEncoder.t R BW) r n levels :
  LevelEncoder.encoding_ le = Encoding.RLE ->
  LevelEncoder.rle_encoder_ le = Some r ->
  let run := LevelEncoder.rle_put_loop r (array_prefix n levels) 0 in
  let r' := RleEncoder_Flush (fst run) in
  LevelEncoder.Encode n levels le =
  Ret (snd run)
    (LevelEncoder.set_rle_length_ (RleEncoder_len r')
       (LevelEncoder.set_rle_encoder_ (Some r') le)).
Proof.
  intros Henc Hr run r'. subst r' run.
  unfold LevelEncoder.Encode, bind, gets. rewrite Hr, Henc. cbn [Encoding.eqb].
  destruct (LevelEncoder.rle_put_loop r (array_prefix n levels) 0).
  reflexivity.
Qed.

Lemma LevelEncoder_len_RLE (le : LevelEncoder.t R BW) :
  LevelEncoder.encoding_ le = Encoding.RLE ->
  LevelEncoder.len le = Ret (LevelEncoder.rle_length_ le) le.
Proof.
  intros Henc. unfold LevelEncoder.len, bind, gets. rewrite Henc.
  reflexivity.
Qed.

(** [Init] then [Encode] on the level encoder, for an RLE stream. *)
Lemma LevelEncoder_run_RLE (le : LevelEncoder.t R BW) max_level n size levels :
  exists encoded le',
    LevelEncoder.Encode n levels
      (state_of (LevelEncoder.Init Encoding.RLE max_level n size le)) =
    Ret encoded le' /\
    LevelEncoder.rle_bytes le' = rle_encoded_levels max_level size n levels /\
    LevelEncoder.encoding_ le' = Encoding.RLE /\
    LevelEncoder.rle_length_ le' =
    Z.of_nat (length (rle_encoded_levels max_level size n levels)).
Proof.
  rewrite LevelEncoder_Init_RLE. cbn [state_of].
  do 2 eexists. split.
  - eapply LevelEncoder_Encode_RLE; reflexivity.
  - repeat split.
Qed.

Lemma RleEncodeLevels_spec {laws : RleEncoderLaws R} src dest max_level w :
  dest = definition_levels_rle_ref \/ dest = repetition_levels_rle_ref ->
  wp (RleEncodeLevels src dest max_level) w
    (fun size w' =>
       exists B L,
         w' = assign dest B (set_level_encoder_ L w) /\
         (0 <= level_buffer_size w max_level < 2 ^ 31 - 4 ->
          let data :=
            rle_encoded_levels max_level (level_buffer_size w max_level)
              (cast_int (num_buffered_values_ w)) (levels_of_bytes src) in
          size = 4 + Z.of_nat (length data) /\
          firstn (Z.to_nat size) B =
          int32_bytes (Z.of_nat (length data)) ++ data))
    never.
Proof.
  intros Hdest.
  set (room := cast_int
                 (cast_int
                    (buffer_size
                       (Resize (level_buffer_size w max_level + 4)
                          (deref dest w))) - 4)).
  destruct (LevelEncoder_run_RLE (level_encoder_ w) max_level
              (cast_int (num_buffered_values_ w)) room
              (levels_of_bytes src))
    as (encoded & le' & Hrun & Hbytes & Henc & Hlen).
  rewrite LevelEncoder_Init_RLE in Hrun. cbn [state_of] in Hrun.
  unfold RleEncodeLevels, LevelEncoder.MaxBufferSize, on_level_encoder.
  destruct Hdest; subst dest.
  all: wp_steps; simpl_goal.
  all: fold (level_buffer_size w max_level).
  all: (eapply wp_of_eq; [ apply LevelEncoder_Init_RLE | cbv beta iota ]).
  all: wp_steps; simpl_goal.
  all: (eapply wp_of_eq; [ exact Hrun | cbv beta iota ]).
  all: wp_steps; simpl_goal.
  all: (eapply wp_of_eq; [ apply LevelEncoder_len_RLE, Henc | cbv beta iota ]).
  all: wp_steps; simpl_goal.
  all: (eapply wp_of_eq; [ apply LevelEncoder_len_RLE, Henc | cbv beta iota ]).
  all: wp_steps; simpl_goal.
  all: rewrite Hlen, Hbytes.
  all: (eexists; eexists; split;
        [ apply ColumnWriter_ext; simpl_goal; reflexivity | ]).
  all: intros Hsize; cbv zeta.
  all: assert (Hroom : room = level_buffer_size w max_level)
         by (subst room; unfold buffer_size;
             rewrite length_Resize, Z2Nat.id by lia;
             rewrite (cast_int_id (level_buffer_size w max_level + 4))
               by lia;
             rewrite cast_int_id by lia; lia).
  all: simpl_state; rewrite Hroom.
  all: set (data := rle_encoded_levels max_level
                      (level_buffer_size w max_level)
                      (cast_int (num_buffered_values_ w))
                      (levels_of_bytes src)).
  all: assert (Hfits : Z.of_nat (length data) <=
                       level_buffer_size w max_level)
         by (pose proof (RleEncoder_fits (level_buffer_size w max_level)
                           (BitUtil.Log2 (max_level + 1))
                           (array_prefix (cast_int (num_buffered_values_ w))
                              (levels_of_bytes src)) 0);
             subst data; unfold rle_encoded_levels; lia).
  all: (split; [lia|]).
  all: replace (Z.to_nat (Z.of_nat (length data) + 4))
         with (4 + length data)%nat by lia.
  all: (apply firstn_prefixed; [reflexivity|]).
  all: rewrite length_Resize; lia.
Qed.

Lemma memcpy_concat (rep_buf def_buf values buf a b : list byte) rs ds :
  firstn (Z.to_nat rs) rep_buf = a ->
  firstn (Z.to_nat ds) def_buf = b ->
  rs = Z.of_nat (length a) -> ds = Z.of_nat (length b) ->
  memcpy (Z.to_nat (rs + ds)) values (buffer_size values)
    (memcpy (Z.to_nat rs) def_buf ds
       (memcpy 0 rep_buf rs
          (Resize (ds + rs + buffer_size values) buf))) =
  a ++ b ++ values.
Proof.
  intros Ha Hb Hrs Hds. unfold memcpy, buffer_size.
  rewrite Ha, Hb, Nat2Z.id, firstn_all.
  replace (Z.to_nat (rs + ds)) with (length a + length b)%nat by lia.
  replace (Z.to_nat rs) with (length a) by lia.
  apply write_at_tile. rewrite length_Resize. lia.
Qed.

(** The level phase of [AddDataPage] for one level stream. *)
Lemma encode_levels_spec {laws : RleEncoderLaws R} dest max_level
  (sink_of : Writer -> list byte) w :
  dest = definition_levels_rle_ref \/ dest = repetition_levels_rle_ref ->
  wp (if max_level >? 0
      then src <- gets sink_of ;; RleEncodeLevels src dest max_level
      else ret 0) w
    (fun size w' =>
       exists B L,
         w' = assign dest B (set_level_encoder_ L w) /\
         (level_buffer_fits w max_level ->
          size = Z.of_nat (length (level_chunk w max_level (sink_of w))) /\
          firstn (Z.to_nat size) B = level_chunk w max_level (sink_of w)))
    never.
Proof.
  intros Hdest. unfold level_chunk, level_buffer_fits.
  destruct (max_level >? 0) eqn:Hmax.
  - wp_step. wp_step.
    eapply wp_conseq; [ apply RleEncodeLevels_spec; exact Hdest | | auto ].
    cbv beta zeta. intros size w' (B & L & Hw & HB).
    exists B, L. split; [exact Hw|]. intros Hfits.
    destruct (HB (Hfits ltac:(lia))) as [Hsize Hfirst].
    split; [| exact Hfirst].
    rewrite length_app, length_int32_bytes. lia.
  - wp_step.
    exists (deref dest w), (level_encoder_ w).
    split; [| intros _; split; reflexivity].
    destruct Hdest; subst dest; apply ColumnWriter_ext; reflexivity.
Qed.

Lemma AddDataPage_spec {laws : RleEncoderLaws R} w :
  stats_ok w ->
  wp AddDataPage w
    (fun _ w' =>
       exists page,
         page_cut w w' page /\
         (level_buffer_fits w (max_definition_level (descr_ w)) ->
          level_buffer_fits w (max_repetition_level (descr_ w)) ->
          page_layout w w' page))
    never.
Proof.
  intros Hstats.
  unfold AddDataPage, GetValuesBuffer.
  wp_steps.
  destruct (Encoder_FlushValues (current_encoder_ w)) as [values enc'] eqn:Hflush.
  wp_steps. simpl_goal.
  wp_call (@encode_levels_spec _ definition_levels_rle_ref
             (max_definition_level (descr_ w)) definition_levels_sink_);
    [ left; reflexivity | | auto ].
  cbv beta. simpl_goal.
  intros ds w1 (B1 & L1 & Hw1 & HB1). subst w1. simpl_goal.
  wp_step.
  wp_call (@encode_levels_spec _ repetition_levels_rle_ref
             (max_repetition_level (descr_ w)) repetition_levels_sink_);
    [ right; reflexivity | | auto ].
  cbv beta. simpl_goal.
  intros rs w2 (B2 & L2 & Hw2 & HB2). subst w2. simpl_goal.
  unfold level_buffer_fits, level_chunk, level_buffer_size in HB1, HB2.
  simpl_state.
  fold (level_buffer_size w (max_definition_level (descr_ w))) in HB1.
  fold (level_buffer_size w (max_repetition_level (descr_ w))) in HB2.
  fold (level_chunk w (max_definition_level (descr_ w))
          (definition_levels_sink_ w)) in HB1.
  fold (level_chunk w (max_repetition_level (descr_ w))
          (repetition_levels_sink_ w)) in HB2.
  fold (level_buffer_fits w (max_definition_level (descr_ w))) in HB1.
  fold (level_buffer_fits w (max_repetition_level (descr_ w))) in HB2.
  pose (data := memcpy (Z.to_nat (rs + ds)) values (buffer_size values)
                 (memcpy (Z.to_nat rs) B1 ds
                    (memcpy 0 B2 rs
                       (Resize (ds + rs + buffer_size values)
                          (uncompressed_data_ w))))).
  assert (Hlayout :
            level_buffer_fits w (max_definition_level (descr_ w)) ->
            level_buffer_fits w (max_repetition_level (descr_ w)) ->
            data = page_payload w /\
            ds + rs + buffer_size values = buffer_size (page_payload w)).
  { intros Hdef Hrep.
    destruct (HB1 Hdef) as [Hds HfB1]. destruct (HB2 Hrep) as [Hrs HfB2].
    unfold page_payload. rewrite Hflush. cbn [fst]. split.
    - apply memcpy_concat; assumption.
    - unfold buffer_size. rewrite !length_app. lia. }
  subst data. clear HB1 HB2.
  unfold GetPageStatistics, ResetPageStatistics, WriteDataPage, InitSinks,
    on_pager, PageWriter_.WriteDataPage.
  unfold stats_ok in Hstats.
  unfold PageWriter_.has_compressor, PageWriter_.Compress.
  destruct (page_statistics_ w) as [pst|] eqn:Hpst;
    destruct (chunk_statistics_ w) as [cst|] eqn:Hcst;
    try contradiction.
  all: destruct (compressor (pager_ w)) as [f|] eqn:Hcomp.
  all: destruct (has_dictionary_ w && negb (fallback_ w)) eqn:Hactive.
  all: repeat (wp_step || (progress simpl_goal) || rewrite Hpst
               || rewrite Hcst || rewrite Hcomp || rewrite Hactive).
  all: eexists.
  all: unfold page_cut, page_layout, dict_active, sink, same_settings,
         stats_ok, PageWriter_.Compress.
  all: simpl_goal.
  all: rewrite ?Hactive, ?Hcomp, ?Hflush, ?Hpst, ?Hcst.
  all: cbn [fst snd].
  all: (split; [ repeat split; reflexivity | exact Hlayout ]).
Qed.

Lemma PageWriter_ext (p1 p2 : PageWriter ES) :
  compressor p1 = compressor p2 -> written p1 = written p2 ->
  closed_with p1 = closed_with p2 -> p1 = p2.
Proof. destruct p1, p2. cbn. intros. subst. reflexivity. Qed.

Lemma WriteDataPage_eq page w :
  WriteDataPage page w =
  Ret tt
    (set_total_bytes_written_
       (total_bytes_written_ w + data_page_bytes_written page)
       (set_pager_ (set_written (sink w ++ [DataPage page]) (pager_ w)) w)).
Proof. reflexivity. Qed.

Lemma for_each_WriteDataPage pages : forall w,
  exists total,
    for_each pages WriteDataPage w =
    Ret tt
      (set_total_bytes_written_ total
         (set_pager_ (set_written (sink w ++ map DataPage pages) (pager_ w))
            w)).
Proof.
  induction pages as [|page pages IH]; intros w.
  - exists (total_bytes_written_ w). cbn [for_each map]. unfold ret. f_equal.
    apply ColumnWriter_ext; simpl_goal; try reflexivity.
    apply PageWriter_ext; simpl_goal; try reflexivity.
    unfold sink. rewrite app_nil_r. reflexivity.
  - cbn [for_each map]. unfold bind at 1. rewrite WriteDataPage_eq.
    destruct (IH (set_total_bytes_written_
                    (total_bytes_written_ w + data_page_bytes_written page)
                    (set_pager_
                       (set_written (sink w ++ [DataPage page]) (pager_ w))
                       w))) as [total Heq].
    exists total. rewrite Heq. f_equal.
    apply ColumnWriter_ext; simpl_goal; try reflexivity.
    apply PageWriter_ext; simpl_goal; try reflexivity.
    unfold sink. simpl_goal. rewrite <- app_assoc. reflexivity.
Qed.

Lemma WriteDictionaryPage_spec w :
  wp WriteDictionaryPage w
    (fun _ w' => exists page, dictionary_written w w' page) never.
Proof.
  unfold WriteDictionaryPage, on_pager, PageWriter_.WriteDictionaryPage.
  wp_steps. simpl_goal. eexists.
  unfold dictionary_written, sink, same_settings, stats_ok. simpl_goal.
  repeat split; try reflexivity. auto.
Qed.

Lemma FlushBufferedDataPages_spec {laws : RleEncoderLaws R} w :
  stats_ok w ->
  wp FlushBufferedDataPages w
    (fun _ w' => exists cuts, buffered_flushed w w' cuts) never.
Proof.
  intros Hstats. unfold FlushBufferedDataPages.
  wp_step. wp_step. wp_step.
  apply wp_when; intros Hpos.
  - eapply wp_conseq; [ apply AddDataPage_spec, Hstats | | auto ].
    cbv beta. intros _ w1 (page & Hcut & _).
    destruct Hcut as (_ & Hnum & Henc & Hwhere & Hbuf & _ & _ & _ & _ &
                      Hfb & Hen & Hsame & Hstats1).
    wp_step. wp_step.
    destruct (for_each_WriteDataPage (data_pages_ w1) w1) as [total Heq].
    wp_step. eapply wp_of_eq; [ exact Heq | cbv beta iota ].
    wp_step. exists [page].
    unfold buffered_flushed, cut_from, same_settings, sink, stats_ok in *.
    simpl_goal.
    destruct (dict_active w).
    + destruct Hwhere as (Hs & Hq & _). rewrite Hs, Hq.
      repeat split; try tauto; try congruence; try lia.
      right. exists page. auto.
    + destruct Hwhere as (Hs & Hq & _). rewrite Hs, Hq, map_app, app_assoc.
      repeat split; try tauto; try congruence; try lia.
      right. exists page. auto.
  - wp_step. wp_step.
    destruct (for_each_WriteDataPage (data_pages_ w) w) as [total Heq].
    wp_step. eapply wp_of_eq; [ exact Heq | cbv beta iota ].
    wp_step. exists [].
    unfold buffered_flushed, cut_from, same_settings, sink, stats_ok in *.
    simpl_goal. rewrite app_nil_r. cbn [app].
    destruct (dict_active w); repeat split; auto; lia.
Qed.

Lemma CheckDictionarySizeLimit_spec {laws : RleEncoderLaws R} w :
  stats_ok w ->
  wp CheckDictionarySizeLimit w
    (fun _ w' =>
       if DictEncoder_dict_encoded_size (current_encoder_ w) >=?
          dictionary_pagesize_limit (properties_ w)
       then exists page cuts, fallen_back w w' page cuts
       else w' = w)
    never.
Proof.
  intros Hstats. unfold CheckDictionarySizeLimit.
  wp_steps.
  destruct (DictEncoder_dict_encoded_size (current_encoder_ w) >=?
            dictionary_pagesize_limit (properties_ w)); cbn [when].
  2: { wp_step. reflexivity. }
  wp_call WriteDictionaryPage_spec; [ | auto ].
  cbv beta. intros _ w1 (page & Hdict).
  destruct Hdict as (Hs1 & Hde & Hq1 & Hb1 & He1 & Hf1 & Hsame1 & Hst1).
  wp_call FlushBufferedDataPages_spec; [ auto | | auto ].
  cbv beta. intros _ w2 (cuts & Hflush).
  destruct Hflush as (Hcut & Hiff & Hs2 & Hq2 & Hf2 & He2 & Hsame2 & Hst2).
  wp_steps.
  exists page, cuts.
  unfold fallen_back, cut_from, same_settings, sink, stats_ok, dict_active
    in *.
  simpl_goal.
  destruct Hsame1 as (? & ? & ? & ? & ? & ? & ? & ?).
  destruct Hsame2 as (? & ? & ? & ? & ? & ? & ? & ?).
  repeat split; try congruence; try tauto.
  - destruct Hcut as [[-> Hn] | (p & -> & Hpn & Hpe & Hn)].
    + left. split; [reflexivity | congruence].
    + right. exists p. repeat split; congruence.
  - rewrite <- Hb1. tauto.
  - rewrite <- Hb1. tauto.
  - rewrite Hs2, Hs1, <- app_assoc. cbn [app].
    replace (has_dictionary_ w1) with (has_dictionary_ w) by congruence.
    rewrite Hf1, Hq1. reflexivity.
Qed.

Lemma same_settings_refl w : same_settings w w.
Proof. unfold same_settings. repeat split. Qed.

Lemma same_settings_trans w1 w2 w3 :
  same_settings w1 w2 -> same_settings w2 w3 -> same_settings w1 w3.
Proof. unfold same_settings. intuition congruence. Qed.

Lemma same_settings_dict_active w w' :
  same_settings w w' -> fallback_ w' = fallback_ w ->
  dict_active w' = dict_active w.
Proof.
  unfold same_settings, dict_active. intros (_ & _ & _ & Hd & _) Hf.
  rewrite Hd, Hf. reflexivity.
Qed.

Lemma emission_nothing w : stats_ok w -> emission w w [].
Proof.
  intros Hstats. unfold emission, cut_from.
  split; [left; auto|]. split.
  - destruct (dict_active w) eqn:Hactive.
    + left. rewrite app_nil_r. unfold dict_active in Hactive.
      apply andb_true_iff in Hactive. destruct Hactive as [_ Hneg].
      apply negb_true_iff in Hneg. auto.
    + cbn [map]. rewrite app_nil_r. auto.
  - split; [apply same_settings_refl | exact Hstats].
Qed.

Lemma emission_page_cut w w' page :
  page_cut w w' page ->
  emission w w' [page] /\ num_buffered_values_ w' = 0 /\
  dict_active w' = dict_active w.
Proof.
  intros (_ & Hnum & Henc & Hwhere & Hbuf & _ & _ & _ & _ & Hfb & Hen &
          Hsame & Hstats).
  split; [| split; [exact Hbuf | apply same_settings_dict_active; auto]].
  unfold emission, cut_from. split.
  { right. exists page. auto. }
  split; [| auto].
  destruct (dict_active w) eqn:Hactive.
  - left. unfold dict_active in Hactive.
    apply andb_true_iff in Hactive. destruct Hactive as [_ Hneg].
    apply negb_true_iff in Hneg. intuition congruence.
  - cbn [map]. tauto.
Qed.

Lemma emission_fallen_back w w' page cuts :
  dict_active w = true -> fallen_back w w' page cuts -> emission w w' cuts.
Proof.
  intros Hactive (Hcut & _ & Hs & _ & Hq & Hfb & Hen & _ & Hsame & Hstats).
  unfold emission. rewrite Hactive in *.
  split; [exact Hcut|]. split; [| auto].
  right. exists page. auto.
Qed.

Lemma cut_and_check_spec {laws : RleEncoderLaws R} A (a : A) w :
  stats_ok w ->
  wp (cut_and_check a) w
    (fun r w' => r = a /\ exists cuts, emission w w' cuts) never.
Proof.
  intros Hstats. unfold cut_and_check.
  wp_step. wp_step. wp_step. wp_step. wp_step.
  apply wp_when; intros Hest.
  - eapply wp_conseq; [ apply AddDataPage_spec, Hstats | | auto ].
    cbv beta. intros _ w1 (page & Hcut & _).
    destruct (emission_page_cut _ _ _ Hcut) as (Hem & Hbuf1 & Hact1).
    assert (Hstats1 : stats_ok w1) by apply Hem.
    wp_steps. fold (dict_active w1). rewrite Hact1.
    apply wp_when; intros Hactive.
    + eapply wp_conseq;
        [ apply CheckDictionarySizeLimit_spec, Hstats1 | | auto ].
      cbv beta. intros _ w2 Hcheck. wp_step. split; [reflexivity|].
      exists [page].
      destruct (DictEncoder_dict_encoded_size (current_encoder_ w1) >=?
                dictionary_pagesize_limit (properties_ w1)).
      * destruct Hcheck as (dict & cuts & Hfall).
        assert (Hcuts : cuts = [])
          by (apply Hfall; lia).
        subst cuts.
        destruct Hfall as (Hcut2 & _ & Hs2 & _ & Hq2 & Hfb2 & Hen2 & _ &
                           Hsame2 & Hstats2).
        destruct Hem as (Hcut1 & Hwhere1 & Hsame1 & _).
        rewrite Hact1, Hactive in *.
        unfold emission. rewrite Hactive.
        split.
        { unfold cut_from in *.
          destruct Hcut2 as [[_ Hn2] | (p & Hp & _)]; [| discriminate].
          destruct Hcut1 as [[Hp _] | (p & Hp & Hpn & Hpe & Hn1)];
            [discriminate|].
          right. exists p. repeat split; auto. congruence. }
        split; [| split; [eapply same_settings_trans; eauto | exact Hstats2]].
        right. exists dict.
        destruct Hwhere1 as [(_ & _ & Hs1 & Hq1) | (d & Hf1 & _)].
        -- rewrite Hs2, Hs1, Hq1, app_nil_r. auto.
        -- unfold dict_active in Hact1. rewrite Hf1, andb_false_r in Hact1.
           discriminate.
      * subst w2. exact Hem.
    + wp_step. split; [reflexivity|]. exists [page]. exact Hem.
  - wp_steps. fold (dict_active w).
    apply wp_when; intros Hactive.
    + eapply wp_conseq;
        [ apply CheckDictionarySizeLimit_spec, Hstats | | auto ].
      cbv beta. intros _ w2 Hcheck. wp_step. split; [reflexivity|].
      destruct (DictEncoder_dict_encoded_size (current_encoder_ w) >=?
                dictionary_pagesize_limit (properties_ w)).
      * destruct Hcheck as (dict & cuts & Hfall).
        exists cuts. eapply emission_fallen_back; eauto.
      * subst w2. exists []. apply emission_nothing, Hstats.
    + wp_step. split; [reflexivity|]. exists [].
      apply emission_nothing, Hstats.
Qed.

Lemma batch_buffered_intro w w2 n r :
  sink w2 = sink w -> data_pages_ w2 = data_pages_ w ->
  fallback_ w2 = fallback_ w -> encoding_ w2 = encoding_ w ->
  num_buffered_values_ w2 = num_buffered_values_ w + n ->
  num_rows_ w2 = num_rows_ w + rows_in_batch w n r ->
  descr_ w2 = descr_ w -> properties_ w2 = properties_ w ->
  expected_rows_ w2 = expected_rows_ w ->
  has_dictionary_ w2 = has_dictionary_ w -> closed_ w2 = closed_ w ->
  stats_ok w2 -> batch_buffered w w2 n r.
Proof. unfold batch_buffered. tauto. Qed.

(** The steps shared by the proofs for [WriteMiniBatch] and
    [WriteMiniBatchSpaced], once the levels are in the sinks. *)
Ltac budget_check Hd Hr Hpst Hcst :=
  apply wp_when; intros Hover;
  [ wp_step; unfold mini_batch_refused, row_budget_error;
    split; [ reflexivity | split ];
    [ unfold levels_buffered, rows_in_batch; rewrite Hd, Hr;
      apply ColumnWriter_ext; simpl_goal; reflexivity
    | simpl_goal; lia ]
  | do 4 (wp_step; wp_step; simpl_goal; rewrite ?Hpst; simpl_goal);
    eapply wp_conseq;
      [ eapply cut_and_check_spec | | intros ? ? [] ];
    [ unfold stats_ok; simpl_goal; rewrite ?Hpst, ?Hcst; exact I
    | cbv beta; intros ? w' (_ & cuts & Hem);
      unfold mini_batch_written; eexists; exists cuts;
      split; [ | split; [ | exact Hem ] ];
      [ apply batch_buffered_intro; unfold sink, stats_ok, rows_in_batch;
        simpl_goal; rewrite ?Hpst, ?Hcst, ?Hr; try reflexivity; exact I
      | simpl_goal; lia ] ] ].

Lemma WriteMiniBatch_spec {laws : RleEncoderLaws R} w n d r (v : list T) :
  stats_ok w ->
  wp (WriteMiniBatch n d r v) w
    (fun _ w' => mini_batch_written w n d r w')
    (fun e w' => mini_batch_refused w n d r e w').
Proof.
  intros Hstats.
  unfold WriteMiniBatch, WriteDefinitionLevels, WriteRepetitionLevels,
    WriteValues.
  unfold stats_ok in Hstats.
  destruct (page_statistics_ w) as [pst|] eqn:Hpst;
    destruct (chunk_statistics_ w) as [cst|] eqn:Hcst; try contradiction.
  all: destruct (max_definition_level (descr_ w) >? 0) eqn:Hd.
  all: destruct (max_repetition_level (descr_ w) >? 0) eqn:Hr.
  all: repeat (wp_step || (progress simpl_goal) || rewrite Hd || rewrite Hr).
  all: budget_check Hd Hr Hpst Hcst.
Qed.

Lemma WriteMiniBatchSpaced_spec {laws : RleEncoderLaws R} w n d r bits off
  (v : list T) :
  stats_ok w ->
  wp (WriteMiniBatchSpaced n d r bits off v) w
    (fun _ w' => mini_batch_written w n d r w')
    (fun e w' => mini_batch_refused w n d r e w').
Proof.
  intros Hstats.
  unfold WriteMiniBatchSpaced, WriteDefinitionLevels, WriteRepetitionLevels,
    WriteValues, WriteValuesSpaced.
  unfold stats_ok in Hstats.
  destruct (page_statistics_ w) as [pst|] eqn:Hpst;
    destruct (chunk_statistics_ w) as [cst|] eqn:Hcst; try contradiction.
  all: destruct (max_definition_level (descr_ w) >? 0) eqn:Hd.
  all: destruct (max_repetition_level (descr_ w) >? 0) eqn:Hr.
  all: destruct (is_optional (descr_ w)) eqn:Hopt.
  all: repeat (wp_step || (progress simpl_goal) || rewrite Hd || rewrite Hr
               || rewrite Hopt).
  all: budget_check Hd Hr Hpst Hcst.
Qed.

(** [Close] on a closed writer only compares the row counts. *)
Lemma Close_closed w :
  closed_ w = true ->
  Close w =
  if num_rows_ w =? expected_rows_ w
  then Ret (total_bytes_written_ w) w
  else Raise (row_count_error (num_rows_ w) (expected_rows_ w)) w.
Proof.
  intros Hclosed. unfold Close, bind, gets. rewrite Hclosed. cbn [negb when].
  unfold ret. destruct (num_rows_ w =? expected_rows_ w); reflexivity.
Qed.

Lemma Close_spec {laws : RleEncoderLaws R} w :
  closed_ w = false -> stats_ok w ->
  wp Close w
    (fun total w' =>
       num_rows_ w = expected_rows_ w /\ total = total_bytes_written_ w' /\
       exists cuts, closed_from w w' cuts)
    (fun e w' =>
       num_rows_ w <> expected_rows_ w /\
       e = row_count_error (num_rows_ w) (expected_rows_ w) /\
       exists cuts, closed_from w w' cuts).
Proof.
  intros Hopen Hstats.
  assert (Hflush : forall w1,
             stats_ok w1 -> closed_ w1 = true ->
             wp (FlushBufferedDataPages ;;
                 chunk_statistics <- GetChunkStatistics ;;
                 when (EncodedStatistics_is_set chunk_statistics)
                   (modify (set_metadata_ (Some chunk_statistics))) ;;
                 has_dictionary <- gets has_dictionary_ ;;
                 fallback <- gets fallback_ ;;
                 on_pager (PageWriter_.Close has_dictionary fallback)) w1
               (fun _ w3 =>
                  exists w2 cuts,
                    buffered_flushed w1 w2 cuts /\
                    sink w3 = sink w2 /\ data_pages_ w3 = data_pages_ w2 /\
                    closed_ w3 = true /\ fallback_ w3 = fallback_ w2 /\
                    encoding_ w3 = encoding_ w2 /\
                    num_buffered_values_ w3 = num_buffered_values_ w2 /\
                    closed_with (pager_ w3) =
                    Some (has_dictionary_ w2, fallback_ w2) /\
                    descr_ w3 = descr_ w2 /\ properties_ w3 = properties_ w2 /\
                    expected_rows_ w3 = expected_rows_ w2 /\
                    has_dictionary_ w3 = has_dictionary_ w2 /\
                    num_rows_ w3 = num_rows_ w2 /\ stats_ok w3)
               never).
  { intros w1 Hst1 Hcl1.
    wp_call FlushBufferedDataPages_spec; [ exact Hst1 | | auto ].
    cbv beta. intros _ w2 (cuts & Hfl).
    assert (Hcl2 : closed_ w2 = true).
    { destruct Hfl as (_ & _ & _ & _ & _ & _ & Hsame & _).
      unfold same_settings in Hsame. intuition congruence. }
    assert (Hst2 : stats_ok w2) by apply Hfl.
    unfold GetChunkStatistics, on_pager, PageWriter_.Close.
    wp_step. wp_step. wp_step.
    destruct (chunk_statistics_ w2) as [cst|] eqn:Hcst.
    all: wp_step; wp_step.
    all: apply wp_when; intros Hset.
    all: repeat (wp_step || (progress simpl_goal)).
    all: exists w2, cuts.
    all: (split; [exact Hfl|]).
    all: unfold sink, stats_ok in *; simpl_goal.
    all: repeat split; try reflexivity; try assumption. }
  assert (Hfinal : forall w3 cuts,
             closed_from w w3 cuts ->
             wp (num_rows <- gets num_rows_ ;;
                 expected_rows <- gets expected_rows_ ;;
                 if negb (num_rows =? expected_rows)
                 then throw (row_count_error num_rows expected_rows)
                 else total_bytes_written <- gets total_bytes_written_ ;;
                      ret total_bytes_written) w3
               (fun total w' =>
                  num_rows_ w = expected_rows_ w /\
                  total = total_bytes_written_ w' /\
                  exists cuts, closed_from w w' cuts)
               (fun e w' =>
                  num_rows_ w <> expected_rows_ w /\
                  e = row_count_error (num_rows_ w) (expected_rows_ w) /\
                  exists cuts, closed_from w w' cuts)).
  { intros w3 cuts Hcl. wp_steps.
    assert (Hn : num_rows_ w3 = num_rows_ w) by apply Hcl.
    assert (He : expected_rows_ w3 = expected_rows_ w) by apply Hcl.
    rewrite Hn, He.
    destruct (num_rows_ w =? expected_rows_ w) eqn:Heq; cbn [negb].
    - wp_steps. apply Z.eqb_eq in Heq. eauto.
    - wp_step. apply Z.eqb_neq in Heq. eauto. }
  unfold Close.
  wp_step. wp_step. wp_step. rewrite Hopen. cbn [negb when].
  wp_step. wp_step. wp_step. wp_step. wp_step. wp_step. simpl_goal.
  wp_step.
  assert (Hst0 : stats_ok (set_closed_ true w)) by exact Hstats.
  apply wp_when; intros Hactive.
  - eapply wp_conseq; [ apply WriteDictionaryPage_spec | | intros ? ? [] ].
    cbv beta. intros _ w1 (page & Hdict).
    destruct Hdict as (Hs1 & Hde & Hq1 & Hb1 & He1 & Hf1 & Hsame1 & Hst1).
    unfold same_settings in Hsame1. simpl_state.
    destruct Hsame1 as (? & ? & ? & ? & Hcl1 & ? & ? & ?).
    eapply wp_conseq; [ apply Hflush; auto | | intros ? ? [] ].
    cbv beta. intros _ w3 (w2 & cuts & Hfl & Hrest).
    apply Hfinal with (cuts := cuts).
    destruct Hfl as (Hcut & Hiff & Hs2 & Hq2 & Hf2 & He2 & Hsame2 & Hst2).
    unfold same_settings in Hsame2.
    unfold closed_from, cut_from, sink, dict_active in *. simpl_state.
    rewrite Hactive.
    replace (has_dictionary_ w1 && negb (fallback_ w1))
      with true in Hs2 by congruence.
    repeat split; try (intuition congruence).
    + destruct Hcut as [[-> Hn] | (p & -> & Hpn & Hpe & Hn)].
      * left. intuition congruence.
      * right. exists p. intuition congruence.
    + intros Hle. apply Hiff. rewrite Hb1. exact Hle.
    + exists page. split; [| congruence].
      destruct Hrest as (-> & _). rewrite Hs2, Hs1, <- app_assoc, Hq1.
      reflexivity.
  - eapply wp_conseq; [ apply Hflush; auto | | intros ? ? [] ].
    cbv beta. intros _ w3 (w2 & cuts & Hfl & Hrest).
    apply Hfinal with (cuts := cuts).
    destruct Hfl as (Hcut & Hiff & Hs2 & Hq2 & Hf2 & He2 & Hsame2 & Hst2).
    unfold same_settings in Hsame2.
    unfold closed_from, cut_from, sink, dict_active in *. simpl_state.
    rewrite Hactive in *.
    repeat split; try (intuition congruence).
    destruct Hcut as [[-> Hn] | (p & -> & Hpn & Hpe & Hn)].
    + left. intuition congruence.
    + right. exists p. intuition congruence.
Qed.
End Properties.

Section Specification.
Context {T E S ES R BW : Type}
        {rle_ops : RleEncoderOps R} {bw_ops : BitWriterOps BW}
        {enc_ops : EncoderOps T E} {stats_ops : StatisticsOps T S ES}
        {pw_ops : PageWriterOps ES} {laws : RleEncoderLaws R}.
Local Abbreviation Writer := (ColumnWriter E S ES R BW).
Implicit Types (w : Writer).

(** C1. Every data page [AddDataPage] cuts has as uncompressed buffer the
    repetition level chunk, then the definition level chunk, then the
    value payload; a level chunk is the RLE bytes behind their length as
    a 4-byte little-endian integer, and it is empty when the maximum
    level is zero.  The page handed on carries this buffer (compressed
    when the page writer has a compressor) and its size. *)
Theorem data_page_layout w :
  stats_ok w ->
  level_buffer_fits w (max_definition_level (descr_ w)) ->
  level_buffer_fits w (max_repetition_level (descr_ w)) ->
  exists w' page,
    AddDataPage w = Ret tt w' /\
    uncompressed_data_ w' =
      level_chunk w (max_repetition_level (descr_ w))
        (repetition_levels_sink_ w) ++
      level_chunk w (max_definition_level (descr_ w))
        (definition_levels_sink_ w) ++
      fst (Encoder_FlushValues (current_encoder_ w)) /\
    dp_buffer page = PageWriter_.Compress (pager_ w) (uncompressed_data_ w') /\
    dp_uncompressed_size page = buffer_size (uncompressed_data_ w') /\
    (if dict_active w
     then data_pages_ w' = data_pages_ w ++ [page]
     else sink w' = sink w ++ [DataPage page]).
Proof.
  intros Hstats Hdef Hrep.
  pose proof (AddDataPage_spec w Hstats) as Hspec.
  apply wp_returns in Hspec.
  destruct Hspec as ([] & w' & Hrun & page & Hcut & Hlayout).
  destruct (Hlayout Hdef Hrep) as [Hdata Hsize].
  exists w', page. split; [exact Hrun|].
  fold (page_payload w). rewrite Hdata.
  destruct Hcut as (Hbuf & _ & _ & Hwhere & _).
  repeat split; try assumption.
  - rewrite Hbuf, Hdata. reflexivity.
  - destruct (dict_active w); tauto.
Qed.

Lemma sum_cons x l : sum (x :: l) = x + sum l.
Proof. reflexivity. Qed.

Lemma sum_app l1 l2 : sum (l1 ++ l2) = sum l1 + sum l2.
Proof.
  induction l1 as [|x l1 IH]; [reflexivity|].
  cbn [app]. rewrite !sum_cons, IH. lia.
Qed.

Lemma count_levels_zero n levels :
  count_levels (fun l => l =? 0) n levels =
  Z.of_nat (count_occ Z.eq_dec (array_prefix n levels) 0).
Proof.
  unfold count_levels. f_equal.
  induction (array_prefix n levels) as [|l ls IH]; [reflexivity|].
  cbn [filter count_occ].
  destruct (Z.eq_dec l 0) as [->|Hne].
  - cbn. rewrite IH. reflexivity.
  - destruct (Z.eqb_spec l 0); [contradiction | exact IH].
Qed.

Lemma mini_batch_written_facts w n d r w' :
  mini_batch_written w n d r w' ->
  num_rows_ w' = num_rows_ w + rows_in_batch w n r /\
  descr_ w' = descr_ w /\ expected_rows_ w' = expected_rows_ w /\
  properties_ w' = properties_ w /\
  has_dictionary_ w' = has_dictionary_ w /\
  closed_ w' = closed_ w /\ stats_ok w'.
Proof.
  intros (w2 & cuts & Hbuf & _ & Hem).
  destruct Hbuf as (_ & _ & _ & _ & _ & Hrows & Hd & Hp & He & Hh & Hc & _).
  destruct Hem as (_ & _ & Hsame & Hstats).
  unfold same_settings in Hsame. intuition congruence.
Qed.

(** C2. After a sequence of mini-batches has been written, [num_rows_]
    has grown by the number of repetition level entries equal to zero of
    all the batches when the column is repeated, and by the number of
    values written when it is not. *)
Theorem num_rows_counts_rows (bs : list (MiniBatch T)) : forall w w',
  stats_ok w ->
  Forall (fun b => - 2 ^ 31 <= num_values b < 2 ^ 31) bs ->
  WriteMiniBatches bs w = Ret tt w' ->
  num_rows_ w' =
  num_rows_ w +
  (if max_repetition_level (descr_ w) >? 0
   then sum (map rows_started bs)
   else total_levels bs).
Proof.
  induction bs as [|b bs IH]; intros w w' Hstats Hrange Hrun.
  - cbn in Hrun. injection Hrun as <-. unfold total_levels. cbn.
    destruct (_ >? 0); lia.
  - cbn [WriteMiniBatches] in Hrun. unfold bind at 1 in Hrun.
    pose proof (WriteMiniBatch_spec w (num_values b) (def_levels b)
                  (rep_levels b) (values b) Hstats) as Hspec.
    unfold wp in Hspec.
    destruct (WriteMiniBatch _ _ _ _ w) as [a w1|e w1]; [| discriminate].
    destruct (mini_batch_written_facts _ _ _ _ _ Hspec)
      as (Hrows & Hdescr & _ & _ & _ & _ & Hstats1).
    inversion Hrange as [|? ? Hb Hbs]; subst.
    rewrite (IH w1 w' Hstats1 Hbs Hrun), Hrows, Hdescr.
    unfold rows_in_batch, total_levels. cbn [map]. rewrite !sum_cons.
    destruct (max_repetition_level (descr_ w) >? 0).
    + rewrite count_levels_zero. unfold rows_started, batch_rep_levels. lia.
    + rewrite cast_int_id by exact Hb. lia.
Qed.

Lemma WriteMiniBatch_outcome w n d r (v : list T) :
  stats_ok w ->
  (num_rows_ w + rows_in_batch w n r <= expected_rows_ w /\
   exists a w', WriteMiniBatch n d r v w = Ret a w' /\
                mini_batch_written w n d r w') \/
  (num_rows_ w + rows_in_batch w n r > expected_rows_ w /\
   WriteMiniBatch n d r v w =
   Raise row_budget_error (levels_buffered n d r w)).
Proof.
  intros Hstats.
  pose proof (WriteMiniBatch_spec w n d r v Hstats) as Hspec.
  unfold wp in Hspec.
  destruct (WriteMiniBatch n d r v w) as [a w'|e w'].
  - left. split; [| eauto].
    destruct Hspec as (w2 & cuts & Hbuf & Hle & _).
    destruct Hbuf as (_ & _ & _ & _ & _ & Hrows & _). lia.
  - right. destruct Hspec as (-> & -> & Hgt).
    split; [| reflexivity].
    revert Hgt. unfold levels_buffered.
    destruct (max_definition_level (descr_ w) >? 0);
      destruct (max_repetition_level (descr_ w) >? 0);
      simpl_goal; lia.
Qed.

Lemma WriteMiniBatchSpaced_outcome w n d r bits off (v : list T) :
  stats_ok w ->
  (num_rows_ w + rows_in_batch w n r <= expected_rows_ w /\
   exists a w', WriteMiniBatchSpaced n d r bits off v w = Ret a w' /\
                mini_batch_written w n d r w') \/
  (num_rows_ w + rows_in_batch w n r > expected_rows_ w /\
   WriteMiniBatchSpaced n d r bits off v w =
   Raise row_budget_error (levels_buffered n d r w)).
Proof.
  intros Hstats.
  pose proof (WriteMiniBatchSpaced_spec w n d r bits off v Hstats) as Hspec.
  unfold wp in Hspec.
  destruct (WriteMiniBatchSpaced n d r bits off v w) as [a w'|e w'].
  - left. split; [| eauto].
    destruct Hspec as (w2 & cuts & Hbuf & Hle & _).
    destruct Hbuf as (_ & _ & _ & _ & _ & Hrows & _). lia.
  - right. destruct Hspec as (-> & -> & Hgt).
    split; [| reflexivity].
    revert Hgt. unfold levels_buffered.
    destruct (max_definition_level (descr_ w) >? 0);
      destruct (max_repetition_level (descr_ w) >? 0);
      simpl_goal; lia.
Qed.

Lemma Close_outcome w :
  stats_ok w ->
  exists w',
    state_of (Close w) = w' /\ closed_ w' = true /\
    num_rows_ w' = num_rows_ w /\ expected_rows_ w' = expected_rows_ w /\
    Close w =
    if num_rows_ w =? expected_rows_ w
    then Ret (total_bytes_written_ w') w'
    else Raise (row_count_error (num_rows_ w) (expected_rows_ w)) w'.
Proof.
  intros Hstats. destruct (closed_ w) eqn:Hclosed.
  - exists w. rewrite (Close_closed w Hclosed).
    destruct (num_rows_ w =? expected_rows_ w); auto.
  - pose proof (Close_spec w Hclosed Hstats) as Hspec. unfold wp in Hspec.
    destruct (Close w) as [total w'|e w']; exists w'; cbn [state_of].
    + destruct Hspec as (Heq & -> & cuts & Hcl).
      apply Z.eqb_eq in Heq. rewrite Heq.
      unfold closed_from in Hcl. intuition.
    + destruct Hspec as (Hne & -> & cuts & Hcl).
      apply Z.eqb_neq in Hne. rewrite Hne.
      unfold closed_from in Hcl. intuition.
Qed.

(** C3, as amended.  When [num_rows_] exceeds [expected_rows_] during a
    write, the write throws a [ParquetException] whose message is fixed
    and carries no count; when [num_rows_] differs from [expected_rows_]
    at close, [Close] throws a [ParquetException] whose message carries
    both counts. *)
Theorem row_count_errors w n d r (v : list T) :
  stats_ok w ->
  (num_rows_ w + rows_in_batch w n r > expected_rows_ w ->
   exists w',
     WriteMiniBatch n d r v w =
     Raise (ParquetException
              "More rows were written in the column chunk than expected") w') /\
  (num_rows_ w <> expected_rows_ w ->
   exists w',
     Close w =
     Raise (ParquetException
              ("Written rows: " ++ dec (num_rows_ w) ++
               " != expected rows: " ++ dec (expected_rows_ w) ++
               "in the current column chunk")%string) w').
Proof.
  intros Hstats. split.
  - intros Hover.
    destruct (WriteMiniBatch_outcome w n d r v Hstats) as [[Hle _] | [_ Hrun]];
      [lia | eauto].
  - intros Hne.
    destruct (Close_outcome w Hstats) as (w' & _ & _ & _ & _ & Hrun).
    apply Z.eqb_neq in Hne. rewrite Hne in Hrun. eauto.
Qed.

(** C10. When a mini-batch write throws, it is the row budget error, and
    the writer is left with the levels of the batch appended to the level
    sinks of the level streams the column has and with the rows of the
    batch counted in [num_rows_], which exceeds [expected_rows_]. *)
Theorem failed_write_is_not_rolled_back w n d r bits off (v : list T) e w' :
  stats_ok w ->
  WriteMiniBatch n d r v w = Raise e w' \/
  WriteMiniBatchSpaced n d r bits off v w = Raise e w' ->
  e = ParquetException
        "More rows were written in the column chunk than expected" /\
  definition_levels_sink_ w' =
    definition_levels_sink_ w ++
    (if max_definition_level (descr_ w) >? 0
     then bytes_of_levels (array_prefix n d) else []) /\
  repetition_levels_sink_ w' =
    repetition_levels_sink_ w ++
    (if max_repetition_level (descr_ w) >? 0
     then bytes_of_levels (array_prefix n r) else []) /\
  num_rows_ w' = num_rows_ w + rows_in_batch w n r /\
  num_rows_ w' > expected_rows_ w' /\
  num_buffered_values_ w' = num_buffered_values_ w.
Proof.
  intros Hstats Hrun.
  assert (Hraise : e = row_budget_error /\
                   w' = levels_buffered n d r w /\
                   num_rows_ w + rows_in_batch w n r > expected_rows_ w).
  { destruct Hrun as [Hrun | Hrun].
    - destruct (WriteMiniBatch_outcome w n d r v Hstats)
        as [(_ & a & w1 & Heq & _) | [Hgt Heq]];
        rewrite Heq in Hrun; [discriminate|].
      injection Hrun as <- <-. auto.
    - destruct (WriteMiniBatchSpaced_outcome w n d r bits off v Hstats)
        as [(_ & a & w1 & Heq & _) | [Hgt Heq]];
        rewrite Heq in Hrun; [discriminate|].
      injection Hrun as <- <-. auto. }
  destruct Hraise as (-> & -> & Hgt).
  split; [reflexivity|].
  unfold levels_buffered.
  destruct (max_definition_level (descr_ w) >? 0);
    destruct (max_repetition_level (descr_ w) >? 0);
    simpl_goal; rewrite ?app_nil_r; repeat split; try reflexivity; lia.
Qed.

Lemma count_levels_none p levels : count_levels p 0 levels = 0.
Proof. reflexivity. Qed.

(** C9, as amended.  A batch of zero values counts no row and buffers no
    level and no value count; it cuts no page, changes no flag and hands
    nothing to the page writer when the row budget is not already
    exceeded, the encoder's estimated size is below the data page size
    and, while the dictionary is active, the dictionary is below its size
    limit. *)
Theorem empty_batch_is_noop w d r (v : list T) :
  write_batch_size (properties_ w) <> 0 ->
  num_rows_ w <= expected_rows_ w ->
  Encoder_EstimatedDataEncodedSize (Encoder_Put (current_encoder_ w) v 0) <
  data_pagesize (properties_ w) ->
  (dict_active w = true ->
   DictEncoder_dict_encoded_size (Encoder_Put (current_encoder_ w) v 0) <
   dictionary_pagesize_limit (properties_ w)) ->
  exists w',
    WriteBatch 0 d r v w = Ret tt w' /\
    sink w' = sink w /\ data_pages_ w' = data_pages_ w /\
    num_rows_ w' = num_rows_ w /\
    num_buffered_values_ w' = num_buffered_values_ w /\
    num_buffered_encoded_values_ w' = num_buffered_encoded_values_ w /\
    definition_levels_sink_ w' = definition_levels_sink_ w /\
    repetition_levels_sink_ w' = repetition_levels_sink_ w /\
    total_bytes_written_ w' = total_bytes_written_ w /\
    fallback_ w' = fallback_ w /\ encoding_ w' = encoding_ w /\
    closed_ w' = closed_ w.
Proof.
  intros Hsize Hrows Hest Hdict.
  apply Z.eqb_neq in Hsize. apply Z.ltb_lt in Hest.
  rewrite Z.ltb_antisym in Hest. apply negb_true_iff in Hest.
  rewrite <- Z.geb_leb in Hest.
  assert (Hrun : wp (WriteBatch 0 d r v) w
                   (fun _ w' =>
                      sink w' = sink w /\ data_pages_ w' = data_pages_ w /\
                      num_rows_ w' = num_rows_ w /\
                      num_buffered_values_ w' = num_buffered_values_ w /\
                      num_buffered_encoded_values_ w' =
                      num_buffered_encoded_values_ w /\
                      definition_levels_sink_ w' = definition_levels_sink_ w /\
                      repetition_levels_sink_ w' = repetition_levels_sink_ w /\
                      total_bytes_written_ w' = total_bytes_written_ w /\
                      fallback_ w' = fallback_ w /\
                      encoding_ w' = encoding_ w /\ closed_ w' = closed_ w)
                   never).
  { unfold WriteBatch. wp_step. wp_step. rewrite Hsize.
    rewrite Z.quot_0_l, Z.rem_0_l by (apply Z.eqb_neq; exact Hsize).
    change (cast_int 0) with 0. cbn [Z.to_nat WriteBatch_rounds].
    wp_step. wp_step. wp_step.
    change (0 * write_batch_size (properties_ w)) with 0.
    change (array_from 0 d) with d. change (array_from 0 r) with r.
    change (array_from 0 v) with v.
    unfold WriteMiniBatch, WriteDefinitionLevels, WriteRepetitionLevels,
      WriteValues.
    destruct (page_statistics_ w) as [pst|] eqn:Hpst.
    all: destruct (max_definition_level (descr_ w) >? 0) eqn:Hd.
    all: destruct (max_repetition_level (descr_ w) >? 0) eqn:Hr.
    all: repeat (wp_step || (progress simpl_goal) || rewrite Hd
                 || rewrite Hr).
    all: rewrite ?count_levels_none; change (cast_int 0) with 0.
    all: rewrite ?Z.add_0_r.
    all: (apply wp_when; intros Hover; [lia|]).
    all: repeat (wp_step || (progress simpl_goal) || rewrite Hpst).
    all: rewrite ?count_levels_none; change (cast_int 0) with 0.
    all: rewrite Hest; cbn [when].
    all: repeat (wp_step || (progress simpl_goal) || rewrite Hpst).
    all: fold (dict_active w).
    all: (apply wp_when; intros Hactive;
          [ unfold CheckDictionarySizeLimit;
            repeat (wp_step || (progress simpl_goal) || rewrite Hpst);
            specialize (Hdict Hactive); apply Z.ltb_lt in Hdict;
            rewrite Z.ltb_antisym in Hdict; apply negb_true_iff in Hdict;
            rewrite <- Z.geb_leb in Hdict; rewrite Hdict; cbn [when];
            wp_steps
          | wp_steps ]).
    all: rewrite ?Hpst.
    all: unfold sink; simpl_goal.
    all: change (bytes_of_levels (array_prefix 0 d)) with (@nil byte).
    all: change (bytes_of_levels (array_prefix 0 r)) with (@nil byte).
    all: rewrite ?app_nil_r, ?Z.add_0_r.
    all: repeat split; reflexivity. }
  apply wp_returns in Hrun. destruct Hrun as ([] & w' & Heq & Hfacts).
  exists w'. split; [exact Heq | exact Hfacts].
Qed.

(** *** Invariants of the write calls *)

Lemma levels_buffered_frame n d r w :
  let w' := levels_buffered n d r w in
  sink w' = sink w /\ data_pages_ w' = data_pages_ w /\
  fallback_ w' = fallback_ w /\ encoding_ w' = encoding_ w /\
  has_dictionary_ w' = has_dictionary_ w /\ closed_ w' = closed_ w /\
  num_buffered_values_ w' = num_buffered_values_ w /\
  (stats_ok w -> stats_ok w').
Proof.
  unfold levels_buffered, sink, stats_ok.
  destruct (max_definition_level (descr_ w) >? 0);
    destruct (max_repetition_level (descr_ w) >? 0);
    simpl_goal; repeat split; auto.
Qed.

Section Invariant.
Variable I : Writer -> Prop.
Hypothesis I_written :
  forall w n d r w',
    stats_ok w -> I w -> mini_batch_written w n d r w' -> I w'.
Hypothesis I_refused :
  forall w n d r, I w -> I (levels_buffered n d r w).

Let J (w : Writer) : Prop := I w /\ stats_ok w.

Lemma mini_batch_keeps w n d r (v : list T) :
  J w -> wp (WriteMiniBatch n d r v) w (fun _ => J) (fun _ => J).
Proof.
  intros [HI Hstats].
  eapply wp_conseq; [ apply WriteMiniBatch_spec, Hstats | | ]; cbv beta.
  - intros _ w' Hw. split; [eapply I_written; eauto|].
    apply (mini_batch_written_facts _ _ _ _ _ Hw).
  - intros e w' (_ & -> & _). split; [apply I_refused, HI|].
    apply levels_buffered_frame, Hstats.
Qed.

Lemma mini_batch_spaced_keeps w n d r bits off (v : list T) :
  J w ->
  wp (WriteMiniBatchSpaced n d r bits off v) w (fun _ => J) (fun _ => J).
Proof.
  intros [HI Hstats].
  eapply wp_conseq; [ apply WriteMiniBatchSpaced_spec, Hstats | | ];
    cbv beta.
  - intros _ w' Hw. split; [eapply I_written; eauto|].
    apply (mini_batch_written_facts _ _ _ _ _ Hw).
  - intros e w' (_ & -> & _). split; [apply I_refused, HI|].
    apply levels_buffered_frame, Hstats.
Qed.

Lemma rounds_keep rounds : forall round size d r (v : list T) offset w,
  J w ->
  wp (WriteBatch_rounds rounds round size d r v offset) w
    (fun _ => J) (fun _ => J).
Proof.
  induction rounds as [|rounds IH]; intros round size d r v offset w HJ;
    cbn [WriteBatch_rounds].
  - wp_step. exact HJ.
  - wp_step.
    eapply wp_conseq; [ apply mini_batch_keeps, HJ | | auto ]; cbv beta.
    intros a w' HJ'. apply IH, HJ'.
Qed.

Lemma rounds_spaced_keep rounds :
  forall round size d r bits off (v : list T) offset w,
  J w ->
  wp (WriteBatchSpaced_rounds rounds round size d r bits off v offset) w
    (fun _ => J) (fun _ => J).
Proof.
  induction rounds as [|rounds IH];
    intros round size d r bits off v offset w HJ;
    cbn [WriteBatchSpaced_rounds].
  - wp_step. exact HJ.
  - wp_step.
    eapply wp_conseq; [ apply mini_batch_spaced_keeps, HJ | | auto ];
      cbv beta.
    intros a w' HJ'. apply IH, HJ'.
Qed.

Lemma perform_keeps (c : WriteCall (T := T)) w :
  J w -> J (state_of (perform c w)).
Proof.
  intros HJ. apply wp_state_of.
  destruct c as [n d r v | n d r bits off v | n d r v | n d r bits off v];
    cbn [perform].
  - unfold WriteBatch. wp_step. wp_step.
    destruct (write_batch_size (properties_ w) =? 0).
    + wp_step. exact HJ.
    + wp_step.
      eapply wp_conseq; [ apply rounds_keep, HJ | | auto ]; cbv beta.
      intros offset w1 HJ1. wp_step.
      eapply wp_conseq; [ apply mini_batch_keeps, HJ1 | | auto ]; cbv beta.
      intros a w2 HJ2. wp_step. exact HJ2.
  - unfold WriteBatchSpaced. wp_step. wp_step.
    destruct (write_batch_size (properties_ w) =? 0).
    + wp_step. exact HJ.
    + wp_step.
      eapply wp_conseq; [ apply rounds_spaced_keep, HJ | | auto ];
        cbv beta.
      intros offset w1 HJ1. wp_step.
      eapply wp_conseq; [ apply mini_batch_spaced_keeps, HJ1 | | auto ];
        cbv beta.
      intros a w2 HJ2. wp_step. exact HJ2.
  - wp_step.
    eapply wp_conseq; [ apply mini_batch_keeps, HJ | | auto ]; cbv beta.
    intros a w1 HJ1. wp_step. exact HJ1.
  - wp_step.
    eapply wp_conseq; [ apply mini_batch_spaced_keeps, HJ | | auto ];
      cbv beta.
    intros a w1 HJ1. wp_step. exact HJ1.
Qed.

Lemma after_calls_keeps (cs : list (WriteCall (T := T))) : forall w,
  I w -> stats_ok w ->
  I (after_calls cs w) /\ stats_ok (after_calls cs w).
Proof.
  induction cs as [|c cs IH]; intros w HI Hstats; cbn.
  - auto.
  - destruct (perform_keeps c w (conj HI Hstats)) as [HI' Hstats'].
    apply IH; assumption.
Qed.
End Invariant.

(** *** The writer its constructor makes *)

Lemma TypedColumnWriter_new_facts descr pager expected_rows encoding props
  (w0 : Writer) :
  TypedColumnWriter_new descr pager expected_rows encoding props tt =
  Ret w0 tt ->
  stats_ok w0 /\ closed_ w0 = false /\ fallback_ w0 = false /\
  sink w0 = written pager /\ data_pages_ w0 = [] /\
  num_buffered_values_ w0 = 0 /\ num_rows_ w0 = 0 /\
  has_dictionary_ w0 =
    (Encoding.eqb encoding Encoding.PLAIN_DICTIONARY ||
     Encoding.eqb encoding Encoding.RLE_DICTIONARY) /\
  encoding_ w0 = encoding /\ expected_rows_ w0 = expected_rows /\
  descr_ w0 = descr /\ properties_ w0 = props.
Proof.
  unfold TypedColumnWriter_new, bind, ret, throw, stats_ok, sink.
  destruct encoding; destruct (statistics_enabled props (path descr));
    intros Hnew; try discriminate; injection Hnew as <-;
    simpl_goal; repeat split.
Qed.

(** *** The shape of what the page writer has received *)

Lemma only_data_pages_app (l : list (Page ES)) pages :
  only_data_pages l -> only_data_pages (l ++ map DataPage pages).
Proof.
  intros [ps ->]. exists (ps ++ pages). rewrite map_app. reflexivity.
Qed.

Lemma dictionary_page_first_app (l : list (Page ES)) pages :
  dictionary_page_first l ->
  dictionary_page_first (l ++ map DataPage pages).
Proof.
  intros (dict & ps & ->). exists dict, (ps ++ pages).
  rewrite map_app. reflexivity.
Qed.

Lemma sink_ok_written w n d r w' :
  stats_ok w -> closed_ w = false /\ sink_ok w ->
  mini_batch_written w n d r w' ->
  closed_ w' = false /\ sink_ok w'.
Proof.
  intros _ [Hopen Hok] (w2 & cuts & Hbuf & _ & Hem).
  destruct Hbuf as (Hs2 & Hq2 & Hf2 & He2 & _ & _ & _ & _ & _ & Hh2 & Hc2 & _).
  destruct Hem as (_ & Hwhere & Hsame & _).
  destruct Hsame as (_ & _ & _ & Hh & Hc & _).
  split; [congruence|].
  unfold sink_ok, dict_active in *. rewrite Hh, Hh2. rewrite Hh2, Hf2 in Hwhere.
  destruct (has_dictionary_ w) eqn:Hdict; cbn [andb] in Hwhere.
  - destruct (fallback_ w) eqn:Hfb; cbn [negb] in Hwhere.
    + destruct Hwhere as (-> & _ & -> & _). rewrite Hs2.
      apply dictionary_page_first_app, Hok.
    + destruct Hwhere as [(-> & _ & -> & _) | (page & -> & _ & -> & _)].
      * congruence.
      * rewrite Hs2, Hok. cbn [app]. eexists _, _. reflexivity.
  - destruct Hwhere as (_ & _ & -> & _). rewrite Hs2.
    apply only_data_pages_app, Hok.
Qed.

Lemma sink_ok_refused w n d r :
  closed_ w = false /\ sink_ok w ->
  closed_ (levels_buffered n d r w) = false /\
  sink_ok (levels_buffered n d r w).
Proof.
  intros [Hopen Hok].
  destruct (levels_buffered_frame n d r w)
    as (Hs & _ & Hf & _ & Hh & Hc & _).
  unfold sink_ok in *. rewrite Hs, Hf, Hh, Hc. auto.
Qed.

Lemma Close_open_state w :
  closed_ w = false -> stats_ok w ->
  exists cuts, closed_from w (state_of (Close w)) cuts.
Proof.
  intros Hopen Hstats.
  apply (wp_state_of _ Close w (fun w' => exists cuts, closed_from w w' cuts)).
  eapply wp_conseq; [ apply (Close_spec w Hopen Hstats) | | ];
    cbv beta; intros ? ? (_ & _ & Hc); exact Hc.
Qed.

(** C4. A writer constructed with a dictionary encoding hands exactly one
    dictionary page to the page writer over its write calls and its
    close, and hands it over before any data page, whether the
    dictionary has fallen back or not; a writer constructed with another
    encoding hands over data pages only. *)
Theorem one_dictionary_page_first descr pager expected_rows encoding props
  (w0 : Writer) (cs : list (WriteCall (T := T))) :
  written pager = [] ->
  TypedColumnWriter_new descr pager expected_rows encoding props tt =
  Ret w0 tt ->
  let w1 := after_calls cs w0 in
  let w2 := state_of (Close w1) in
  if Encoding.eqb encoding Encoding.PLAIN_DICTIONARY ||
     Encoding.eqb encoding Encoding.RLE_DICTIONARY
  then (sink w1 = [] \/ dictionary_page_first (sink w1)) /\
       dictionary_page_first (sink w2)
  else only_data_pages (sink w1) /\ only_data_pages (sink w2).
Proof.
  intros Hempty Hnew w1 w2.
  destruct (TypedColumnWriter_new_facts _ _ _ _ _ _ Hnew)
    as (Hstats0 & Hopen0 & Hfb0 & Hsink0 & _ & _ & _ & Hdict0 & _).
  assert (Hok0 : closed_ w0 = false /\ sink_ok w0).
  { split; [exact Hopen0|]. unfold sink_ok. rewrite Hfb0, Hsink0, Hempty.
    destruct (has_dictionary_ w0); [reflexivity | exists []; reflexivity]. }
  destruct (after_calls_keeps _ sink_ok_written sink_ok_refused cs w0
              Hok0 Hstats0) as [[Hopen1 Hok1] Hstats1].
  fold w1 in Hopen1, Hok1, Hstats1.
  assert (Hdict1 : has_dictionary_ w1 = has_dictionary_ w0).
  { pose proof (after_calls_keeps
                  (fun w => has_dictionary_ w = has_dictionary_ w0)) as Hkeep.
    apply Hkeep; auto.
    - intros w n d r w' _ Hw Hwritten.
      destruct (mini_batch_written_facts _ _ _ _ _ Hwritten)
        as (_ & _ & _ & _ & Hh & _). congruence.
    - intros w n d r Hw.
      destruct (levels_buffered_frame n d r w) as (_ & _ & _ & _ & Hh & _).
      congruence. }
  destruct (Close_open_state w1 Hopen1 Hstats1) as (cuts & Hclose).
  fold w2 in Hclose.
  destruct Hclose as (_ & _ & Hsink2 & _).
  unfold sink_ok, dict_active in *. rewrite Hdict1, Hdict0 in *.
  destruct (Encoding.eqb encoding Encoding.PLAIN_DICTIONARY ||
            Encoding.eqb encoding Encoding.RLE_DICTIONARY);
    cbn [andb] in Hsink2.
  - destruct (fallback_ w1); cbn [negb] in Hsink2.
    + split; [right; exact Hok1|]. rewrite Hsink2.
      apply dictionary_page_first_app, Hok1.
    + split; [left; exact Hok1|].
      destruct Hsink2 as (page & -> & _). rewrite Hok1. cbn [app].
      eexists _, _. reflexivity.
  - split; [exact Hok1|]. rewrite Hsink2.
    apply only_data_pages_app, Hok1.
Qed.

(** *** After the fallback *)

Lemma cut_from_encoding w w' cuts :
  cut_from w w' cuts ->
  Forall (fun p => dp_encoding p = encoding_ w) cuts.
Proof.
  intros [[-> _] | (p & -> & _ & He & _)]; repeat constructor. exact He.
Qed.

Lemma plain_since_app base w w' cuts :
  plain_since base w -> Forall (fun p => dp_encoding p = Encoding.PLAIN) cuts ->
  fallback_ w' = true -> encoding_ w' = Encoding.PLAIN ->
  data_pages_ w' = [] -> sink w' = sink w ++ map DataPage cuts ->
  plain_since base w'.
Proof.
  intros (_ & _ & _ & pages & Hs & Hplain) Hcuts Hf He Hq Hs'.
  repeat split; try assumption.
  exists (pages ++ cuts). split.
  - rewrite Hs', Hs, map_app, app_assoc. reflexivity.
  - apply Forall_app. auto.
Qed.

Lemma plain_since_written base w n d r w' :
  stats_ok w -> plain_since base w -> mini_batch_written w n d r w' ->
  plain_since base w'.
Proof.
  intros _ Hplain (w2 & cuts & Hbuf & _ & Hem).
  destruct Hbuf as (Hs2 & Hq2 & Hf2 & He2 & _).
  destruct Hem as (Hcut & Hwhere & _).
  pose proof (cut_from_encoding _ _ _ Hcut) as Henc.
  destruct Hplain as (Hf & He & Hq & Hpages).
  unfold dict_active in Hwhere.
  rewrite Hf2, Hf, andb_false_r in Hwhere.
  destruct Hwhere as (Hf' & He' & Hs' & Hq').
  eapply plain_since_app with (w := w) (cuts := cuts).
  - repeat split; assumption.
  - rewrite He2, He in Henc. exact Henc.
  - congruence.
  - congruence.
  - congruence.
  - congruence.
Qed.

Lemma plain_since_refused base w n d r :
  plain_since base w -> plain_since base (levels_buffered n d r w).
Proof.
  intros (Hf & He & Hq & Hpages).
  destruct (levels_buffered_frame n d r w)
    as (Hs' & Hq' & Hf' & He' & _).
  unfold plain_since. rewrite Hs', Hq', Hf', He'. auto.
Qed.

Lemma plain_since_closed base w :
  stats_ok w -> plain_since base w ->
  plain_since base (state_of (Close w)).
Proof.
  intros Hstats Hplain. destruct (closed_ w) eqn:Hclosed.
  - rewrite (Close_closed w Hclosed).
    destruct (num_rows_ w =? expected_rows_ w); exact Hplain.
  - destruct (Close_open_state w Hclosed Hstats) as (cuts & Hclose).
    destruct Hclose as (Hcut & _ & Hsink & Hq' & _ & Hf' & He' & _).
    pose proof (cut_from_encoding _ _ _ Hcut) as Henc.
    destruct Hplain as (Hf & He & Hq & Hpages).
    unfold dict_active in Hsink. rewrite Hf, andb_false_r in Hsink.
    rewrite Hq, app_nil_r in Hsink.
    eapply plain_since_app with (w := w) (cuts := cuts); try congruence.
    + repeat split; assumption.
    + rewrite He in Henc. exact Henc.
Qed.

(** C5, as amended.  When the dictionary size limit triggers the
    fallback, the dictionary page is handed to the page writer first,
    then the deferred data pages in the order they were cut, the last of
    them the page cut from the values still buffered, if any; the value
    encoder is replaced by a plain encoder, and every page the writer
    hands over afterwards, over its later write calls and its close, is
    PLAIN. *)
Theorem fallback_writes_dictionary_first w (cs : list (WriteCall (T := T))) :
  stats_ok w -> dict_active w = true ->
  DictEncoder_dict_encoded_size (current_encoder_ w) >=
  dictionary_pagesize_limit (properties_ w) ->
  exists w' dict cuts,
    CheckDictionarySizeLimit w = Ret tt w' /\
    sink w' = sink w ++ DictPage dict :: map DataPage (data_pages_ w ++ cuts) /\
    cut_from w w' cuts /\
    (num_buffered_values_ w <= 0 <-> cuts = []) /\
    fallback_ w' = true /\ encoding_ w' = Encoding.PLAIN /\
    current_encoder_ w' = PlainEncoder_new (descr_ w) /\
    exists pages,
      sink (state_of (Close (after_calls cs w'))) =
      sink w' ++ map DataPage pages /\
      Forall (fun p => dp_encoding p = Encoding.PLAIN) pages.
Proof.
  intros Hstats Hactive Hlimit.
  pose proof (CheckDictionarySizeLimit_spec w Hstats) as Hspec.
  apply wp_returns in Hspec. destruct Hspec as ([] & w' & Hrun & Hpost).
  apply Z.geb_ge in Hlimit. rewrite Hlimit in Hpost.
  destruct Hpost as (dict & cuts & Hfall).
  destruct Hfall as (Hcut & Hiff & Hsink & _ & Hq & Hf & He & Henc & _ & Hstats').
  rewrite Hactive in Hsink.
  exists w', dict, cuts. repeat split; try assumption; try apply Hiff.
  assert (Hplain : plain_since (sink w') w').
  { repeat split; try assumption. exists []. cbn [map].
    rewrite app_nil_r. auto. }
  destruct (after_calls_keeps _ (plain_since_written (sink w'))
              (plain_since_refused (sink w')) cs w' Hplain Hstats')
    as [Hplain1 Hstats1].
  apply (plain_since_closed _ _ Hstats1 Hplain1).
Qed.

(** *** The pages and the batches they were cut from *)

Lemma data_pages_of_app (l1 l2 : list (Page ES)) :
  data_pages_of (l1 ++ l2) = data_pages_of l1 ++ data_pages_of l2.
Proof. apply flat_map_app. Qed.

Lemma data_pages_of_data (pages : list (CompressedDataPage ES)) :
  data_pages_of (map DataPage pages) = pages.
Proof.
  induction pages as [|p pages IH]; [reflexivity|].
  cbn. unfold data_pages_of in IH. rewrite IH. reflexivity.
Qed.

Lemma cut_pages_emission w w' cuts :
  (dict_active w = false -> data_pages_ w = []) ->
  emission w w' cuts ->
  cut_pages w' = cut_pages w ++ cuts /\
  (dict_active w' = false -> data_pages_ w' = []).
Proof.
  intros Hqueue (_ & Hwhere & Hsame & _).
  destruct Hsame as (_ & _ & _ & Hh & _).
  unfold cut_pages, dict_active in *. rewrite Hh.
  destruct (has_dictionary_ w && negb (fallback_ w)) eqn:Hactive.
  - destruct Hwhere as [(Hf & _ & Hs & Hq) | (page & Hf & _ & Hs & Hq)].
    + rewrite Hs, Hq, app_assoc. split; [reflexivity|].
      apply andb_true_iff in Hactive. destruct Hactive as [-> _].
      rewrite Hf. discriminate.
    + rewrite Hs, Hq, data_pages_of_app. cbn [data_pages_of flat_map app].
      fold (data_pages_of (map DataPage (data_pages_ w ++ cuts))).
      rewrite data_pages_of_data, app_nil_r, app_assoc. auto.
  - destruct Hwhere as (Hf & _ & Hs & Hq).
    rewrite Hs, Hq, Hf, Hactive, (Hqueue eq_refl), data_pages_of_app,
      data_pages_of_data, !app_nil_r.
    auto.
Qed.

Lemma total_levels_app (l1 l2 : list (MiniBatch T)) :
  total_levels (l1 ++ l2) = total_levels l1 + total_levels l2.
Proof. unfold total_levels. rewrite map_app. apply sum_app. Qed.

Lemma grouped_written groups pending w (b : MiniBatch T) w' :
  grouped groups pending w ->
  mini_batch_written w (num_values b) (def_levels b) (rep_levels b) w' ->
  grouped groups (pending ++ [b]) w' \/
  grouped (groups ++ [pending ++ [b]]) [] w'.
Proof.
  intros (Hpages & Hbuf & Hqueue & Hopen & _) (w2 & cuts & Hb2 & _ & Hem).
  destruct Hb2 as (Hs2 & Hq2 & Hf2 & _ & Hn2 & _ & _ & _ & _ & Hh2 & Hc2 & _).
  assert (Hqueue2 : dict_active w2 = false -> data_pages_ w2 = []).
  { unfold dict_active in *. rewrite Hh2, Hf2, Hq2. exact Hqueue. }
  destruct (cut_pages_emission _ _ _ Hqueue2 Hem) as [Hcut' Hqueue'].
  assert (Hcut2 : cut_pages w2 = cut_pages w)
    by (unfold cut_pages; rewrite Hs2, Hq2; reflexivity).
  assert (Htotal : num_buffered_values_ w2 = total_levels (pending ++ [b])).
  { rewrite total_levels_app, Hn2, Hbuf. unfold total_levels.
    cbn [map]. rewrite sum_cons. cbn [map sum fold_right]. lia. }
  destruct Hem as (Hcut & _ & Hsame & Hstats').
  assert (Hopen' : closed_ w' = false).
  { destruct Hsame as (_ & _ & _ & _ & Hc & _). congruence. }
  destruct Hcut as [[-> Hn] | (page & -> & Hnum & _ & Hn)].
  - left. rewrite app_nil_r, Hcut2 in Hcut'.
    repeat split; try assumption; congruence.
  - right. rewrite Hcut2 in Hcut'.
    repeat split; try assumption.
    rewrite Hcut', !map_app, Hpages. cbn [map]. congruence.
Qed.

Lemma grouped_run (bs : list (MiniBatch T)) :
  forall groups pending w w1,
    grouped groups pending w ->
    WriteMiniBatches bs w = Ret tt w1 ->
    exists groups' pending',
      concat groups' ++ pending' = concat groups ++ pending ++ bs /\
      grouped groups' pending' w1.
Proof.
  induction bs as [|b bs IH]; intros groups pending w w1 Hg Hrun.
  - injection Hrun as <-. exists groups, pending.
    rewrite app_nil_r. auto.
  - cbn [WriteMiniBatches] in Hrun. unfold bind at 1 in Hrun.
    assert (Hstats : stats_ok w) by apply Hg.
    pose proof (WriteMiniBatch_spec w (num_values b) (def_levels b)
                  (rep_levels b) (values b) Hstats) as Hspec.
    unfold wp in Hspec.
    destruct (WriteMiniBatch _ _ _ _ w) as [a w'|e w']; [| discriminate].
    destruct (grouped_written _ _ _ _ _ Hg Hspec) as [Hg' | Hg'];
      destruct (IH _ _ _ _ Hg' Hrun) as (groups' & pending' & Heq & Hg1);
      exists groups', pending'; split; try exact Hg1; rewrite Heq.
    + rewrite <- !app_assoc. reflexivity.
    + rewrite concat_app. cbn [concat]. rewrite !app_nil_r, <- !app_assoc.
      reflexivity.
Qed.

Lemma grouped_closed (groups : list (list (MiniBatch T))) pending w :
  grouped groups pending w ->
  let pages := data_pages_of (sink (state_of (Close w))) in
  (total_levels pending <= 0 /\
   map (@dp_num_values ES) pages =
   map (fun g => cast_int (total_levels g)) groups) \/
  (0 < total_levels pending /\
   map (@dp_num_values ES) pages =
   map (fun g => cast_int (total_levels g)) (groups ++ [pending])).
Proof.
  intros (Hpages & Hbuf & Hqueue & Hopen & Hstats) pages.
  destruct (Close_open_state w Hopen Hstats) as (cuts & Hclose).
  destruct Hclose as (Hcut & Hiff & Hsink & _).
  assert (Hall : pages = cut_pages w ++ cuts).
  { subst pages. unfold cut_pages. destruct (dict_active w) eqn:Hactive.
    - destruct Hsink as (page & -> & _).
      rewrite data_pages_of_app. cbn [data_pages_of flat_map app].
      fold (data_pages_of (map DataPage (data_pages_ w ++ cuts))).
      rewrite data_pages_of_data, app_assoc. reflexivity.
    - rewrite Hsink, (Hqueue eq_refl), data_pages_of_app,
        data_pages_of_data, !app_nil_r. reflexivity. }
  rewrite Hall, map_app, Hpages. rewrite Hbuf in Hiff.
  destruct Hcut as [[-> _] | (page & -> & Hnum & _)].
  - left. split; [apply Hiff; reflexivity|]. cbn [map].
    rewrite app_nil_r. reflexivity.
  - right. split.
    + destruct (Z.le_gt_cases (total_levels pending) 0) as [Hle|Hgt];
        [| lia].
      apply Hiff in Hle. discriminate.
    + rewrite map_app. cbn [map]. congruence.
Qed.

Lemma total_levels_nonneg (bs : list (MiniBatch T)) :
  Forall (fun b => 0 <= num_values b) bs -> 0 <= total_levels bs.
Proof.
  unfold total_levels. induction 1 as [|b bs Hb _ IH]; cbn [map].
  - cbn. lia.
  - rewrite sum_cons. lia.
Qed.

Lemma group_totals (groups : list (list (MiniBatch T))) :
  forall rest,
    Forall (fun b => 0 <= num_values b) (concat groups ++ rest) ->
    Forall (fun g => 0 <= total_levels g <=
                      total_levels (concat groups ++ rest)) groups /\
    sum (map total_levels groups) = total_levels (concat groups).
Proof.
  induction groups as [|g groups IH]; intros rest Hpos.
  - split; [constructor | reflexivity].
  - cbn [concat] in *. rewrite <- app_assoc in Hpos.
    apply Forall_app in Hpos. destruct Hpos as [Hg Hrest].
    destruct (IH rest Hrest) as [Hall Hsum].
    pose proof (total_levels_nonneg _ Hg) as Hg0.
    pose proof (total_levels_nonneg _ Hrest) as Hrest0.
    rewrite <- app_assoc, !total_levels_app. split.
    + constructor; [rewrite total_levels_app in Hrest0; lia|].
      eapply Forall_impl; [| exact Hall]. cbv beta.
      intros g' Hg'. rewrite total_levels_app in Hg'. lia.
    + cbn [map]. rewrite sum_cons, Hsum. reflexivity.
Qed.

(** C6. Over the mini-batches written to a new writer and its close, the
    data pages handed to the page writer correspond, in order, to
    consecutive runs of the batches: the [num_values] of a page is the
    number of level entries of its run, the batches buffered since the
    previous page cut; the batches left over have no entry.  The
    [num_values] of the pages therefore add up to the number of level
    entries written. *)
Theorem page_num_values_count_levels descr pager expected_rows encoding
  props (w0 w1 : Writer) (bs : list (MiniBatch T)) :
  written pager = [] ->
  TypedColumnWriter_new descr pager expected_rows encoding props tt =
  Ret w0 tt ->
  WriteMiniBatches bs w0 = Ret tt w1 ->
  Forall (fun b => 0 <= num_values b) bs ->
  total_levels bs < 2 ^ 31 ->
  let pages := data_pages_of (sink (state_of (Close w1))) in
  exists groups rest,
    concat groups ++ rest = bs /\ total_levels rest = 0 /\
    map (@dp_num_values ES) pages = map total_levels groups /\
    sum (map (@dp_num_values ES) pages) = total_levels bs.
Proof.
  intros Hempty Hnew Hrun Hpos Hsmall pages.
  destruct (TypedColumnWriter_new_facts _ _ _ _ _ _ Hnew)
    as (Hstats0 & Hopen0 & Hfb0 & Hsink0 & Hq0 & Hn0 & _).
  assert (Hg0 : grouped (T := T) [] [] w0).
  { unfold grouped, cut_pages. rewrite Hsink0, Hempty, Hq0, Hn0.
    repeat split; auto. }
  destruct (grouped_run bs _ _ _ _ Hg0 Hrun)
    as (groups & pending & Heq & Hg1).
  cbn [concat app] in Heq.
  assert (Hcast : forall groups' rest',
             concat groups' ++ rest' = bs ->
             map (fun g => cast_int (total_levels g)) groups' =
             map total_levels groups' /\
             sum (map total_levels groups') = total_levels (concat groups')).
  { intros groups' rest' Heq'. rewrite <- Heq' in Hpos.
    destruct (group_totals _ _ Hpos) as [Hall Hsum].
    split; [| exact Hsum].
    apply map_ext_Forall.
    eapply Forall_impl; [| exact Hall]. cbv beta. intros g Hg.
    apply cast_int_id. rewrite Heq' in Hg. lia. }
  assert (Hpending : 0 <= total_levels pending).
  { apply total_levels_nonneg. rewrite <- Heq in Hpos.
    apply Forall_app in Hpos. apply Hpos. }
  destruct (grouped_closed _ _ _ Hg1) as [[Hle Hpages] | [Hgt Hpages]];
    fold pages in Hpages.
  - (* nothing was left to cut at the close *)
    exists groups, pending.
    destruct (Hcast groups pending Heq) as [Hc Hsum].
    rewrite Hpages, Hc, Hsum.
    repeat split; try assumption; try lia.
    rewrite <- Heq, total_levels_app. lia.
  - (* the close cut a last page from the pending batches *)
    exists (groups ++ [pending]), [].
    assert (Heq' : concat (groups ++ [pending]) ++ [] = bs).
    { rewrite concat_app. cbn [concat]. rewrite !app_nil_r. exact Heq. }
    destruct (Hcast _ _ Heq') as [Hc Hsum].
    rewrite Hpages, Hc, Hsum.
    repeat split; try assumption; try reflexivity.
    rewrite app_nil_r in Heq'. rewrite Heq'. reflexivity.
Qed.
End Specification.

Section FactoryProperties.
Context {T E S ES R BW : Type}
        {rle_ops : RleEncoderOps R} {bw_ops : BitWriterOps BW}
        {enc_ops : EncoderOps T E} {stats_ops : StatisticsOps T S ES}.
Local Abbreviation Writer := (ColumnWriter E S ES R BW).

(** C7, as amended.  The factory selects as value encoding the configured
    dictionary page encoding ([dictionary_page_encoding], not
    [dictionary_index_encoding]) when dictionary encoding is enabled for
    the column's path and the physical type is not BOOLEAN, and the
    encoding configured for the path otherwise.  It returns a writer of
    the column's physical type with that encoding when the encoding is
    PLAIN, PLAIN_DICTIONARY or RLE_DICTIONARY; it fails with a
    not-implemented error for any other encoding and for a physical type
    outside the enumeration. *)
Theorem factory_selects_encoding descr (pager : PageWriter ES)
  expected_rows props :
  let selected :=
    if dictionary_enabled props (path descr) &&
       negb (Type_.is_BOOLEAN (physical_type descr))
    then dictionary_page_encoding props
    else encoding props (path descr) in
  let made := Make (R := R) (BW := BW) descr pager expected_rows props tt in
  match physical_type descr with
  | Type_.UNDEFINED =>
      made = Raise (NotImplemented "type reader not implemented") tt
  | type =>
      match selected with
      | Encoding.PLAIN | Encoding.PLAIN_DICTIONARY
      | Encoding.RLE_DICTIONARY =>
          exists tw,
            made = Ret tw tt /\ writer_type tw = type /\
            encoding_ (writer_of tw) = selected /\
            has_dictionary_ (writer_of tw) = is_dictionary_encoding selected
      | _ =>
          made = Raise (NotImplemented "Selected encoding is not supported") tt
      end
  end.
Proof.
  cbv zeta. unfold Make, TypedColumnWriter_new, is_dictionary_encoding.
  destruct (physical_type descr); cbn [Type_.is_BOOLEAN negb];
    try reflexivity.
  all: destruct (if dictionary_enabled props (path descr) && _
                 then dictionary_page_encoding props
                 else encoding props (path descr)) eqn:Hsel;
    unfold bind, ret, throw; try reflexivity.
  all: destruct (statistics_enabled props (path descr)).
  all: eexists; split; [reflexivity|]; simpl_goal;
       cbn [writer_type writer_of]; simpl_goal; repeat split.
Qed.
End FactoryProperties.

Module Int32Examples.
Import Int32Column Int32Chunks.

#[local] Existing Instance rle_encoder_ops.
#[local] Existing Instance bit_writer_ops.
#[local] Existing Instance encoder_ops.
#[local] Existing Instance statistics_ops.
#[local] Existing Instance page_writer_ops.

Lemma codec_put_loop_fits levels : forall (c : ByteCodec) n,
  buffer_size (stored c) <= Z.max 0 (capacity c) ->
  buffer_size (stored (fst (LevelEncoder.rle_put_loop c levels n))) <=
  Z.max 0 (capacity c).
Proof.
  induction levels as [|l levels IH]; intros c n Hc; cbn.
  - exact Hc.
  - unfold codec_put.
    destruct (buffer_size (stored c) <? capacity c) eqn:Hroom.
    + apply Z.ltb_lt in Hroom.
      specialize (IH {| capacity := capacity c;
                        stored := stored c ++ [l mod 256] |} (n + 1)).
      cbn [capacity stored] in IH. apply IH.
      unfold buffer_size in *. rewrite length_app. cbn [length]. lia.
    + exact Hc.
Qed.

Lemma byte_codec_laws : RleEncoderLaws ByteCodec.
Proof.
  constructor. intros data_size bit_width levels n.
  apply (codec_put_loop_fits levels
           {| capacity := data_size; stored := [] |} n).
  cbn. lia.
Qed.

#[local] Existing Instance byte_codec_laws.

(** *** Writers the properties are evaluated on *)

Lemma data_page_layout_witness :
  stats_ok buffered_writer /\
  level_buffer_fits buffered_writer
    (max_definition_level (descr_ buffered_writer)) /\
  level_buffer_fits buffered_writer
    (max_repetition_level (descr_ buffered_writer)) /\
  exists w' page,
    AddDataPage buffered_writer = Ret tt w' /\
    uncompressed_data_ w' =
      [6; 0; 0; 0; 0; 1; 1; 0; 1; 0] ++ [6; 0; 0; 0; 1; 1; 0; 1; 1; 1] ++
      [10; 0; 0; 0; 20; 0; 0; 0; 30; 0; 0; 0; 40; 0; 0; 0; 50; 0; 0; 0] /\
    dp_buffer page = uncompressed_data_ w' /\
    dp_uncompressed_size page = 40 /\
    sink w' = [DataPage page].
Proof.
  assert (H1 : stats_ok buffered_writer) by (vm_compute; exact I).
  assert (H2 : level_buffer_fits buffered_writer
                 (max_definition_level (descr_ buffered_writer)))
    by (intros _; vm_compute; split; [discriminate | reflexivity]).
  assert (H3 : level_buffer_fits buffered_writer
                 (max_repetition_level (descr_ buffered_writer)))
    by (intros _; vm_compute; split; [discriminate | reflexivity]).
  split; [exact H1|]. split; [exact H2|]. split; [exact H3|].
  destruct (data_page_layout buffered_writer H1 H2 H3)
    as (w' & page & Hrun & Hdata & Hbuf & Hsize & Hwhere).
  exists w', page. split; [exact Hrun|].
  rewrite Hbuf, Hsize, Hdata. vm_compute in Hwhere.
  repeat split; try exact Hwhere; vm_compute; reflexivity.
Defined.

Lemma num_rows_counts_rows_witness :
  stats_ok (nested_writer 3) /\
  Forall (fun b : MiniBatch Z => - 2 ^ 31 <= num_values b < 2 ^ 31)
    [three_rows] /\
  WriteMiniBatches [three_rows] (nested_writer 3) = Ret tt buffered_writer /\
  num_rows_ buffered_writer = 3.
Proof.
  assert (H1 : stats_ok (nested_writer 3)) by (vm_compute; exact I).
  assert (H2 : Forall (fun b : MiniBatch Z =>
                         - 2 ^ 31 <= num_values b < 2 ^ 31) [three_rows])
    by (repeat constructor; vm_compute; discriminate).
  assert (H3 : WriteMiniBatches [three_rows] (nested_writer 3) =
               Ret tt buffered_writer) by (vm_compute; reflexivity).
  split; [exact H1|]. split; [exact H2|]. split; [exact H3|].
  rewrite (num_rows_counts_rows [three_rows] _ _ H1 H2 H3).
  vm_compute. reflexivity.
Defined.

(** C3 fails as worded: the error of a write that exceeds the row budget
    of two rows with three carries neither count. *)
Lemma write_error_carries_no_count :
  ~ write_error_carries_counts (required_writer 2) 3 [] [] [1; 2; 3].
Proof.
  intros Hclaim.
  destruct (Hclaim row_budget_error
              (state_of (WriteMiniBatch 3 [] [] [1; 2; 3] (required_writer 2)))
              ltac:(vm_compute; reflexivity))
    as (msg & Hmsg & Hrows & _).
  injection Hmsg as <-. vm_compute in Hrows. discriminate.
Qed.

Lemma row_count_errors_witness :
  stats_ok (required_writer 2) /\
  (exists w',
      WriteMiniBatch 3 [] [] [1; 2; 3] (required_writer 2) =
      Raise (ParquetException
               "More rows were written in the column chunk than expected") w') /\
  (exists w',
      Close (required_writer 2) =
      Raise (ParquetException
               "Written rows: 0 != expected rows: 2in the current column chunk")
        w').
Proof.
  assert (H1 : stats_ok (required_writer 2)) by (vm_compute; exact I).
  split; [exact H1|].
  destruct (row_count_errors (required_writer 2) 3 [] [] [1; 2; 3] H1)
    as [Hwrite Hclose].
  split.
  - apply Hwrite. vm_compute. reflexivity.
  - apply Hclose. vm_compute. discriminate.
Defined.

Lemma one_dictionary_page_first_witness :
  written fresh_pager = [] /\
  TypedColumnWriter_new (column 0 0) fresh_pager 4 Encoding.PLAIN_DICTIONARY
    (properties Encoding.PLAIN true 8 2) tt =
  Ret (dictionary_writer 8 2) tt /\
  dictionary_page_first
    (sink (state_of (Close (after_calls falling_back (dictionary_writer 8 2))))).
Proof.
  assert (H1 : written fresh_pager = []) by reflexivity.
  assert (H2 : TypedColumnWriter_new (column 0 0) fresh_pager 4
                 Encoding.PLAIN_DICTIONARY
                 (properties Encoding.PLAIN true 8 2) tt =
               Ret (dictionary_writer 8 2) tt) by reflexivity.
  split; [exact H1|]. split; [exact H2|].
  apply (one_dictionary_page_first _ _ _ _ _ _ falling_back H1 H2).
Defined.

Lemma writer_at_limit_reached :
  WriteMiniBatch 1 [] [] [10] (dictionary_writer 4 2) =
  Ret 1 (state_of (CheckDictionarySizeLimit writer_at_limit)).
Proof. vm_compute. reflexivity. Qed.

(** C5 fails as worded: the write that falls back hands over the
    dictionary page first, the deferred pages after it. *)
Lemma dictionary_precedes_deferred_pages :
  data_pages_ deferring_writer <> [] /\
  WriteMiniBatch 1 [] [] [20] deferring_writer = Ret 1 fallen_back_writer /\
  ~ deferred_pages_before_dictionary deferring_writer fallen_back_writer.
Proof.
  split; [vm_compute; discriminate|].
  split; [vm_compute; reflexivity|].
  intros Hclaim.
  destruct (Hclaim eq_refl eq_refl) as (dict & rest & Hsink).
  vm_compute in Hsink. discriminate.
Qed.

Lemma fallback_writes_dictionary_first_witness :
  stats_ok writer_at_limit /\ dict_active writer_at_limit = true /\
  DictEncoder_dict_encoded_size (current_encoder_ writer_at_limit) >=
  dictionary_pagesize_limit (properties_ writer_at_limit) /\
  exists w' dict,
    CheckDictionarySizeLimit writer_at_limit = Ret tt w' /\
    sink w' = DictPage dict :: map DataPage (data_pages_ writer_at_limit) /\
    encoding_ w' = Encoding.PLAIN.
Proof.
  assert (H1 : stats_ok writer_at_limit) by (vm_compute; exact I).
  assert (H2 : dict_active writer_at_limit = true) by reflexivity.
  assert (H3 : DictEncoder_dict_encoded_size
                 (current_encoder_ writer_at_limit) >=
               dictionary_pagesize_limit (properties_ writer_at_limit))
    by (vm_compute; discriminate).
  split; [exact H1|]. split; [exact H2|]. split; [exact H3|].
  destruct (fallback_writes_dictionary_first writer_at_limit [] H1 H2 H3)
    as (w' & dict & cuts & Hrun & Hsink & _ & Hiff & _ & Henc & _).
  exists w', dict. split; [exact Hrun|]. split; [| exact Henc].
  assert (Hcuts : cuts = []) by (apply Hiff; vm_compute; discriminate).
  rewrite Hsink, Hcuts, app_nil_r. reflexivity.
Defined.

Lemma page_num_values_count_levels_witness :
  written fresh_pager = [] /\
  TypedColumnWriter_new (column 1 1) fresh_pager 6 Encoding.PLAIN
    small_page_properties tt = Ret small_page_writer tt /\
  WriteMiniBatches two_batches small_page_writer =
  Ret tt two_batches_written /\
  Forall (fun b : MiniBatch Z => 0 <= num_values b) two_batches /\
  total_levels two_batches < 2 ^ 31 /\
  sum (map (@dp_num_values _)
         (data_pages_of (sink (state_of (Close two_batches_written))))) = 9 /\
  map (@dp_num_values _)
    (data_pages_of (sink (state_of (Close two_batches_written)))) = [6; 3].
Proof.
  assert (H1 : written fresh_pager = []) by reflexivity.
  assert (H2 : TypedColumnWriter_new (column 1 1) fresh_pager 6
                 Encoding.PLAIN small_page_properties tt =
               Ret small_page_writer tt)
    by reflexivity.
  assert (H3 : WriteMiniBatches two_batches small_page_writer =
               Ret tt two_batches_written)
    by (vm_compute; reflexivity).
  assert (H4 : Forall (fun b : MiniBatch Z => 0 <= num_values b)
                 two_batches)
    by (repeat constructor; vm_compute; discriminate).
  assert (H5 : total_levels two_batches < 2 ^ 31) by reflexivity.
  repeat (split; [assumption|]).
  destruct (page_num_values_count_levels _ _ _ _ _ small_page_writer
              two_batches_written two_batches H1 H2 H3 H4 H5)
    as (groups & rest & _ & _ & _ & Hsum).
  split; [rewrite Hsum; reflexivity|].
  vm_compute. reflexivity.
Defined.

(** C7 fails as worded: with RLE_DICTIONARY as dictionary page encoding
    and PLAIN_DICTIONARY as dictionary index encoding, the writer of an
    INT32 column with a dictionary encodes its values RLE_DICTIONARY. *)
Lemma factory_selects_page_encoding :
  ~ factory_selects_index_encoding (R := ByteCodec) (BW := ByteCodec)
      (column 0 0) fresh_pager 4 two_dictionary_encodings.
Proof.
  intros Hclaim. destruct (Hclaim eq_refl) as (tw & Hmake & Henc).
  vm_compute in Hmake. injection Hmake as <-.
  vm_compute in Henc. discriminate.
Qed.


(** C9 fails as worded: with a dictionary size limit of zero, a batch of
    zero values written to a new writer hands the dictionary page to the
    page writer and makes the writer fall back. *)
Lemma empty_batch_writes_dictionary_page :
  ~ empty_batch_changes_nothing (dictionary_writer 0 1000) [] [] [].
Proof.
  intros (Hsink & _). vm_compute in Hsink. discriminate.
Qed.

Lemma empty_batch_is_noop_witness :
  write_batch_size (properties_ (required_writer 2)) <> 0 /\
  num_rows_ (required_writer 2) <= expected_rows_ (required_writer 2) /\
  Encoder_EstimatedDataEncodedSize
    (Encoder_Put (current_encoder_ (required_writer 2)) [] 0) <
  data_pagesize (properties_ (required_writer 2)) /\
  (dict_active (required_writer 2) = true ->
   DictEncoder_dict_encoded_size
     (Encoder_Put (current_encoder_ (required_writer 2)) [] 0) <
   dictionary_pagesize_limit (properties_ (required_writer 2))) /\
  exists w',
    WriteBatch 0 [] [] [] (required_writer 2) = Ret tt w' /\
    sink w' = [] /\ num_rows_ w' = 0.
Proof.
  assert (H1 : write_batch_size (properties_ (required_writer 2)) <> 0)
    by (vm_compute; discriminate).
  assert (H2 : num_rows_ (required_writer 2) <=
               expected_rows_ (required_writer 2))
    by (vm_compute; discriminate).
  assert (H3 : Encoder_EstimatedDataEncodedSize
                 (Encoder_Put (current_encoder_ (required_writer 2)) [] 0) <
               data_pagesize (properties_ (required_writer 2)))
    by reflexivity.
  assert (H4 : dict_active (required_writer 2) = true ->
               DictEncoder_dict_encoded_size
                 (Encoder_Put (current_encoder_ (required_writer 2)) [] 0) <
               dictionary_pagesize_limit (properties_ (required_writer 2)))
    by (intros _; reflexivity).
  repeat (split; [assumption|]).
  destruct (empty_batch_is_noop (required_writer 2) [] [] [] H1 H2 H3 H4)
    as (w' & Hrun & Hsink & _ & Hrows & _).
  exists w'. split; [exact Hrun|]. split.
  - rewrite Hsink. reflexivity.
  - rewrite Hrows. reflexivity.
Defined.

Lemma failed_write_is_not_rolled_back_witness :
  stats_ok (nested_writer 2) /\
  WriteMiniBatch 6 [1; 1; 0; 1; 1; 1] [0; 1; 1; 0; 1; 0]
    [10; 20; 30; 40; 50] (nested_writer 2) =
  Raise row_budget_error over_budget_writer /\
  definition_levels_sink_ over_budget_writer =
  [1; 0; 1; 0; 0; 0; 1; 0; 1; 0; 1; 0] /\
  repetition_levels_sink_ over_budget_writer =
  [0; 0; 1; 0; 1; 0; 0; 0; 1; 0; 0; 0] /\
  num_rows_ over_budget_writer = 3 /\
  num_rows_ over_budget_writer > expected_rows_ over_budget_writer.
Proof.
  assert (H1 : stats_ok (nested_writer 2)) by (vm_compute; exact I).
  assert (H2 : WriteMiniBatch 6 [1; 1; 0; 1; 1; 1] [0; 1; 1; 0; 1; 0]
                 [10; 20; 30; 40; 50] (nested_writer 2) =
               Raise row_budget_error over_budget_writer)
    by (vm_compute; reflexivity).
  split; [exact H1|]. split; [exact H2|].
  destruct (failed_write_is_not_rolled_back (nested_writer 2) 6
              [1; 1; 0; 1; 1; 1] [0; 1; 1; 0; 1; 0] [] 0
              [10; 20; 30; 40; 50] _ over_budget_writer H1
              (or_introl H2))
    as (_ & Hdef & Hrep & Hrows & Hover & _).
  rewrite Hdef, Hrep, Hrows.
  split; [vm_compute; reflexivity|]. split; [vm_compute; reflexivity|].
  split; [vm_compute; reflexivity|]. rewrite <- Hrows. exact Hover.
Defined.
End Int32Examples.

(* ------------------------------------------------------------------ *)
(** * Further properties of the writer *)

Section LevelEncoderProperties.
Context {R BW : Type} {rle_ops : RleEncoderOps R} {bw_ops : BitWriterOps BW}.

Lemma length_array_prefix {A} n (a : list A) :
  Z.of_nat (length (array_prefix n a)) = Z.min (Z.max 0 n) (Z.of_nat (length a)).
Proof. unfold array_prefix. rewrite length_firstn. lia. Qed.

Lemma put_loop_accepts {X} (put : X -> Z -> bool * X)
  (loop : X -> list Z -> Z -> X * Z) :
  (forall x n, loop x [] n = (x, n)) ->
  (forall x level rest n,
     loop x (level :: rest) n =
     let (ok, x') := put x level in
     if ok then loop x' rest (n + 1) else (x', n)) ->
  forall levels x n,
  exists j : nat,
    (j <= length levels)%nat /\
    loop x levels n =
      (offered put x (firstn (Datatypes.S j) levels), n + Z.of_nat j) /\
    (forall i, (i < j)%nat ->
       fst (put (offered put x (firstn i levels)) (nth i levels 0)) = true) /\
    ((j < length levels)%nat ->
       fst (put (offered put x (firstn j levels)) (nth j levels 0)) = false).
Proof.
  intros Hnil Hcons.
  induction levels as [|level rest IH]; intros x n.
  - exists 0%nat. rewrite Hnil. cbn.
    split; [lia|]. split; [f_equal; lia|]. split; intros; lia.
  - rewrite Hcons. destruct (put x level) as [ok x1] eqn:Hput.
    destruct ok.
    + destruct (IH x1 (n + 1)) as (j & Hj & Hrun & Hacc & Href).
      exists (Datatypes.S j). cbn [length].
      split; [lia|]. split; [| split].
      * rewrite Hrun. cbn [firstn offered fold_left]. rewrite Hput.
        cbn [snd]. f_equal. lia.
      * intros [|i] Hi.
        -- cbn. rewrite Hput. reflexivity.
        -- cbn [firstn nth offered fold_left]. rewrite Hput. cbn [snd].
           apply Hacc. lia.
      * intros Hlt. cbn [firstn nth offered fold_left]. rewrite Hput.
        cbn [snd]. apply Href. lia.
    + exists 0%nat. cbn [length].
      split; [lia|]. split; [| split].
      * cbn [firstn offered fold_left]. rewrite Hput. cbn [snd].
        f_equal. lia.
      * intros i Hi. lia.
      * intros _. cbn. rewrite Hput. reflexivity.
Qed.

Lemma put_loop_levels_put {X} (put : X -> Z -> bool * X)
  (loop : X -> list Z -> Z -> X * Z) batch_size levels x :
  (forall x n, loop x [] n = (x, n)) ->
  (forall x level rest n,
     loop x (level :: rest) n =
     let (ok, x') := put x level in
     if ok then loop x' rest (n + 1) else (x', n)) ->
  batch_size <= Z.of_nat (length levels) ->
  levels_put put x batch_size levels
    (snd (loop x (array_prefix batch_size levels) 0))
    (fst (loop x (array_prefix batch_size levels) 0)).
Proof.
  intros Hnil Hcons Hsize.
  destruct (put_loop_accepts put loop Hnil Hcons
              (array_prefix batch_size levels) x 0)
    as (j & Hj & -> & Hacc & Href).
  cbn [fst snd].
  assert (Hlen : length (array_prefix batch_size levels) =
                 Z.to_nat batch_size)
    by (unfold array_prefix; rewrite length_firstn; lia).
  rewrite Hlen in Hj, Href.
  assert (Hpre : forall i : nat,
             (i <= Z.to_nat batch_size)%nat ->
             firstn i (array_prefix batch_size levels) = firstn i levels).
  { intros i Hi. unfold array_prefix. rewrite firstn_firstn.
    f_equal. lia. }
  assert (Hnth : forall i : nat,
             (i < Z.to_nat batch_size)%nat ->
             nth i (array_prefix batch_size levels) 0 = nth i levels 0).
  { intros i Hi. unfold array_prefix.
    rewrite <- (firstn_skipn (Z.to_nat batch_size) levels) at 2.
    rewrite app_nth1; [reflexivity|]. rewrite length_firstn. lia. }
  unfold levels_put, level_at, array_prefix in *.
  split; [lia|]. split; [| split].
  - intros i Hi.
    rewrite <- (Hpre (Z.to_nat i)), <- (Hnth (Z.to_nat i)) by lia.
    apply Hacc. lia.
  - intros Hlt.
    replace (Z.to_nat (0 + Z.of_nat j)) with j by lia.
    rewrite <- (Hpre j), <- (Hnth j) by lia.
    apply Href. lia.
  - destruct (Nat.eq_dec j (Z.to_nat batch_size)) as [-> | Hne].
    + rewrite firstn_firstn.
      f_equal. f_equal. lia.
    + rewrite Hpre by lia. f_equal. f_equal. lia.
Qed.

(** X1. [Encode] returns the number of levels it has put into the encoder
    [encoding_] designates: the encoder has accepted that many of the
    [batch_size] first levels, in order; if levels remain it has refused
    the next one, and the loop has stopped there.  The encoder is then
    flushed, and the other encoder is left alone. *)
Theorem Encode_count batch_size levels (le le' : LevelEncoder.t R BW) k :
  batch_size <= Z.of_nat (length levels) ->
  LevelEncoder.Encode batch_size levels le = Ret k le' ->
  if Encoding.eqb (LevelEncoder.encoding_ le) Encoding.RLE
  then exists r r',
      LevelEncoder.rle_encoder_ le = Some r /\
      levels_put RleEncoder_Put r batch_size levels k r' /\
      LevelEncoder.rle_encoder_ le' = Some (RleEncoder_Flush r') /\
      LevelEncoder.rle_length_ le' = RleEncoder_len (RleEncoder_Flush r') /\
      LevelEncoder.bit_packed_encoder_ le' =
        LevelEncoder.bit_packed_encoder_ le
  else exists b b',
      LevelEncoder.bit_packed_encoder_ le = Some b /\
      levels_put
        (fun b level => BitWriter_PutValue b level (LevelEncoder.bit_width_ le))
        b batch_size levels k b' /\
      LevelEncoder.bit_packed_encoder_ le' = Some (BitWriter_Flush b') /\
      LevelEncoder.rle_encoder_ le' = LevelEncoder.rle_encoder_ le.
Proof.
  intros Hsize.
  unfold LevelEncoder.Encode, bind, gets.
  destruct (LevelEncoder.rle_encoder_ le) as [r|] eqn:Hr;
    destruct (LevelEncoder.bit_packed_encoder_ le) as [b|] eqn:Hb;
    try discriminate;
    destruct (Encoding.eqb (LevelEncoder.encoding_ le) Encoding.RLE);
    try discriminate.
  all: try (pose proof (put_loop_levels_put RleEncoder_Put
                          LevelEncoder.rle_put_loop batch_size levels r
                          ltac:(reflexivity) ltac:(reflexivity) Hsize)
             as Hput;
            destruct (LevelEncoder.rle_put_loop r
                        (array_prefix batch_size levels) 0) as [r1 n];
            cbn; intros [= <- <-]; cbn [fst snd] in Hput;
            exists r, r1; cbn; auto).
  all: pose proof (put_loop_levels_put
                     (fun b level =>
                        BitWriter_PutValue b level (LevelEncoder.bit_width_ le))
                     (fun b levels n =>
                        LevelEncoder.bit_packed_put_loop b
                          (LevelEncoder.bit_width_ le) levels n)
                     batch_size levels b
                     ltac:(reflexivity) ltac:(reflexivity) Hsize)
         as Hput;
       cbv beta in Hput;
       destruct (LevelEncoder.bit_packed_put_loop b (LevelEncoder.bit_width_ le)
                   (array_prefix batch_size levels) 0) as [b1 n];
       cbn; intros [= <- <-]; cbn [fst snd] in Hput;
       exists b, b1; cbn; auto.
Qed.

(** X2. After an [Init] for RLE or BIT_PACKED, whatever the encoder was
    before, [Encode] returns: it finds the encoder [encoding_] designates. *)
Theorem Encode_after_Init encoding max_level n size batch_size levels
  (le : LevelEncoder.t R BW) :
  level_encoding encoding = true ->
  exists le1 k le2,
    LevelEncoder.Init encoding max_level n size le = Ret tt le1 /\
    LevelEncoder.encoding_ le1 = encoding /\
    LevelEncoder.bit_width_ le1 = BitUtil.Log2 (max_level + 1) /\
    LevelEncoder.Encode batch_size levels le1 = Ret k le2.
Proof.
  intros Henc.
  exists (state_of (LevelEncoder.Init encoding max_level n size le)).
  destruct encoding; try discriminate.
  - destruct (LevelEncoder.rle_put_loop
                (RleEncoder_new size (BitUtil.Log2 (max_level + 1)))
                (array_prefix batch_size levels) 0) as [r1 k] eqn:Hrun.
    exists k.
    cbv [LevelEncoder.Init bind modify gets state_of].
    eexists. split; [reflexivity|]. split; [reflexivity|].
    split; [reflexivity|].
    unfold LevelEncoder.Encode, bind, gets. cbn.
    destruct (LevelEncoder.bit_packed_encoder_ le); rewrite Hrun; reflexivity.
  - destruct (LevelEncoder.bit_packed_put_loop
                (BitWriter_new
                   (cast_int (BitUtil.Ceil (n * BitUtil.Log2 (max_level + 1)) 8)))
                (BitUtil.Log2 (max_level + 1))
                (array_prefix batch_size levels) 0) as [b1 k] eqn:Hrun.
    exists k.
    cbv [LevelEncoder.Init bind modify gets state_of].
    eexists. split; [reflexivity|]. split; [reflexivity|].
    split; [reflexivity|].
    unfold LevelEncoder.Encode, bind, gets. cbn.
    destruct (LevelEncoder.rle_encoder_ le); rewrite Hrun; reflexivity.
Qed.

(** X3. [Init] and [MaxBufferSize] reject every encoding other than RLE and
    BIT_PACKED with the same error.  The failed [Init] creates no encoder
    but has already overwritten [bit_width_] and [encoding_]; on an encoder
    that has none, [Encode] then fails as on a new one. *)
Theorem unknown_level_encoding_rejected encoding max_level n size batch_size
  levels (le : LevelEncoder.t R BW) :
  level_encoding encoding = false ->
  LevelEncoder.MaxBufferSize encoding max_level n le =
  Raise unknown_level_encoding le /\
  exists le1,
    LevelEncoder.Init encoding max_level n size le =
    Raise unknown_level_encoding le1 /\
    LevelEncoder.rle_encoder_ le1 = LevelEncoder.rle_encoder_ le /\
    LevelEncoder.bit_packed_encoder_ le1 = LevelEncoder.bit_packed_encoder_ le /\
    LevelEncoder.encoding_ le1 = encoding /\
    LevelEncoder.bit_width_ le1 = BitUtil.Log2 (max_level + 1) /\
    (LevelEncoder.rle_encoder_ le = None ->
     LevelEncoder.bit_packed_encoder_ le = None ->
     LevelEncoder.Encode batch_size levels le1 =
     Raise (ParquetException "Level encoders are not initialized.") le1).
Proof.
  intros Henc. destruct encoding; try discriminate.
  all: split; [reflexivity|]; eexists; split; [reflexivity|].
  all: repeat (split; [reflexivity|]).
  all: intros Hr Hb; unfold LevelEncoder.Encode, bind, gets; cbn;
       rewrite Hr, Hb; reflexivity.
Qed.
End LevelEncoderProperties.

Section MoreWpRules.
Context {St : Type}.

Lemma wp_any A (c : M St A) (s : St) (Q : A -> St -> Prop)
  (X : exn -> St -> Prop) :
  (forall a s', Q a s') -> (forall e s', X e s') -> wp c s Q X.
Proof. unfold wp. destruct (c s); auto. Qed.

Lemma wp_returned A (c : M St A) (s : St) Q X a s' :
  wp c s Q X -> c s = Ret a s' -> Q a s'.
Proof. unfold wp. intros H Heq. rewrite Heq in H. exact H. Qed.

Lemma wp_raised A (c : M St A) (s : St) Q X e s' :
  wp c s Q X -> c s = Raise e s' -> X e s'.
Proof. unfold wp. intros H Heq. rewrite Heq in H. exact H. Qed.

Lemma wp_and A (c : M St A) (s : St) (Q Q' : A -> St -> Prop)
  (X X' : exn -> St -> Prop) :
  wp c s Q X -> wp c s Q' X' ->
  wp c s (fun a s' => Q a s' /\ Q' a s') (fun e s' => X e s' /\ X' e s').
Proof. unfold wp. destruct (c s); auto. Qed.
End MoreWpRules.

Section AccountingProperties.
Context {T E S ES R BW : Type}
        {rle_ops : RleEncoderOps R} {bw_ops : BitWriterOps BW}
        {enc_ops : EncoderOps T E} {stats_ops : StatisticsOps T S ES}
        {pw_ops : PageWriterOps ES} {laws : RleEncoderLaws R}.
Local Abbreviation Writer := (ColumnWriter E S ES R BW).
Implicit Types (w : Writer).

Lemma sink_bytes_app (l1 l2 : list (Page ES)) :
  sink_bytes (l1 ++ l2) = sink_bytes l1 + sink_bytes l2.
Proof. unfold sink_bytes. rewrite map_app. apply sum_app. Qed.

Lemma sink_bytes_data (pages : list (CompressedDataPage ES)) :
  sink_bytes (map DataPage pages) = sum (map (@data_page_bytes_written ES _) pages).
Proof.
  unfold sink_bytes. rewrite map_map. reflexivity.
Qed.

Lemma tracked_refl w : tracked w w.
Proof. unfold tracked, buffer_kept. auto 10. Qed.

Lemma tracked_trans w1 w2 w3 :
  tracked w1 w2 -> tracked w2 w3 -> tracked w1 w3.
Proof.
  unfold tracked, buffer_kept, buffer_cleared.
  intros (Hu1 & Hd1 & Hb1) (Hu2 & Hd2 & Hb2).
  split; [congruence|]. split; [congruence|].
  destruct Hb2 as [(? & ? & ? & ?) | ?]; [| right; assumption].
  destruct Hb1 as [(? & ? & ? & ?) | (? & ? & ? & ?)].
  - left. repeat split; congruence.
  - right. repeat split; congruence.
Qed.

Lemma AddDataPage_tracked w :
  stats_ok w ->
  wp AddDataPage w
    (fun _ w' => tracked w w' /\ buffer_cleared w' /\ stats_ok w') never.
Proof.
  intros Hstats.
  eapply wp_conseq; [ apply AddDataPage_spec, Hstats | | auto ].
  cbv beta. intros _ w' (page & Hcut & _).
  destruct Hcut as (_ & _ & _ & Hwhere & Hn & Hne & Hd & Hr & _ & _ & _ &
                    Hsame & Hst).
  assert (Hclear : buffer_cleared w') by (unfold buffer_cleared; auto).
  split; [| auto].
  unfold tracked. split; [| split; [apply Hsame | right; exact Hclear]].
  unfold unaccounted.
  destruct (dict_active w).
  - destruct Hwhere as (-> & _ & ->). reflexivity.
  - destruct Hwhere as (-> & _ & ->). rewrite sink_bytes_app.
    unfold sink_bytes at 2. cbn. lia.
Qed.

Lemma WriteDictionaryPage_tracked w :
  wp WriteDictionaryPage w
    (fun _ w' => tracked w w' /\ buffer_kept w w' /\
                 (stats_ok w -> stats_ok w') /\
                 num_buffered_values_ w' = num_buffered_values_ w /\
                 data_pages_ w' = data_pages_ w)
    never.
Proof.
  unfold WriteDictionaryPage, on_pager, PageWriter_.WriteDictionaryPage.
  wp_steps. simpl_goal.
  unfold tracked, unaccounted, buffer_kept, sink, stats_ok. simpl_goal.
  rewrite sink_bytes_app. unfold sink_bytes at 2. cbn [map sum fold_right page_bytes].
  repeat split; auto; lia.
Qed.

Lemma for_each_WriteDataPage_total pages : forall w,
  for_each pages WriteDataPage w =
  Ret tt
    (set_total_bytes_written_
       (total_bytes_written_ w +
        sum (map (@data_page_bytes_written ES _) pages))
       (set_pager_ (set_written (sink w ++ map DataPage pages) (pager_ w))
          w)).
Proof.
  induction pages as [|page pages IH]; intros w.
  - cbn [for_each map]. unfold ret. f_equal.
    apply ColumnWriter_ext; simpl_goal; try reflexivity.
    + apply PageWriter_ext; simpl_goal; try reflexivity.
      unfold sink. rewrite app_nil_r. reflexivity.
    + cbn. lia.
  - cbn [for_each map]. unfold bind at 1. rewrite WriteDataPage_eq.
    rewrite IH. f_equal.
    apply ColumnWriter_ext; simpl_goal; try reflexivity.
    + apply PageWriter_ext; simpl_goal; try reflexivity.
      unfold sink. simpl_goal. rewrite <- app_assoc. reflexivity.
    + unfold sum. cbn [fold_right]. lia.
Qed.

Lemma FlushBufferedDataPages_tracked w :
  stats_ok w ->
  wp FlushBufferedDataPages w
    (fun _ w' => tracked w w' /\ stats_ok w' /\
                 (0 <= num_buffered_values_ w -> buffer_cleared w' \/
                  (num_buffered_values_ w = 0 /\ buffer_kept w w')))
    never.
Proof.
  intros Hstats. unfold FlushBufferedDataPages.
  wp_step. wp_step. wp_step.
  apply wp_when; intros Hpos.
  - eapply wp_conseq; [ apply AddDataPage_tracked, Hstats | | auto ].
    cbv beta. intros _ w1 (Htr & Hcl & Hst1).
    wp_step. wp_step. wp_step.
    eapply wp_of_eq; [ apply for_each_WriteDataPage_total | cbv beta iota ].
    wp_step.
    assert (Hcl' : forall x y z,
               buffer_cleared
                 (set_data_pages_ x
                    (set_total_bytes_written_ y (set_pager_ z w1)))).
    { intros. unfold buffer_cleared in *. simpl_goal. exact Hcl. }
    split; [| split; [exact Hst1 | intros _; left; apply Hcl']].
    eapply tracked_trans; [exact Htr|].
    unfold tracked. split; [| split; [reflexivity | right; apply Hcl']].
    unfold unaccounted, sink. simpl_goal.
    rewrite sink_bytes_app, sink_bytes_data. lia.
  - wp_step. wp_step. wp_step.
    eapply wp_of_eq; [ apply for_each_WriteDataPage_total | cbv beta iota ].
    wp_step.
    assert (Hk : forall x y z,
               buffer_kept w
                 (set_data_pages_ x
                    (set_total_bytes_written_ y (set_pager_ z w)))).
    { intros. unfold buffer_kept. simpl_goal. auto. }
    split; [| split; [exact Hstats |]].
    + unfold tracked. split; [| split; [reflexivity | left; apply Hk]].
      unfold unaccounted, sink. simpl_goal.
      rewrite sink_bytes_app, sink_bytes_data. lia.
    + intros Hnn. right. split; [lia | apply Hk].
Qed.

Lemma CheckDictionarySizeLimit_tracked w :
  stats_ok w ->
  wp CheckDictionarySizeLimit w
    (fun _ w' => tracked w w' /\ stats_ok w') never.
Proof.
  intros Hstats. unfold CheckDictionarySizeLimit.
  wp_steps.
  destruct (DictEncoder_dict_encoded_size (current_encoder_ w) >=?
            dictionary_pagesize_limit (properties_ w)); cbn [when].
  2: { wp_step. split; [apply tracked_refl | exact Hstats]. }
  wp_call WriteDictionaryPage_tracked; [ | auto ].
  cbv beta. intros _ w1 (Htr1 & _ & Hst1 & _).
  wp_call FlushBufferedDataPages_tracked; [ auto | | auto ].
  cbv beta. intros _ w2 (Htr2 & Hst2 & _).
  wp_steps. split.
  - eapply tracked_trans; [exact Htr1|].
    eapply tracked_trans; [exact Htr2|].
    unfold tracked, unaccounted, buffer_kept, sink. simpl_goal. auto 10.
  - unfold stats_ok in *. simpl_goal. exact Hst2.
Qed.

Lemma cut_and_check_tracked A (a : A) w :
  stats_ok w ->
  wp (cut_and_check a) w
    (fun r w' => r = a /\ tracked w w' /\ stats_ok w') never.
Proof.
  intros Hstats. unfold cut_and_check.
  wp_step. wp_step. wp_step. wp_step. wp_step.
  apply wp_when; intros Hest.
  - eapply wp_conseq; [ apply AddDataPage_tracked, Hstats | | auto ].
    cbv beta. intros _ w1 (Htr1 & _ & Hst1).
    wp_steps. apply wp_when; intros Hactive.
    + eapply wp_conseq;
        [ apply CheckDictionarySizeLimit_tracked, Hst1 | | auto ].
      cbv beta. intros _ w2 (Htr2 & Hst2). wp_step.
      split; [reflexivity|]. split; [| exact Hst2].
      eapply tracked_trans; eauto.
    + wp_step. auto.
  - wp_steps. apply wp_when; intros Hactive.
    + eapply wp_conseq;
        [ apply CheckDictionarySizeLimit_tracked, Hstats | | auto ].
      cbv beta. intros _ w2 (Htr2 & Hst2). wp_step. auto.
    + wp_step. split; [reflexivity|]. split; [apply tracked_refl | exact Hstats].
Qed.

(** The tail of a mini-batch write, from the row budget check on. *)
Ltac buffer_check Hd Hr Hpst Hcst :=
  apply wp_when; intros Hover;
  [ wp_step; unfold levels_buffered, rows_in_batch; rewrite Hd, Hr;
    apply ColumnWriter_ext; simpl_goal; reflexivity
  | do 4 (wp_step; wp_step; simpl_goal; rewrite ?Hpst; simpl_goal);
    eapply wp_conseq;
      [ eapply cut_and_check_tracked | | intros ? ? [] ];
    [ unfold stats_ok; simpl_goal; rewrite ?Hpst, ?Hcst; exact I
    | cbv beta; intros ? w' (-> & Htr & Hst);
      split;
      [ unfold values_in_batch; rewrite ?Hd; reflexivity
      | eexists; split; [ | split; [ exact Htr | exact Hst ] ];
        unfold batch_in_buffer, level_bytes, unaccounted, sink;
        simpl_goal; rewrite ?Hd, ?Hr, ?app_nil_r;
        repeat split; reflexivity ] ] ].

Lemma WriteMiniBatch_buffers w n d r (v : list T) :
  stats_ok w ->
  wp (WriteMiniBatch n d r v) w
    (fun k w' =>
       k = values_in_batch w n d /\
       exists w2,
         batch_in_buffer w w2 n k d r /\ tracked w2 w' /\ stats_ok w')
    (fun _ w' => w' = levels_buffered n d r w).
Proof.
  intros Hstats.
  unfold WriteMiniBatch, WriteDefinitionLevels, WriteRepetitionLevels,
    WriteValues.
  unfold stats_ok in Hstats.
  destruct (page_statistics_ w) as [pst|] eqn:Hpst;
    destruct (chunk_statistics_ w) as [cst|] eqn:Hcst; try contradiction.
  all: destruct (max_definition_level (descr_ w) >? 0) eqn:Hd.
  all: destruct (max_repetition_level (descr_ w) >? 0) eqn:Hr.
  all: repeat (wp_step || (progress simpl_goal) || rewrite Hd || rewrite Hr).
  all: buffer_check Hd Hr Hpst Hcst.
Qed.

Ltac buffer_check_spaced Hd Hr Hopt Hpst Hcst :=
  apply wp_when; intros Hover;
  [ wp_step; unfold levels_buffered, rows_in_batch; rewrite Hd, Hr;
    apply ColumnWriter_ext; simpl_goal; reflexivity
  | do 4 (wp_step; wp_step; simpl_goal; rewrite ?Hpst; simpl_goal);
    eapply wp_conseq;
      [ eapply cut_and_check_tracked | | intros ? ? [] ];
    [ unfold stats_ok; simpl_goal; rewrite ?Hpst, ?Hcst; exact I
    | cbv beta; intros ? w' (-> & Htr & Hst); cbn [fst snd];
      split;
      [ unfold values_in_batch; rewrite ?Hd; reflexivity
      | split;
        [ unfold spaced_values_in_batch; rewrite ?Hd, ?Hopt; reflexivity
        | eexists; split; [ | split; [ exact Htr | exact Hst ] ];
          unfold batch_in_buffer, level_bytes, unaccounted, sink;
          simpl_goal; rewrite ?Hd, ?Hr, ?app_nil_r;
          repeat split; reflexivity ] ] ] ].

Lemma WriteMiniBatchSpaced_buffers w n d r bits off (v : list T) :
  stats_ok w ->
  wp (WriteMiniBatchSpaced n d r bits off v) w
    (fun k w' =>
       fst k = values_in_batch w n d /\
       snd k = spaced_values_in_batch w n d /\
       exists w2,
         batch_in_buffer w w2 n (fst k) d r /\ tracked w2 w' /\ stats_ok w')
    (fun _ w' => w' = levels_buffered n d r w).
Proof.
  intros Hstats.
  unfold WriteMiniBatchSpaced, WriteDefinitionLevels, WriteRepetitionLevels,
    WriteValues, WriteValuesSpaced.
  unfold stats_ok in Hstats.
  destruct (page_statistics_ w) as [pst|] eqn:Hpst;
    destruct (chunk_statistics_ w) as [cst|] eqn:Hcst; try contradiction.
  all: destruct (max_definition_level (descr_ w) >? 0) eqn:Hd.
  all: destruct (max_repetition_level (descr_ w) >? 0) eqn:Hr.
  all: destruct (is_optional (descr_ w)) eqn:Hopt.
  all: repeat (wp_step || (progress simpl_goal) || rewrite Hd || rewrite Hr
               || rewrite Hopt).
  all: buffer_check_spaced Hd Hr Hopt Hpst Hcst.
Qed.

Lemma Close_tracked w :
  stats_ok w ->
  wp Close w (fun _ w' => unaccounted w' = unaccounted w)
    (fun _ w' => unaccounted w' = unaccounted w).
Proof.
  intros Hstats. unfold Close.
  wp_step. wp_step. wp_step.
  assert (Hbody :
    wp (when (negb (closed_ w))
          (modify (set_closed_ true) ;;
           has_dictionary <- gets has_dictionary_ ;;
           fallback <- gets fallback_ ;;
           when (has_dictionary && negb fallback) WriteDictionaryPage ;;
           FlushBufferedDataPages ;;
           chunk_statistics <- GetChunkStatistics ;;
           when (EncodedStatistics_is_set chunk_statistics)
             (modify (set_metadata_ (Some chunk_statistics))) ;;
           has_dictionary <- gets has_dictionary_ ;;
           fallback <- gets fallback_ ;;
           on_pager (PageWriter_.Close has_dictionary fallback))) w
       (fun _ w' => unaccounted w' = unaccounted w) never).
  { apply wp_when; intros Hopen; [| reflexivity].
    wp_steps. simpl_goal.
    assert (Hst0 : stats_ok (set_closed_ true w)) by exact Hstats.
    assert (Hu0 : unaccounted (set_closed_ true w) = unaccounted w)
      by reflexivity.
    revert Hst0 Hu0. generalize (set_closed_ true w) as w0. intros w0 Hst0 Hu0.
    assert (Hdict :
      wp (when (has_dictionary_ w && negb (fallback_ w)) WriteDictionaryPage)
        w0 (fun _ w1 => unaccounted w1 = unaccounted w /\ stats_ok w1) never).
    { apply wp_when; intros _; [| auto].
      eapply wp_conseq; [ apply WriteDictionaryPage_tracked | | auto ].
      cbv beta. intros _ w1 (Htr & _ & Hst & _). split; [| auto].
      destruct Htr as (-> & _). exact Hu0. }
    eapply wp_conseq; [ exact Hdict | | auto ]. cbv beta.
    intros _ w1 (Hu1 & Hst1). wp_step.
    eapply wp_conseq; [ apply FlushBufferedDataPages_tracked, Hst1 | | auto ].
    cbv beta. intros _ w2 (Htr2 & Hst2 & _).
    destruct Htr2 as (Hu2 & _).
    unfold GetChunkStatistics. wp_steps.
    destruct (chunk_statistics_ w2); wp_steps.
    all: apply wp_when; intros _; wp_steps;
      unfold PageWriter_.Close, on_pager; wp_steps;
      unfold unaccounted, sink in *; simpl_goal; lia. }
  eapply wp_conseq; [ exact Hbody | | intros ? ? [] ]. cbv beta.
  intros _ w' Hu. wp_steps.
  destruct (negb (num_rows_ w' =? expected_rows_ w')); wp_steps; exact Hu.
Qed.

Section Kept.
Variable I : Writer -> Prop.
Hypothesis I_mini :
  forall w n d r (v : list T),
    I w -> stats_ok w -> wp (WriteMiniBatch n d r v) w (fun _ => I) (fun _ => I).
Hypothesis I_spaced :
  forall w n d r bits off (v : list T),
    I w -> stats_ok w ->
    wp (WriteMiniBatchSpaced n d r bits off v) w (fun _ => I) (fun _ => I).

Let K (w : Writer) : Prop := I w /\ stats_ok w.

Lemma mini_batch_stats_ok w n d r (v : list T) :
  stats_ok w ->
  wp (WriteMiniBatch n d r v) w (fun _ => stats_ok) (fun _ => stats_ok).
Proof.
  intros Hstats.
  eapply wp_conseq; [ apply WriteMiniBatch_spec, Hstats | | ]; cbv beta.
  - intros _ w' Hw. apply (mini_batch_written_facts _ _ _ _ _ Hw).
  - intros e w' (_ & -> & _). apply levels_buffered_frame, Hstats.
Qed.

Lemma mini_batch_spaced_stats_ok w n d r bits off (v : list T) :
  stats_ok w ->
  wp (WriteMiniBatchSpaced n d r bits off v) w
    (fun _ => stats_ok) (fun _ => stats_ok).
Proof.
  intros Hstats.
  eapply wp_conseq; [ apply WriteMiniBatchSpaced_spec, Hstats | | ];
    cbv beta.
  - intros _ w' Hw. apply (mini_batch_written_facts _ _ _ _ _ Hw).
  - intros e w' (_ & -> & _). apply levels_buffered_frame, Hstats.
Qed.

Lemma mini_batch_kept w n d r (v : list T) :
  K w -> wp (WriteMiniBatch n d r v) w (fun _ => K) (fun _ => K).
Proof.
  intros [HI Hstats].
  apply wp_and; [apply I_mini; assumption | apply mini_batch_stats_ok, Hstats].
Qed.

Lemma mini_batch_spaced_kept w n d r bits off (v : list T) :
  K w ->
  wp (WriteMiniBatchSpaced n d r bits off v) w (fun _ => K) (fun _ => K).
Proof.
  intros [HI Hstats].
  apply wp_and;
    [apply I_spaced; assumption | apply mini_batch_spaced_stats_ok, Hstats].
Qed.

Lemma rounds_kept rounds : forall round size d r (v : list T) offset w,
  K w ->
  wp (WriteBatch_rounds rounds round size d r v offset) w
    (fun _ => K) (fun _ => K).
Proof.
  induction rounds as [|rounds IH]; intros round size d r v offset w HK;
    cbn [WriteBatch_rounds].
  - wp_step. exact HK.
  - wp_step.
    eapply wp_conseq; [ apply mini_batch_kept, HK | | auto ]; cbv beta.
    intros a w' HK'. apply IH, HK'.
Qed.

Lemma rounds_spaced_kept rounds :
  forall round size d r bits off (v : list T) offset w,
  K w ->
  wp (WriteBatchSpaced_rounds rounds round size d r bits off v offset) w
    (fun _ => K) (fun _ => K).
Proof.
  induction rounds as [|rounds IH];
    intros round size d r bits off v offset w HK;
    cbn [WriteBatchSpaced_rounds].
  - wp_step. exact HK.
  - wp_step.
    eapply wp_conseq; [ apply mini_batch_spaced_kept, HK | | auto ];
      cbv beta.
    intros a w' HK'. apply IH, HK'.
Qed.

Lemma perform_kept (c : WriteCall (T := T)) w :
  K w -> wp (perform c) w (fun _ => K) (fun _ => K).
Proof.
  intros HK.
  destruct c as [n d r v | n d r bits off v | n d r v | n d r bits off v];
    cbn [perform].
  - unfold WriteBatch. wp_step. wp_step.
    destruct (write_batch_size (properties_ w) =? 0).
    + wp_step. exact HK.
    + wp_step.
      eapply wp_conseq; [ apply rounds_kept, HK | | auto ]; cbv beta.
      intros offset w1 HK1. wp_step.
      eapply wp_conseq; [ apply mini_batch_kept, HK1 | | auto ]; cbv beta.
      intros a w2 HK2. wp_step. exact HK2.
  - unfold WriteBatchSpaced. wp_step. wp_step.
    destruct (write_batch_size (properties_ w) =? 0).
    + wp_step. exact HK.
    + wp_step.
      eapply wp_conseq; [ apply rounds_spaced_kept, HK | | auto ];
        cbv beta.
      intros offset w1 HK1. wp_step.
      eapply wp_conseq; [ apply mini_batch_spaced_kept, HK1 | | auto ];
        cbv beta.
      intros a w2 HK2. wp_step. exact HK2.
  - wp_step.
    eapply wp_conseq; [ apply mini_batch_kept, HK | | auto ]; cbv beta.
    intros a w1 HK1. wp_step. exact HK1.
  - wp_step.
    eapply wp_conseq; [ apply mini_batch_spaced_kept, HK | | auto ];
      cbv beta.
    intros a w1 HK1. wp_step. exact HK1.
Qed.

Lemma after_calls_kept (cs : list (WriteCall (T := T))) : forall w,
  I w -> stats_ok w ->
  I (after_calls cs w) /\ stats_ok (after_calls cs w).
Proof.
  induction cs as [|c cs IH]; intros w HI Hstats; cbn.
  - auto.
  - destruct (wp_state_of _ (perform c) w K (perform_kept c w (conj HI Hstats)))
      as [HI' Hstats'].
    apply IH; assumption.
Qed.
End Kept.

Lemma unaccounted_levels_buffered n d r w :
  unaccounted (levels_buffered n d r w) = unaccounted w.
Proof.
  unfold levels_buffered, unaccounted, sink.
  destruct (max_definition_level (descr_ w) >? 0);
    destruct (max_repetition_level (descr_ w) >? 0); reflexivity.
Qed.

Lemma mini_batch_unaccounted c w n d r (v : list T) :
  unaccounted w = c -> stats_ok w ->
  wp (WriteMiniBatch n d r v) w
    (fun _ w' => unaccounted w' = c) (fun _ w' => unaccounted w' = c).
Proof.
  intros Hu Hstats.
  eapply wp_conseq; [ apply WriteMiniBatch_buffers, Hstats | | ]; cbv beta.
  - intros k w' (_ & w2 & Hbuf & (Htr & _) & _).
    destruct Hbuf as (_ & _ & _ & _ & Hu2 & _). congruence.
  - intros _ w' ->. rewrite unaccounted_levels_buffered. exact Hu.
Qed.

Lemma mini_batch_spaced_unaccounted c w n d r bits off (v : list T) :
  unaccounted w = c -> stats_ok w ->
  wp (WriteMiniBatchSpaced n d r bits off v) w
    (fun _ w' => unaccounted w' = c) (fun _ w' => unaccounted w' = c).
Proof.
  intros Hu Hstats.
  eapply wp_conseq; [ apply WriteMiniBatchSpaced_buffers, Hstats | | ];
    cbv beta.
  - intros k w' (_ & _ & w2 & Hbuf & (Htr & _) & _).
    destruct Hbuf as (_ & _ & _ & _ & Hu2 & _). congruence.
  - intros _ w' ->. rewrite unaccounted_levels_buffered. exact Hu.
Qed.

Lemma Close_returns_total w total w2 :
  stats_ok w -> Close w = Ret total w2 -> total = total_bytes_written_ w2.
Proof.
  intros Hstats Hrun.
  destruct (Close_outcome w Hstats) as (w' & _ & _ & _ & _ & Heq).
  rewrite Hrun in Heq.
  destruct (num_rows_ w =? expected_rows_ w); [| discriminate].
  injection Heq as -> ->. reflexivity.
Qed.

(** X4. Whatever is written and however the chunk is closed,
    [total_bytes_written_] grows by exactly the byte counts the page
    writer reports for the pages it is handed, neither more nor less; a
    [Close] that returns, returns that total. *)
Theorem total_bytes_written_accounts_for_pages w
  (cs : list (WriteCall (T := T))) :
  stats_ok w ->
  let w1 := after_calls cs w in
  total_bytes_written_ w1 - total_bytes_written_ w =
  sink_bytes (sink w1) - sink_bytes (sink w) /\
  total_bytes_written_ (state_of (Close w1)) - total_bytes_written_ w =
  sink_bytes (sink (state_of (Close w1))) - sink_bytes (sink w) /\
  forall total w2,
    Close w1 = Ret total w2 ->
    total - total_bytes_written_ w = sink_bytes (sink w2) - sink_bytes (sink w).
Proof.
  intros Hstats w1.
  destruct (after_calls_kept (fun w' => unaccounted w' = unaccounted w)
              (mini_batch_unaccounted (unaccounted w))
              (mini_batch_spaced_unaccounted (unaccounted w))
              cs w eq_refl Hstats) as [Hu1 Hst1].
  fold w1 in Hu1, Hst1.
  pose proof (wp_state_of _ Close w1
                (fun w' => unaccounted w' = unaccounted w1)
                (Close_tracked w1 Hst1)) as Hu2.
  cbv beta in Hu2. unfold unaccounted in Hu1, Hu2.
  split; [lia|]. split; [lia|].
  intros total w2 Hrun.
  rewrite (Close_returns_total w1 total w2 Hst1 Hrun).
  rewrite Hrun in Hu2. cbn [state_of] in Hu2. lia.
Qed.

Lemma count_levels_bounds p n levels :
  0 <= count_levels p n levels <= Z.max 0 n /\
  count_levels p n levels <= Z.of_nat (length levels).
Proof.
  unfold count_levels.
  pose proof (filter_length_le p (array_prefix n levels)) as Hle.
  pose proof (length_array_prefix n levels) as Hlen. lia.
Qed.

Lemma count_levels_mono (p q : Z -> bool) n levels :
  (forall l, p l = true -> q l = true) ->
  count_levels p n levels <= count_levels q n levels.
Proof.
  intros Hpq. unfold count_levels.
  induction (array_prefix n levels) as [|l ls IH]; cbn [filter]; [lia|].
  destruct (p l) eqn:Hp.
  - rewrite (Hpq l Hp). cbn [length]. lia.
  - destruct (q l); cbn [length]; lia.
Qed.


Lemma wrap_signed_16_le x : - 2 ^ 15 <= x -> wrap_signed 16 x <= x.
Proof.
  intros Hx. unfold wrap_signed.
  change (2 ^ 16) with 65536. change (65536 / 2) with 32768.
  change (2 ^ 15) with 32768 in Hx.
  pose proof (Z.mod_le (x + 32768) 65536). lia.
Qed.

(** X6. [WriteMiniBatchSpaced] returns the number of values at the maximum
    definition level and stores through [num_spaced_written] the number of
    slots it has written, which is never smaller: for an optional column
    the slots include the entries one level below the maximum. *)
Theorem WriteMiniBatchSpaced_returns_slots_written w n d r bits off
  (v : list T) k w' :
  stats_ok w ->
  WriteMiniBatchSpaced n d r bits off v w = Ret k w' ->
  fst k = values_in_batch w n d /\
  snd k = spaced_values_in_batch w n d /\
  fst k <= snd k /\
  (0 <= n -> 0 <= fst k /\ snd k <= n).
Proof.
  intros Hstats Hrun.
  destruct (wp_returned _ _ _ _ _ _ _
              (WriteMiniBatchSpaced_buffers w n d r bits off v Hstats) Hrun)
    as (Hk & Hs & _).
  split; [exact Hk|]. split; [exact Hs|].
  rewrite Hk, Hs. unfold values_in_batch, spaced_values_in_batch.
  destruct (max_definition_level (descr_ w) >? 0) eqn:Hd;
    [| repeat split; lia].
  apply Z.gtb_lt in Hd.
  pose proof (count_levels_bounds
                (fun l => l =? max_definition_level (descr_ w)) n d).
  set (q := fun l => l >=? _).
  pose proof (count_levels_bounds q n d).
  split; [| lia].
  apply count_levels_mono. intros l Hl. apply Z.eqb_eq in Hl. subst l q.
  cbv beta. apply Z.geb_le.
  destruct (is_optional (descr_ w)); [| lia].
  pose proof (wrap_signed_16_le (max_definition_level (descr_ w) - 1)).
  change (2 ^ 15) with 32768 in *. lia.
Qed.

Lemma int16_round_trip l :
  int16 l -> wrap_signed 16 (l mod 256 + 256 * ((l / 256) mod 256)) = l.
Proof.
  unfold int16, wrap_signed. change (2 ^ 15) with 32768.
  change (2 ^ 16) with 65536. change (65536 / 2) with 32768. intros Hl.
  replace (l mod 256 + 256 * ((l / 256) mod 256)) with (l mod 65536)
    by (change 65536 with (256 * 256); apply Z.rem_mul_r; lia).
  rewrite Zplus_mod_idemp_l.
  rewrite Z.mod_small; lia.
Qed.

(** X7. Levels survive the level sink: the [int16_t] levels stored byte by
    byte by [WriteDefinitionLevels] and [WriteRepetitionLevels] are the
    levels [RleEncodeLevels] reads back through its reinterpreted pointer,
    two bytes per level. *)
Theorem levels_of_bytes_of_levels levels :
  Forall int16 levels ->
  levels_of_bytes (bytes_of_levels levels) = levels /\
  length (bytes_of_levels levels) = (2 * length levels)%nat.
Proof.
  unfold bytes_of_levels.
  induction 1 as [|l levels Hl _ [IH IHlen]]; [split; reflexivity|].
  cbn [flat_map int16_bytes app levels_of_bytes length].
  rewrite IH, IHlen, (int16_round_trip l Hl). split; [reflexivity | lia].
Qed.

Lemma levels_of_bytes_app levels rest :
  Forall int16 levels ->
  levels_of_bytes (bytes_of_levels levels ++ rest) =
  levels ++ levels_of_bytes rest.
Proof.
  unfold bytes_of_levels.
  induction 1 as [|l levels Hl _ IH]; [reflexivity|].
  cbn [flat_map int16_bytes app levels_of_bytes].
  rewrite IH, (int16_round_trip l Hl). reflexivity.
Qed.

Lemma pending_level_bytes_app max_level (levels_of : MiniBatch T -> list Z)
  pending b :
  pending_level_bytes max_level levels_of (pending ++ [b]) =
  pending_level_bytes max_level levels_of pending ++
  level_bytes max_level (num_values b) (levels_of b).
Proof.
  unfold pending_level_bytes. rewrite flat_map_app. cbn [flat_map].
  rewrite app_nil_r. reflexivity.
Qed.

Lemma pages_cut_flushed w x :
  pages_cut
    (set_data_pages_ []
       (set_total_bytes_written_ x
          (set_pager_
             (set_written (sink w ++ map DataPage (data_pages_ w)) (pager_ w))
             w))) =
  pages_cut w.
Proof.
  unfold pages_cut, sink. simpl_goal.
  rewrite data_pages_of_app, data_pages_of_data, length_app.
  cbn [length]. lia.
Qed.

Lemma AddDataPage_cut w :
  stats_ok w ->
  wp AddDataPage w
    (fun _ w' => descr_ w' = descr_ w /\ pages_cut w' = pages_cut w + 1 /\
                 buffer_cleared w' /\ stats_ok w')
    never.
Proof.
  intros Hstats.
  eapply wp_conseq; [ apply AddDataPage_spec, Hstats | | auto ].
  cbv beta. intros _ w' (page & Hcut & _).
  destruct Hcut as (_ & _ & _ & Hwhere & Hn & Hne & Hd & Hr & _ & _ & _ &
                    Hsame & Hst).
  split; [apply Hsame|].
  split; [| split; [unfold buffer_cleared; auto | exact Hst]].
  unfold pages_cut. destruct (dict_active w).
  - destruct Hwhere as (-> & -> & _). rewrite length_app. cbn [length]. lia.
  - destruct Hwhere as (-> & -> & _).
    rewrite data_pages_of_app, length_app. cbn. lia.
Qed.

Lemma WriteDictionaryPage_kept w :
  wp WriteDictionaryPage w
    (fun _ w' => descr_ w' = descr_ w /\ pages_cut w' = pages_cut w /\
                 buffer_kept w w' /\ (stats_ok w -> stats_ok w'))
    never.
Proof.
  unfold WriteDictionaryPage, on_pager, PageWriter_.WriteDictionaryPage.
  wp_steps. simpl_goal.
  unfold pages_cut, buffer_kept, sink, stats_ok. simpl_goal.
  rewrite data_pages_of_app, length_app. cbn.
  repeat split; auto; lia.
Qed.

Lemma FlushBufferedDataPages_cut w :
  stats_ok w ->
  wp FlushBufferedDataPages w
    (fun _ w' =>
       descr_ w' = descr_ w /\ stats_ok w' /\
       if num_buffered_values_ w >? 0
       then pages_cut w' = pages_cut w + 1 /\ buffer_cleared w'
       else pages_cut w' = pages_cut w /\ buffer_kept w w')
    never.
Proof.
  intros Hstats. unfold FlushBufferedDataPages.
  wp_step. wp_step. wp_step.
  apply wp_when; intros Hpos; rewrite Hpos.
  - eapply wp_conseq; [ apply AddDataPage_cut, Hstats | | auto ].
    cbv beta. intros _ w1 (Hd1 & Hp1 & Hcl & Hst1).
    wp_step. wp_step. wp_step.
    eapply wp_of_eq; [ apply for_each_WriteDataPage_total | cbv beta iota ].
    wp_step. rewrite pages_cut_flushed.
    split; [exact Hd1|]. split; [exact Hst1|]. split; [exact Hp1|].
    unfold buffer_cleared in *. simpl_goal. exact Hcl.
  - wp_step. wp_step. wp_step.
    eapply wp_of_eq; [ apply for_each_WriteDataPage_total | cbv beta iota ].
    wp_step. rewrite pages_cut_flushed.
    split; [reflexivity|]. split; [exact Hstats|]. split; [reflexivity|].
    unfold buffer_kept. simpl_goal. auto.
Qed.

Lemma CheckDictionarySizeLimit_cut w :
  stats_ok w ->
  wp CheckDictionarySizeLimit w
    (fun _ w' =>
       cut_or_kept w w' /\ stats_ok w' /\
       ((num_buffered_values_ w >? 0) = false ->
        pages_cut w' = pages_cut w /\ buffer_kept w w'))
    never.
Proof.
  intros Hstats. unfold CheckDictionarySizeLimit.
  wp_steps.
  destruct (DictEncoder_dict_encoded_size (current_encoder_ w) >=?
            dictionary_pagesize_limit (properties_ w)); cbn [when].
  2: { wp_step.
       assert (Hk : buffer_kept w w) by (unfold buffer_kept; auto).
       unfold cut_or_kept. auto 10. }
  wp_call WriteDictionaryPage_kept; [ | auto ].
  cbv beta. intros _ w1 (Hd1 & Hp1 & Hk1 & Hst1).
  wp_call FlushBufferedDataPages_cut; [ auto | | auto ].
  cbv beta. intros _ w2 (Hd2 & Hst2 & Hcut).
  wp_steps.
  destruct Hk1 as (Hkd & Hkr & Hkn & Hke). rewrite Hkn in Hcut.
  assert (Hp : forall x y z,
             pages_cut (set_encoding_ x (set_current_encoder_ y
                                           (set_fallback_ z w2))) =
             pages_cut w2) by reflexivity.
  unfold cut_or_kept, buffer_kept, buffer_cleared, stats_ok in *.
  simpl_goal. rewrite !Hp.
  split; [split; [congruence|] | split; [exact Hst2|]].
  - destruct (num_buffered_values_ w >? 0).
    + right. split; [lia | tauto].
    + left. split; [lia|]. repeat split; intuition congruence.
  - intros Hz. rewrite Hz in Hcut.
    split; [lia|]. repeat split; intuition congruence.
Qed.

Lemma cut_and_check_cut A (a : A) w :
  stats_ok w ->
  wp (cut_and_check a) w
    (fun r w' => r = a /\ cut_or_kept w w' /\ stats_ok w') never.
Proof.
  intros Hstats. unfold cut_and_check.
  wp_step. wp_step. wp_step. wp_step. wp_step.
  apply wp_when; intros Hest.
  - eapply wp_conseq; [ apply AddDataPage_cut, Hstats | | auto ].
    cbv beta. intros _ w1 (Hd1 & Hp1 & Hcl1 & Hst1).
    wp_steps. apply wp_when; intros Hactive.
    + eapply wp_conseq;
        [ apply CheckDictionarySizeLimit_cut, Hst1 | | auto ].
      cbv beta. intros _ w2 ((Hd2 & _) & Hst2 & Hkept). wp_step.
      split; [reflexivity|]. split; [| exact Hst2].
      destruct Hcl1 as (Hc1 & Hc2 & Hc3 & Hc4).
      destruct Hkept as (Hp2 & Hk1 & Hk2 & Hk3 & Hk4);
        [rewrite Hc3; reflexivity|].
      split; [congruence|]. right. split; [lia|].
      unfold buffer_cleared. repeat split; congruence.
    + wp_step. split; [reflexivity|]. split; [| exact Hst1].
      split; [exact Hd1|]. right. auto.
  - wp_steps. apply wp_when; intros Hactive.
    + eapply wp_conseq;
        [ apply CheckDictionarySizeLimit_cut, Hstats | | auto ].
      cbv beta. intros _ w2 (Hck & Hst2 & _). wp_step. auto.
    + wp_step. split; [reflexivity|]. split; [| exact Hstats].
      split; [reflexivity|]. left. unfold buffer_kept. auto 10.
Qed.

(** The tail of a mini-batch write, from the row budget check on, with
    the pages it cuts. *)
Ltac buffer_cut Hd Hr Hpst Hcst :=
  apply wp_when; intros Hover;
  [ wp_step; exact I
  | do 4 (wp_step; wp_step; simpl_goal; rewrite ?Hpst; simpl_goal);
    eapply wp_conseq;
      [ eapply cut_and_check_cut | | intros ? ? [] ];
    [ unfold stats_ok; simpl_goal; rewrite ?Hpst, ?Hcst; exact I
    | cbv beta; intros ? w' (-> & Hck & Hst);
      eexists; split; [ | split; [ | split; [ exact Hck | exact Hst ] ] ];
      [ unfold batch_in_buffer, level_bytes, unaccounted, sink;
        simpl_goal; rewrite ?Hd, ?Hr, ?app_nil_r;
        repeat split; reflexivity
      | unfold pages_cut, sink; simpl_goal; reflexivity ] ] ].

Lemma WriteMiniBatch_cut w n d r (v : list T) :
  stats_ok w ->
  wp (WriteMiniBatch n d r v) w
    (fun k w' =>
       exists w2,
         batch_in_buffer w w2 n k d r /\ pages_cut w2 = pages_cut w /\
         cut_or_kept w2 w' /\ stats_ok w')
    (fun _ _ => True).
Proof.
  intros Hstats.
  unfold WriteMiniBatch, WriteDefinitionLevels, WriteRepetitionLevels,
    WriteValues.
  unfold stats_ok in Hstats.
  destruct (page_statistics_ w) as [pst|] eqn:Hpst;
    destruct (chunk_statistics_ w) as [cst|] eqn:Hcst; try contradiction.
  all: destruct (max_definition_level (descr_ w) >? 0) eqn:Hd.
  all: destruct (max_repetition_level (descr_ w) >? 0) eqn:Hr.
  all: repeat (wp_step || (progress simpl_goal) || rewrite Hd || rewrite Hr).
  all: buffer_cut Hd Hr Hpst Hcst.
Qed.

Lemma buffers_step pending w (b : MiniBatch T) k w' :
  stats_ok w -> buffers pending w ->
  WriteMiniBatch (num_values b) (def_levels b) (rep_levels b) (values b) w =
  Ret k w' ->
  stats_ok w' /\ descr_ w' = descr_ w /\
  pages_cut w <= pages_cut w' /\
  buffers (if pages_cut w <? pages_cut w' then [] else pending ++ [b]) w'.
Proof.
  intros Hstats (Hn & Hd & Hr) Hrun.
  destruct (wp_returned _ _ _ _ _ _ _
              (WriteMiniBatch_cut w _ _ _ _ Hstats) Hrun)
    as (w2 & Hbuf & Hp2 & Hck & Hst').
  destruct Hbuf as (Hd2 & Hr2 & Hn2 & _ & _ & Hdescr2).
  destruct Hck as (Hdescr' & Hkept).
  split; [exact Hst'|]. split; [congruence|].
  unfold buffers. rewrite Hdescr', Hdescr2.
  destruct Hkept as [(Hp' & Hd' & Hr' & Hn' & _) |
                     (Hp' & Hd' & Hr' & Hn' & _)].
  - split; [lia|].
    replace (pages_cut w <? pages_cut w') with false
      by (symmetry; apply Z.ltb_ge; lia).
    rewrite !pending_level_bytes_app, total_levels_app.
    rewrite Hd', Hr', Hn', Hd2, Hr2, Hn2, Hd, Hr, Hn.
    split; [| split; reflexivity].
    unfold total_levels, sum. cbn [map fold_right]. lia.
  - split; [lia|].
    replace (pages_cut w <? pages_cut w') with true
      by (symmetry; apply Z.ltb_lt; lia).
    rewrite Hd', Hr', Hn'. repeat split; reflexivity.
Qed.

Lemma buffers_run (bs : list (MiniBatch T)) : forall pending w w1,
  stats_ok w -> buffers pending w ->
  WriteMiniBatches bs w = Ret tt w1 ->
  descr_ w1 = descr_ w /\ pages_cut w <= pages_cut w1 /\
  (pages_cut w1 = pages_cut w ->
   since_last_cut bs pending w = pending ++ bs) /\
  buffers (since_last_cut bs pending w) w1.
Proof.
  induction bs as [|b bs IH]; intros pending w w1 Hstats Hbuf Hrun.
  - injection Hrun as <-. cbn [since_last_cut]. rewrite app_nil_r.
    split; [reflexivity|]. split; [lia|]. auto.
  - cbn [WriteMiniBatches] in Hrun. unfold bind in Hrun.
    cbn [since_last_cut].
    destruct (WriteMiniBatch (num_values b) (def_levels b) (rep_levels b)
                (values b) w) as [k w' | e w'] eqn:Hb; [| discriminate].
    cbn [state_of].
    destruct (buffers_step pending w b k w' Hstats Hbuf Hb)
      as (Hst' & Hdescr & Hle & Hbuf').
    destruct (IH _ _ _ Hst' Hbuf' Hrun) as (Hd1 & Hle1 & Hall & H1).
    split; [congruence|]. split; [lia|]. split; [| exact H1].
    intros Hsame. rewrite Hall by lia.
    replace (pages_cut w <? pages_cut w') with false
      by (symmetry; apply Z.ltb_ge; lia).
    rewrite <- app_assoc. reflexivity.
Qed.

Lemma since_last_cut_suffix (bs : list (MiniBatch T)) : forall pending w,
  exists earlier, pending ++ bs = earlier ++ since_last_cut bs pending w.
Proof.
  induction bs as [|b bs IH]; intros pending w; cbn [since_last_cut].
  - exists []. rewrite app_nil_r. reflexivity.
  - destruct (pages_cut w <? _).
    + destruct (IH [] (state_of
                         (WriteMiniBatch (num_values b) (def_levels b)
                            (rep_levels b) (values b) w)))
        as (earlier & Heq).
      exists (pending ++ b :: earlier). cbn [app] in Heq.
      rewrite <- app_assoc. cbn [app]. rewrite <- Heq. reflexivity.
    + destruct (IH (pending ++ [b])
                  (state_of
                     (WriteMiniBatch (num_values b) (def_levels b)
                        (rep_levels b) (values b) w)))
        as (earlier & Heq).
      exists earlier. rewrite <- Heq, <- app_assoc. reflexivity.
Qed.

Lemma constructor_buffers_nothing descr pager expected_rows encoding props
  (w0 : Writer) :
  TypedColumnWriter_new descr pager expected_rows encoding props tt =
  Ret w0 tt ->
  buffers (T := T) [] w0 /\ stats_ok w0 /\ descr_ w0 = descr.
Proof.
  unfold TypedColumnWriter_new, bind, ret, throw, buffers, stats_ok.
  destruct encoding; try discriminate;
    destruct (statistics_enabled props (path descr));
    intros [= <-]; simpl_goal; auto.
Qed.

(** X8. After mini-batches written to a new writer, the level sinks hold
    the level bytes of the batches written since the last page cut, in
    order and nothing else, and [num_buffered_values_] counts their
    entries.  These batches are the last ones of the run, all of them if
    no page has been cut. *)
Theorem level_sinks_hold_pending_batches descr pager expected_rows encoding
  props (w0 w1 : Writer) (bs : list (MiniBatch T)) :
  TypedColumnWriter_new descr pager expected_rows encoding props tt =
  Ret w0 tt ->
  WriteMiniBatches bs w0 = Ret tt w1 ->
  let pending := since_last_cut bs [] w0 in
  (exists earlier, bs = earlier ++ pending) /\
  (pages_cut w1 = pages_cut w0 -> pending = bs) /\
  num_buffered_values_ w1 = total_levels pending /\
  definition_levels_sink_ w1 =
    pending_level_bytes (max_definition_level descr) (@def_levels T)
      pending /\
  repetition_levels_sink_ w1 =
    pending_level_bytes (max_repetition_level descr) (@rep_levels T)
      pending.
Proof.
  intros Hnew Hrun pending.
  destruct (constructor_buffers_nothing _ _ _ _ _ _ Hnew)
    as (Hbuf & Hstats & Hdescr).
  destruct (buffers_run bs [] w0 w1 Hstats Hbuf Hrun)
    as (Hd1 & _ & Hall & Hn & Hd & Hr).
  fold pending in Hall, Hn, Hd, Hr.
  rewrite Hd1, Hdescr in Hd, Hr.
  split; [exact (since_last_cut_suffix bs [] w0)|]. auto.
Qed.

Lemma Forall_array_prefix {A} (P : A -> Prop) n (l : list A) :
  Forall P l -> Forall P (array_prefix n l).
Proof.
  intros H. unfold array_prefix.
  rewrite <- (firstn_skipn (Z.to_nat n) l) in H.
  apply Forall_app in H. apply H.
Qed.

Lemma pending_levels_read_back max_level (levels_of : MiniBatch T -> list Z)
  pending :
  max_level > 0 ->
  Forall (well_formed_levels levels_of) pending ->
  levels_of_bytes (pending_level_bytes max_level levels_of pending) =
  flat_map (fun b => array_prefix (num_values b) (levels_of b)) pending /\
  Z.of_nat (length (flat_map (fun b => array_prefix (num_values b) (levels_of b))
                      pending)) = total_levels pending.
Proof.
  intros Hmax. unfold pending_level_bytes, level_bytes.
  replace (max_level >? 0) with true by (symmetry; apply Z.gtb_lt; lia).
  induction 1 as [|b pending [Hn H16] _ [IH IHlen]]; [split; reflexivity|].
  cbn [flat_map]. rewrite levels_of_bytes_app, IH
    by (apply Forall_array_prefix, H16).
  split; [reflexivity|].
  rewrite length_app, Nat2Z.inj_add, IHlen, length_array_prefix.
  unfold total_levels, sum. cbn [map fold_right]. lia.
Qed.

(** X9. For batches whose level arrays hold [num_values] levels, the
    levels [AddDataPage] reads back from a level sink of a new writer are
    the levels of the batches written since the last page cut, and there
    are [num_buffered_values_] of them: encoding the buffered levels
    never reads past the end of the sink. *)
Theorem buffered_levels_read_back descr pager expected_rows encoding
  props (w0 w1 : Writer) (bs : list (MiniBatch T)) :
  TypedColumnWriter_new descr pager expected_rows encoding props tt =
  Ret w0 tt ->
  WriteMiniBatches bs w0 = Ret tt w1 ->
  let pending := since_last_cut bs [] w0 in
  (max_definition_level descr > 0 ->
   Forall (well_formed_levels (@def_levels T)) bs ->
   levels_of_bytes (definition_levels_sink_ w1) =
     flat_map batch_def_levels pending /\
   Z.of_nat (length (levels_of_bytes (definition_levels_sink_ w1))) =
     num_buffered_values_ w1) /\
  (max_repetition_level descr > 0 ->
   Forall (well_formed_levels (@rep_levels T)) bs ->
   levels_of_bytes (repetition_levels_sink_ w1) =
     flat_map (@batch_rep_levels T) pending /\
   Z.of_nat (length (levels_of_bytes (repetition_levels_sink_ w1))) =
     num_buffered_values_ w1).
Proof.
  intros Hnew Hrun pending.
  destruct (constructor_buffers_nothing _ _ _ _ _ _ Hnew)
    as (Hbuf & Hstats & Hdescr).
  destruct (buffers_run bs [] w0 w1 Hstats Hbuf Hrun)
    as (Hd1 & _ & _ & Hn & Hd & Hr).
  destruct (since_last_cut_suffix bs [] w0) as (earlier & Heq).
  fold pending in Hn, Hd, Hr, Heq. cbn [app] in Heq.
  rewrite Hd1, Hdescr in Hd, Hr.
  split; intros Hmax Hwf; rewrite Heq in Hwf; apply Forall_app in Hwf;
    destruct Hwf as [_ Hwf].
  - destruct (pending_levels_read_back _ _ _ Hmax Hwf) as [Hback Hlen].
    rewrite Hd, Hback, Hn. auto.
  - destruct (pending_levels_read_back _ _ _ Hmax Hwf) as [Hback Hlen].
    rewrite Hr, Hback, Hn. auto.
Qed.

(** X10. For a column that is not optional and a writer without page
    statistics, [WriteMiniBatchSpaced] is [WriteMiniBatch]: it ignores the
    validity bitmap, leaves the writer in the same state and returns the
    same number of values, with the number of slots beside it. *)
Theorem WriteMiniBatchSpaced_of_required_column w n d r bits off (v : list T) :
  is_optional (descr_ w) = false ->
  page_statistics_ w = None ->
  WriteMiniBatchSpaced n d r bits off v w =
  match WriteMiniBatch n d r v w with
  | Ret k w' => Ret (k, spaced_values_in_batch w n d) w'
  | Raise e w' => Raise e w'
  end.
Proof.
  intros Hopt Hpst.
  unfold WriteMiniBatchSpaced, WriteMiniBatch, WriteValues, WriteValuesSpaced,
    WriteDefinitionLevels, WriteRepetitionLevels, spaced_values_in_batch.
  cbv [bind gets modify ret when throw].
  rewrite Hopt.
  destruct (max_definition_level (descr_ w) >? 0) eqn:Hd;
    destruct (max_repetition_level (descr_ w) >? 0) eqn:Hr.
  all: simpl_goal; rewrite ?Hpst; cbn [fst snd].
  all: match goal with
       | |- context [if ?c >? ?e then _ else _] => destruct (c >? e)
       end; [reflexivity|].
  all: simpl_goal; rewrite ?Hpst; simpl_goal.
  all: repeat match goal with
       | |- context [match ?x with Ret _ _ => _ | Raise _ _ => _ end] =>
           destruct x
       end; reflexivity.
Qed.

Lemma array_from_0 {A} (l : list A) : array_from 0 l = l.
Proof. reflexivity. Qed.

Lemma array_from_add {A} a b (l : list A) :
  0 <= a -> 0 <= b -> array_from b (array_from a l) = array_from (a + b) l.
Proof.
  intros Ha Hb. unfold array_from. rewrite skipn_skipn. f_equal. lia.
Qed.

Lemma array_prefix_add {A} a b (l : list A) :
  0 <= a -> 0 <= b ->
  array_prefix (a + b) l = array_prefix a l ++ array_prefix b (array_from a l).
Proof.
  intros Ha Hb. unfold array_prefix, array_from.
  rewrite Z2Nat.inj_add by lia.
  rewrite <- (firstn_skipn (Z.to_nat a) (firstn (Z.to_nat a + Z.to_nat b) l))
    at 1.
  rewrite firstn_firstn, Nat.min_l by lia.
  rewrite firstn_skipn_comm. reflexivity.
Qed.

Lemma count_levels_split p a b levels :
  0 <= a -> 0 <= b ->
  count_levels p (a + b) levels =
  count_levels p a levels + count_levels p b (array_from a levels).
Proof.
  intros Ha Hb. unfold count_levels.
  rewrite array_prefix_add, filter_app, length_app by assumption. lia.
Qed.

Lemma rows_in_batch_descr w w' n r :
  descr_ w' = descr_ w -> rows_in_batch w' n r = rows_in_batch w n r.
Proof. unfold rows_in_batch. intros ->. reflexivity. Qed.

Lemma rows_in_batch_split w a b r :
  0 <= a -> 0 <= b -> a + b < 2 ^ 31 ->
  rows_in_batch w (a + b) r =
  rows_in_batch w a r + rows_in_batch w b (array_from a r).
Proof.
  intros Ha Hb Hsum. unfold rows_in_batch.
  destruct (max_repetition_level (descr_ w) >? 0).
  - apply count_levels_split; assumption.
  - rewrite !cast_int_id by lia. reflexivity.
Qed.

Lemma rows_in_batch_0 w r : rows_in_batch w 0 r = 0.
Proof.
  unfold rows_in_batch. destruct (max_repetition_level (descr_ w) >? 0);
    reflexivity.
Qed.

Lemma mini_batch_rows w n d r (v : list T) k w' :
  stats_ok w -> WriteMiniBatch n d r v w = Ret k w' ->
  rows_counted w (rows_in_batch w n r) w'.
Proof.
  intros Hstats Hrun.
  pose proof (wp_returned _ _ _ _ _ _ _ (WriteMiniBatch_spec w n d r v Hstats)
                Hrun) as Hw.
  apply mini_batch_written_facts in Hw. unfold rows_counted. tauto.
Qed.

Lemma mini_batch_spaced_rows w n d r bits off (v : list T) k w' :
  stats_ok w -> WriteMiniBatchSpaced n d r bits off v w = Ret k w' ->
  rows_counted w (rows_in_batch w n r) w'.
Proof.
  intros Hstats Hrun.
  pose proof (wp_returned _ _ _ _ _ _ _
                (WriteMiniBatchSpaced_spec w n d r bits off v Hstats) Hrun)
    as Hw.
  apply mini_batch_written_facts in Hw. unfold rows_counted. tauto.
Qed.

Lemma rounds_rows size d r (v : list T) rounds :
  forall round offset w offset' w',
    stats_ok w -> 0 < size -> 0 <= round ->
    (round + Z.of_nat rounds) * size < 2 ^ 31 ->
    WriteBatch_rounds rounds round size d r v offset w = Ret offset' w' ->
    rows_counted w
      (rows_in_batch w (Z.of_nat rounds * size) (array_from (round * size) r))
      w'.
Proof.
  induction rounds as [|rounds IH];
    intros round offset w offset' w' Hstats Hsize Hround Hmax Hrun;
    cbn [WriteBatch_rounds] in Hrun.
  - injection Hrun as _ <-. unfold rows_counted.
    change (Z.of_nat 0 * size) with 0. rewrite rows_in_batch_0.
    repeat split; auto; lia.
  - unfold bind in Hrun.
    destruct (WriteMiniBatch size (array_from (round * size) d)
                (array_from (round * size) r) (array_from offset v) w)
      as [k w1 | e w1] eqn:Hmini; [| discriminate].
    destruct (mini_batch_rows _ _ _ _ _ _ _ Hstats Hmini)
      as (Hst1 & Hd1 & Hp1 & Hn1).
    destruct (IH (round + 1) (offset + k) w1 offset' w' Hst1 Hsize
                ltac:(lia) ltac:(lia) Hrun) as (Hst' & Hd' & Hp' & Hn').
    unfold rows_counted.
    split; [exact Hst'|]. split; [congruence|]. split; [congruence|].
    rewrite Hn', Hn1, (rows_in_batch_descr w w1 _ _ Hd1).
    replace (Z.of_nat (Datatypes.S rounds) * size)
      with (size + Z.of_nat rounds * size) by lia.
    rewrite rows_in_batch_split by nia.
    rewrite array_from_add by nia.
    replace ((round + 1) * size) with (round * size + size) by lia. lia.
Qed.

Lemma rounds_spaced_rows size d r bits off (v : list T) rounds :
  forall round offset w offset' w',
    stats_ok w -> 0 < size -> 0 <= round ->
    (round + Z.of_nat rounds) * size < 2 ^ 31 ->
    WriteBatchSpaced_rounds rounds round size d r bits off v offset w =
    Ret offset' w' ->
    rows_counted w
      (rows_in_batch w (Z.of_nat rounds * size) (array_from (round * size) r))
      w'.
Proof.
  induction rounds as [|rounds IH];
    intros round offset w offset' w' Hstats Hsize Hround Hmax Hrun;
    cbn [WriteBatchSpaced_rounds] in Hrun.
  - injection Hrun as _ <-. unfold rows_counted.
    change (Z.of_nat 0 * size) with 0. rewrite rows_in_batch_0.
    repeat split; auto; lia.
  - unfold bind in Hrun.
    destruct (WriteMiniBatchSpaced size (array_from (round * size) d)
                (array_from (round * size) r) bits (off + offset)
                (array_from offset v) w)
      as [k w1 | e w1] eqn:Hmini; [| discriminate].
    destruct (mini_batch_spaced_rows _ _ _ _ _ _ _ _ _ Hstats Hmini)
      as (Hst1 & Hd1 & Hp1 & Hn1).
    destruct (IH (round + 1) (offset + snd k) w1 offset' w' Hst1 Hsize
                ltac:(lia) ltac:(lia) Hrun) as (Hst' & Hd' & Hp' & Hn').
    unfold rows_counted.
    split; [exact Hst'|]. split; [congruence|]. split; [congruence|].
    rewrite Hn', Hn1, (rows_in_batch_descr w w1 _ _ Hd1).
    replace (Z.of_nat (Datatypes.S rounds) * size)
      with (size + Z.of_nat rounds * size) by lia.
    rewrite rows_in_batch_split by nia.
    rewrite array_from_add by nia.
    replace ((round + 1) * size) with (round * size + size) by lia. lia.
Qed.

Lemma batch_split n size :
  0 <= n < 2 ^ 31 -> 0 < size ->
  let batches := cast_int (Z.quot n size) in
  0 <= batches /\ 0 <= Z.rem n size < size /\
  n = batches * size + Z.rem n size.
Proof.
  intros Hn Hsize.
  pose proof (Z.quot_rem' n size) as Heq.
  pose proof (Z.rem_bound_pos n size ltac:(lia) Hsize) as Hrem.
  pose proof (Z.quot_pos n size ltac:(lia) Hsize) as Hq.
  assert (Z.quot n size <= n) by nia.
  cbv zeta. rewrite cast_int_id by lia. lia.
Qed.

(** X11. Chunking does not change the row count: a [WriteBatch] that
    returns has counted the rows one [WriteMiniBatch] of the whole batch
    counts, the entries for a column that is not repeated and the zero
    repetition levels among them for one that is. *)
Theorem WriteBatch_counts_rows w n d r (v : list T) w' :
  stats_ok w ->
  0 < write_batch_size (properties_ w) -> 0 <= n < 2 ^ 31 ->
  WriteBatch n d r v w = Ret tt w' ->
  num_rows_ w' = num_rows_ w + rows_in_batch w n r /\
  num_rows_ w' <= expected_rows_ w'.
Proof.
  intros Hstats Hsize Hn Hrun.
  unfold WriteBatch in Hrun. unfold bind at 1, gets at 1 in Hrun.
  replace (write_batch_size (properties_ w) =? 0) with false in Hrun
    by (symmetry; apply Z.eqb_neq; lia).
  set (size := write_batch_size (properties_ w)) in *.
  destruct (batch_split n size Hn Hsize) as (Hb & Hrem & Hsplit).
  set (batches := cast_int (Z.quot n size)) in *.
  unfold bind in Hrun.
  destruct (WriteBatch_rounds (Z.to_nat batches) 0 size d r v 0 w)
    as [offset w1 | e w1] eqn:Hrounds; [| discriminate].
  destruct (WriteMiniBatch (Z.rem n size) (array_from (batches * size) d)
              (array_from (batches * size) r) (array_from offset v) w1)
    as [k w2 | e w2] eqn:Hlast; [| discriminate].
  injection Hrun as <-.
  destruct (rounds_rows size d r v (Z.to_nat batches) 0 0 w offset w1 Hstats
              Hsize ltac:(lia) ltac:(rewrite Z2Nat.id by lia; nia) Hrounds)
    as (Hst1 & Hd1 & Hp1 & Hn1).
  rewrite Z2Nat.id in Hn1 by lia. change (0 * size) with 0 in Hn1.
  rewrite array_from_0 in Hn1.
  pose proof (wp_returned _ _ _ _ _ _ _ (WriteMiniBatch_spec w1 _ _ _ _ Hst1)
                Hlast) as Hw.
  destruct Hw as (w2' & cuts & Hbuf & Hle & Hem).
  destruct (mini_batch_rows _ _ _ _ _ _ _ Hst1 Hlast) as (_ & _ & _ & Hn2).
  split.
  - rewrite Hn2, Hn1, (rows_in_batch_descr w w1 _ _ Hd1).
    replace (rows_in_batch w n r)
      with (rows_in_batch w (batches * size + Z.rem n size) r)
      by (rewrite <- Hsplit; reflexivity).
    rewrite rows_in_batch_split by nia. lia.
  - destruct Hbuf as (_ & _ & _ & _ & _ & Hrows2 & _ & _ & Hexp2 & _).
    destruct Hem as (_ & _ & Hsame & _).
    destruct Hsame as (_ & _ & Hexp' & _ & _ & Hrows' & _).
    rewrite Hn2. rewrite Hrows2 in Hle. congruence.
Qed.

(** X12. The same for [WriteBatchSpaced]: a call that returns has counted
    the rows of the whole batch, and the row budget is not exceeded. *)
Theorem WriteBatchSpaced_counts_rows w n d r bits off (v : list T) w' :
  stats_ok w ->
  0 < write_batch_size (properties_ w) -> 0 <= n < 2 ^ 31 ->
  WriteBatchSpaced n d r bits off v w = Ret tt w' ->
  num_rows_ w' = num_rows_ w + rows_in_batch w n r /\
  num_rows_ w' <= expected_rows_ w'.
Proof.
  intros Hstats Hsize Hn Hrun.
  unfold WriteBatchSpaced in Hrun. unfold bind at 1, gets at 1 in Hrun.
  replace (write_batch_size (properties_ w) =? 0) with false in Hrun
    by (symmetry; apply Z.eqb_neq; lia).
  set (size := write_batch_size (properties_ w)) in *.
  destruct (batch_split n size Hn Hsize) as (Hb & Hrem & Hsplit).
  set (batches := cast_int (Z.quot n size)) in *.
  unfold bind in Hrun.
  destruct (WriteBatchSpaced_rounds (Z.to_nat batches) 0 size d r bits off v
              0 w)
    as [offset w1 | e w1] eqn:Hrounds; [| discriminate].
  destruct (WriteMiniBatchSpaced (Z.rem n size)
              (array_from (batches * size) d)
              (array_from (batches * size) r) bits (off + offset)
              (array_from offset v) w1)
    as [k w2 | e w2] eqn:Hlast; [| discriminate].
  injection Hrun as <-.
  destruct (rounds_spaced_rows size d r bits off v (Z.to_nat batches) 0 0 w
              offset w1 Hstats Hsize ltac:(lia)
              ltac:(rewrite Z2Nat.id by lia; nia) Hrounds)
    as (Hst1 & Hd1 & Hp1 & Hn1).
  rewrite Z2Nat.id in Hn1 by lia. change (0 * size) with 0 in Hn1.
  rewrite array_from_0 in Hn1.
  pose proof (wp_returned _ _ _ _ _ _ _
                (WriteMiniBatchSpaced_spec w1 _ _ _ _ _ _ Hst1) Hlast) as Hw.
  destruct Hw as (w2' & cuts & Hbuf & Hle & Hem).
  destruct (mini_batch_spaced_rows _ _ _ _ _ _ _ _ _ Hst1 Hlast)
    as (_ & _ & _ & Hn2).
  split.
  - rewrite Hn2, Hn1, (rows_in_batch_descr w w1 _ _ Hd1).
    replace (rows_in_batch w n r)
      with (rows_in_batch w (batches * size + Z.rem n size) r)
      by (rewrite <- Hsplit; reflexivity).
    rewrite rows_in_batch_split by nia. lia.
  - destruct Hbuf as (_ & _ & _ & _ & _ & Hrows2 & _ & _ & Hexp2 & _).
    destruct Hem as (_ & _ & Hsame & _).
    destruct Hsame as (_ & _ & Hexp' & _ & _ & Hrows' & _).
    rewrite Hn2. rewrite Hrows2 in Hle. congruence.
Qed.

(** X13. A batch smaller than [write_batch_size] is not chunked:
    [WriteBatch] writes it as the one mini-batch of its remainder. *)
Theorem WriteBatch_below_batch_size w n d r (v : list T) :
  0 <= n < write_batch_size (properties_ w) ->
  WriteBatch n d r v w =
  match WriteMiniBatch n d r v w with
  | Ret _ w' => Ret tt w'
  | Raise e w' => Raise e w'
  end.
Proof.
  intros Hn. unfold WriteBatch. unfold bind at 1, gets at 1.
  replace (write_batch_size (properties_ w) =? 0) with false
    by (symmetry; apply Z.eqb_neq; lia).
  rewrite Z.quot_small, Z.rem_small by lia.
  change (cast_int 0) with 0. cbn [Z.to_nat WriteBatch_rounds].
  unfold bind at 1, ret at 1. change (0 * _) with 0.
  rewrite !array_from_0. unfold bind, ret.
  destruct (WriteMiniBatch n d r v w); reflexivity.
Qed.

Lemma expected_rows_levels_buffered n d r w :
  expected_rows_ (levels_buffered n d r w) = expected_rows_ w.
Proof.
  unfold levels_buffered.
  destruct (max_definition_level (descr_ w) >? 0);
    destruct (max_repetition_level (descr_ w) >? 0); reflexivity.
Qed.

Lemma mini_batch_fails_on_budget w n d r (v : list T) :
  stats_ok w ->
  wp (WriteMiniBatch n d r v) w (fun _ => stats_ok)
    (fun e w' => e = row_budget_error /\ num_rows_ w' > expected_rows_ w').
Proof.
  intros Hstats.
  eapply wp_conseq; [ apply WriteMiniBatch_spec, Hstats | | ]; cbv beta.
  - intros _ w' Hw. apply (mini_batch_written_facts _ _ _ _ _ Hw).
  - intros e w' (-> & -> & Hover).
    rewrite expected_rows_levels_buffered. auto.
Qed.

Lemma mini_batch_spaced_fails_on_budget w n d r bits off (v : list T) :
  stats_ok w ->
  wp (WriteMiniBatchSpaced n d r bits off v) w (fun _ => stats_ok)
    (fun e w' => e = row_budget_error /\ num_rows_ w' > expected_rows_ w').
Proof.
  intros Hstats.
  eapply wp_conseq; [ apply WriteMiniBatchSpaced_spec, Hstats | | ];
    cbv beta.
  - intros _ w' Hw. apply (mini_batch_written_facts _ _ _ _ _ Hw).
  - intros e w' (-> & -> & Hover).
    rewrite expected_rows_levels_buffered. auto.
Qed.

Lemma rounds_fail_on_budget rounds :
  forall round size d r (v : list T) offset w,
  stats_ok w ->
  wp (WriteBatch_rounds rounds round size d r v offset) w (fun _ => stats_ok)
    (fun e w' => e = row_budget_error /\ num_rows_ w' > expected_rows_ w').
Proof.
  induction rounds as [|rounds IH]; intros round size d r v offset w Hstats;
    cbn [WriteBatch_rounds].
  - wp_step. exact Hstats.
  - wp_step.
    eapply wp_conseq; [ apply mini_batch_fails_on_budget, Hstats | | auto ];
      cbv beta.
    intros a w' Hst'. apply IH, Hst'.
Qed.

Lemma rounds_spaced_fail_on_budget rounds :
  forall round size d r bits off (v : list T) offset w,
  stats_ok w ->
  wp (WriteBatchSpaced_rounds rounds round size d r bits off v offset) w
    (fun _ => stats_ok)
    (fun e w' => e = row_budget_error /\ num_rows_ w' > expected_rows_ w').
Proof.
  induction rounds as [|rounds IH];
    intros round size d r bits off v offset w Hstats;
    cbn [WriteBatchSpaced_rounds].
  - wp_step. exact Hstats.
  - wp_step.
    eapply wp_conseq;
      [ apply mini_batch_spaced_fails_on_budget, Hstats | | auto ];
      cbv beta.
    intros a w' Hst'. apply IH, Hst'.
Qed.

Lemma WriteBatch_returned w n d r (v : list T) w' :
  stats_ok w ->
  0 < write_batch_size (properties_ w) -> 0 <= n < 2 ^ 31 ->
  WriteBatch n d r v w = Ret tt w' ->
  num_rows_ w' = num_rows_ w + rows_in_batch w n r /\
  num_rows_ w' <= expected_rows_ w'.
Proof.
  intros Hstats Hsize Hn Hrun.
  unfold WriteBatch in Hrun. unfold bind at 1, gets at 1 in Hrun.
  replace (write_batch_size (properties_ w) =? 0) with false in Hrun
    by (symmetry; apply Z.eqb_neq; lia).
  set (size := write_batch_size (properties_ w)) in *.
  destruct (batch_split n size Hn Hsize) as (Hb & Hrem & Hsplit).
  set (batches := cast_int (Z.quot n size)) in *.
  unfold bind in Hrun.
  destruct (WriteBatch_rounds (Z.to_nat batches) 0 size d r v 0 w)
    as [offset w1 | e w1] eqn:Hrounds; [| discriminate].
  destruct (WriteMiniBatch (Z.rem n size) (array_from (batches * size) d)
              (array_from (batches * size) r) (array_from offset v) w1)
    as [k w2 | e w2] eqn:Hlast; [| discriminate].
  injection Hrun as <-.
  destruct (rounds_rows size d r v (Z.to_nat batches) 0 0 w offset w1 Hstats
              Hsize ltac:(lia) ltac:(rewrite Z2Nat.id by lia; nia) Hrounds)
    as (Hst1 & Hd1 & Hp1 & Hn1).
  rewrite Z2Nat.id in Hn1 by lia. change (0 * size) with 0 in Hn1.
  rewrite array_from_0 in Hn1.
  pose proof (wp_returned _ _ _ _ _ _ _ (WriteMiniBatch_spec w1 _ _ _ _ Hst1)
                Hlast) as Hw.
  destruct Hw as (w2' & cuts & Hbuf & Hle & Hem).
  destruct (mini_batch_rows _ _ _ _ _ _ _ Hst1 Hlast) as (_ & _ & _ & Hn2).
  split.
  - rewrite Hn2, Hn1, (rows_in_batch_descr w w1 _ _ Hd1).
    replace (rows_in_batch w n r)
      with (rows_in_batch w (batches * size + Z.rem n size) r)
      by (rewrite <- Hsplit; reflexivity).
    rewrite rows_in_batch_split by nia. lia.
  - destruct Hbuf as (_ & _ & _ & _ & _ & Hrows2 & _ & _ & Hexp2 & _).
    destruct Hem as (_ & _ & Hsame & _).
    destruct Hsame as (_ & _ & Hexp' & _ & _ & Hrows' & _).
    rewrite Hn2. rewrite Hrows2 in Hle. congruence.
Qed.

Lemma WriteBatchSpaced_returned w n d r bits off (v : list T) w' :
  stats_ok w ->
  0 < write_batch_size (properties_ w) -> 0 <= n < 2 ^ 31 ->
  WriteBatchSpaced n d r bits off v w = Ret tt w' ->
  num_rows_ w' = num_rows_ w + rows_in_batch w n r /\
  num_rows_ w' <= expected_rows_ w'.
Proof.
  intros Hstats Hsize Hn Hrun.
  unfold WriteBatchSpaced in Hrun. unfold bind at 1, gets at 1 in Hrun.
  replace (write_batch_size (properties_ w) =? 0) with false in Hrun
    by (symmetry; apply Z.eqb_neq; lia).
  set (size := write_batch_size (properties_ w)) in *.
  destruct (batch_split n size Hn Hsize) as (Hb & Hrem & Hsplit).
  set (batches := cast_int (Z.quot n size)) in *.
  unfold bind in Hrun.
  destruct (WriteBatchSpaced_rounds (Z.to_nat batches) 0 size d r bits off v
              0 w)
    as [offset w1 | e w1] eqn:Hrounds; [| discriminate].
  destruct (WriteMiniBatchSpaced (Z.rem n size)
              (array_from (batches * size) d)
              (array_from (batches * size) r) bits (off + offset)
              (array_from offset v) w1)
    as [k w2 | e w2] eqn:Hlast; [| discriminate].
  injection Hrun as <-.
  destruct (rounds_spaced_rows size d r bits off v (Z.to_nat batches) 0 0 w
              offset w1 Hstats Hsize ltac:(lia)
              ltac:(rewrite Z2Nat.id by lia; nia) Hrounds)
    as (Hst1 & Hd1 & Hp1 & Hn1).
  rewrite Z2Nat.id in Hn1 by lia. change (0 * size) with 0 in Hn1.
  rewrite array_from_0 in Hn1.
  pose proof (wp_returned _ _ _ _ _ _ _
                (WriteMiniBatchSpaced_spec w1 _ _ _ _ _ _ Hst1) Hlast) as Hw.
  destruct Hw as (w2' & cuts & Hbuf & Hle & Hem).
  destruct (mini_batch_spaced_rows _ _ _ _ _ _ _ _ _ Hst1 Hlast)
    as (_ & _ & _ & Hn2).
  split.
  - rewrite Hn2, Hn1, (rows_in_batch_descr w w1 _ _ Hd1).
    replace (rows_in_batch w n r)
      with (rows_in_batch w (batches * size + Z.rem n size) r)
      by (rewrite <- Hsplit; reflexivity).
    rewrite rows_in_batch_split by nia. lia.
  - destruct Hbuf as (_ & _ & _ & _ & _ & Hrows2 & _ & _ & Hexp2 & _).
    destruct Hem as (_ & _ & Hsame & _).
    destruct Hsame as (_ & _ & Hexp' & _ & _ & Hrows' & _).
    rewrite Hn2. rewrite Hrows2 in Hle. congruence.
Qed.

Lemma perform_keeps_expected_rows (c : WriteCall (T := T)) w :
  stats_ok w -> expected_rows_ (state_of (perform c w)) = expected_rows_ w.
Proof.
  intros Hstats.
  apply (after_calls_keeps (fun w1 => expected_rows_ w1 = expected_rows_ w))
    with (cs := [c]); auto.
  - intros w1 n1 d1 r1 w2 _ H1 Hw. apply mini_batch_written_facts in Hw.
    destruct Hw as (_ & _ & -> & _). exact H1.
  - intros w1 n1 d1 r1 H1. rewrite expected_rows_levels_buffered. exact H1.
Qed.

(** X14. A batch whose rows exceed the row budget is not accepted,
    however [WriteBatch] and [WriteBatchSpaced] chunk it: the call does
    not return, and where it fails with the row budget error it leaves
    [num_rows_] above [expected_rows_]. *)
Theorem WriteBatch_refuses_rows_over_budget w n d r bits off (v : list T) :
  stats_ok w ->
  0 < write_batch_size (properties_ w) -> 0 <= n < 2 ^ 31 ->
  num_rows_ w + rows_in_batch w n r > expected_rows_ w ->
  (forall w', WriteBatch n d r v w <> Ret tt w') /\
  (forall w', WriteBatchSpaced n d r bits off v w <> Ret tt w') /\
  (forall e w',
     WriteBatch n d r v w = Raise e w' \/
     WriteBatchSpaced n d r bits off v w = Raise e w' ->
     e = row_budget_error -> num_rows_ w' > expected_rows_ w').
Proof.
  intros Hstats Hsize Hn Hover.
  split; [| split].
  - intros w' Hrun.
    destruct (WriteBatch_returned w n d r v w' Hstats Hsize Hn Hrun)
      as [Hrows Hle].
    pose proof (perform_keeps_expected_rows (CallWriteBatch n d r v) w Hstats)
      as Hexp.
    cbn [perform] in Hexp. rewrite Hrun in Hexp. cbn [state_of] in Hexp.
    lia.
  - intros w' Hrun.
    destruct (WriteBatchSpaced_returned w n d r bits off v w' Hstats Hsize Hn
                Hrun) as [Hrows Hle].
    pose proof (perform_keeps_expected_rows
                  (CallWriteBatchSpaced n d r bits off v) w Hstats) as Hexp.
    cbn [perform] in Hexp. rewrite Hrun in Hexp. cbn [state_of] in Hexp.
    lia.
  - intros e w' Hrun _.
    assert (Hne : (write_batch_size (properties_ w) =? 0) = false)
      by (apply Z.eqb_neq; lia).
    destruct Hrun as [Hrun | Hrun].
    + apply (fun H =>
               wp_raised _ (WriteBatch n d r v) w (fun _ => stats_ok)
                 (fun e w' =>
                    e = row_budget_error /\
                    num_rows_ w' > expected_rows_ w')
                 e w' H Hrun).
      unfold WriteBatch. wp_step. wp_step. rewrite Hne. wp_step.
      eapply wp_conseq; [ apply rounds_fail_on_budget, Hstats | | auto ];
        cbv beta.
      intros offset w1 Hst1. wp_step.
      eapply wp_conseq; [ apply mini_batch_fails_on_budget, Hst1 | | auto ];
        cbv beta.
      intros a w2 Hst2. wp_step. exact Hst2.
    + apply (fun H =>
               wp_raised _ (WriteBatchSpaced n d r bits off v) w
                 (fun _ => stats_ok)
                 (fun e w' =>
                    e = row_budget_error /\
                    num_rows_ w' > expected_rows_ w')
                 e w' H Hrun).
      unfold WriteBatchSpaced. wp_step. wp_step. rewrite Hne. wp_step.
      eapply wp_conseq;
        [ apply rounds_spaced_fail_on_budget, Hstats | | auto ];
        cbv beta.
      intros offset w1 Hst1. wp_step.
      eapply wp_conseq;
        [ apply mini_batch_spaced_fails_on_budget, Hst1 | | auto ];
        cbv beta.
      intros a w2 Hst2. wp_step. exact Hst2.
Qed.

Lemma levels_buffered_configuration n d r w :
  same_configuration w (levels_buffered n d r w).
Proof.
  unfold levels_buffered, same_configuration.
  destruct (max_definition_level (descr_ w) >? 0);
    destruct (max_repetition_level (descr_ w) >? 0); repeat split.
Qed.

(** X15. Write calls, failed ones included, never touch the configuration
    of the writer: the descriptor, the properties, the expected row count
    and the dictionary flag stay as they were, and a write neither closes
    nor reopens the writer. *)
Theorem write_calls_keep_configuration w (cs : list (WriteCall (T := T))) :
  stats_ok w ->
  same_configuration w (after_calls cs w) /\ stats_ok (after_calls cs w).
Proof.
  intros Hstats.
  apply (after_calls_keeps (fun w' => same_configuration w w')); auto.
  - intros w1 n d r w' _ Hc Hw.
    apply mini_batch_written_facts in Hw. unfold same_configuration in *.
    intuition congruence.
  - intros w1 n d r Hc.
    pose proof (levels_buffered_configuration n d r w1) as Hb.
    unfold same_configuration in *. intuition congruence.
  - unfold same_configuration. auto 10.
Qed.

Lemma batch_buffered_dict_active w w2 n r :
  batch_buffered w w2 n r -> dict_active w2 = dict_active w.
Proof.
  intros (_ & _ & Hf & _ & _ & _ & _ & _ & _ & Hh & _).
  unfold dict_active. rewrite Hf, Hh. reflexivity.
Qed.

Lemma defers_written w n d r w' :
  defers_for_dictionary_only w -> mini_batch_written w n d r w' ->
  defers_for_dictionary_only w'.
Proof.
  intros Hw (w2 & cuts & Hbuf & _ & Hem).
  assert (H2 : defers_for_dictionary_only w2).
  { unfold defers_for_dictionary_only.
    rewrite (batch_buffered_dict_active _ _ _ _ Hbuf).
    destruct Hbuf as (_ & -> & _). exact Hw. }
  exact (proj2 (cut_pages_emission _ _ _ H2 Hem)).
Qed.

Lemma defers_refused w n d r :
  defers_for_dictionary_only w ->
  defers_for_dictionary_only (levels_buffered n d r w).
Proof.
  unfold defers_for_dictionary_only, dict_active.
  destruct (levels_buffered_frame n d r w) as (_ & -> & -> & _ & -> & _).
  auto.
Qed.

(** X16. Pages are deferred for the dictionary only: between the calls on
    a new writer, a writer without dictionary, or one that has fallen
    back, holds no deferred page, each page having been handed over by the
    call that cut it; after [Close] no writer holds one. *)
Theorem pages_deferred_for_dictionary_only descr pager expected_rows encoding
  props (w0 : Writer) (cs : list (WriteCall (T := T))) :
  TypedColumnWriter_new descr pager expected_rows encoding props tt =
  Ret w0 tt ->
  let w1 := after_calls cs w0 in
  (has_dictionary_ w1 = false \/ fallback_ w1 = true -> data_pages_ w1 = []) /\
  data_pages_ (state_of (Close w1)) = [].
Proof.
  intros Hnew w1.
  destruct (TypedColumnWriter_new_facts _ _ _ _ _ _ Hnew)
    as (Hstats & Hopen & _ & _ & Hq & _).
  destruct (after_calls_keeps
              (fun w => defers_for_dictionary_only w /\ closed_ w = false))
    with (cs := cs) (w := w0) as [[Hdef Hclosed] Hst1]; auto.
  { intros w n d r w' _ [Hw Hc] Hb. split.
    - exact (defers_written w n d r w' Hw Hb).
    - apply mini_batch_written_facts in Hb.
      destruct Hb as (_ & _ & _ & _ & _ & -> & _). exact Hc. }
  { intros w n d r [Hw Hc]. split; [apply defers_refused, Hw|].
    destruct (levels_buffered_frame n d r w) as (_ & _ & _ & _ & _ & -> & _).
    exact Hc. }
  { split; [intros _; exact Hq | exact Hopen]. }
  fold w1 in Hdef, Hst1, Hclosed.
  split.
  - intros Hmode. apply Hdef. unfold dict_active.
    destruct Hmode as [-> | ->]; [reflexivity | apply andb_false_r].
  - destruct (Close_open_state w1 Hclosed Hst1) as (cuts & Hcl).
    apply Hcl.
Qed.

Lemma encoding_written w0 w n d r w' :
  encoding_kept_or_fallen_back w0 w -> mini_batch_written w n d r w' ->
  encoding_kept_or_fallen_back w0 w'.
Proof.
  intros (Hh & Hmode) (w2 & cuts & Hbuf & _ & Hem).
  pose proof (batch_buffered_dict_active _ _ _ _ Hbuf) as Hact.
  destruct Hbuf as (_ & _ & Hf2 & He2 & _ & _ & _ & _ & _ & Hh2 & _).
  destruct Hem as (_ & Hwhere & Hsame & _).
  destruct Hsame as (_ & _ & _ & Hh' & _).
  unfold encoding_kept_or_fallen_back.
  split; [congruence|].
  rewrite Hact in Hwhere.
  destruct (dict_active w) eqn:Hactive.
  - assert (Hfw : fallback_ w = false).
    { unfold dict_active in Hactive. apply andb_prop in Hactive.
      destruct Hactive as [_ Hn]. apply negb_true_iff in Hn. exact Hn. }
    destruct Hmode as [(Hf & He) | (_ & Hf & _)].
    + destruct Hwhere as [(Hf' & He' & _) | (page & Hf' & He' & _)].
      * left. split; congruence.
      * right. split; [| auto].
        unfold dict_active in *. rewrite <- Hh, <- Hf. exact Hactive.
    + unfold dict_active in Hactive. rewrite Hf, andb_false_r in Hactive.
      discriminate.
  - destruct Hwhere as (Hf' & He' & _).
    destruct Hmode as [(Hf & He) | (Ha & Hf & He)].
    + left. split; congruence.
    + right. repeat split; congruence.
Qed.

Lemma encoding_refused w0 w n d r :
  encoding_kept_or_fallen_back w0 w ->
  encoding_kept_or_fallen_back w0 (levels_buffered n d r w).
Proof.
  unfold encoding_kept_or_fallen_back.
  destruct (levels_buffered_frame n d r w) as (_ & _ & -> & -> & -> & _).
  auto.
Qed.

(** X17. The value encoding of a chunk changes at most once: over any
    write calls and the close, the writer keeps its encoding and its
    fallback flag, or it was using a dictionary and has fallen back to
    PLAIN; [Close] itself changes neither. *)
Theorem encoding_changes_only_at_fallback w (cs : list (WriteCall (T := T))) :
  stats_ok w ->
  let w1 := after_calls cs w in
  encoding_kept_or_fallen_back w w1 /\
  fallback_ (state_of (Close w1)) = fallback_ w1 /\
  encoding_ (state_of (Close w1)) = encoding_ w1.
Proof.
  intros Hstats w1.
  destruct (after_calls_keeps (encoding_kept_or_fallen_back w)
              (fun w' n d r w'' _ Hw Hb => encoding_written w w' n d r w'' Hw Hb)
              (encoding_refused w) cs w) as [Henc Hst1]; auto.
  { unfold encoding_kept_or_fallen_back. auto. }
  fold w1 in Henc, Hst1. split; [exact Henc|].
  destruct (closed_ w1) eqn:Hclosed.
  - rewrite Close_closed by exact Hclosed.
    destruct (num_rows_ w1 =? expected_rows_ w1); auto.
  - destruct (Close_open_state w1 Hclosed Hst1) as (cuts & Hcl).
    destruct Hcl as (_ & _ & _ & _ & _ & Hf & He & _). auto.
Qed.

(** X18. [Close] on an open writer leaves nothing behind: no buffered
    entry and no deferred page remain, and the page writer has been closed
    with the dictionary and fallback flags of the writer, also when
    [Close] then throws the row count error. *)
Theorem Close_leaves_nothing_buffered w :
  stats_ok w -> closed_ w = false -> 0 <= num_buffered_values_ w ->
  let w' := state_of (Close w) in
  num_buffered_values_ w' = 0 /\ data_pages_ w' = [] /\
  closed_with (pager_ w') = Some (has_dictionary_ w, fallback_ w) /\
  closed_ w' = true.
Proof.
  intros Hstats Hopen Hn w'.
  destruct (Close_open_state w Hopen Hstats) as (cuts & Hcl).
  fold w' in Hcl.
  destruct Hcl as (Hcut & Hiff & _ & Hq & Hc & _ & _ & Hcw & _).
  repeat split; auto.
  destruct Hcut as [[-> Hn'] | (page & _ & _ & _ & Hn')]; [| exact Hn'].
  assert (num_buffered_values_ w <= 0) by (apply Hiff; reflexivity). lia.
Qed.

Lemma AddDataPage_statistics_wp w :
  stats_ok w ->
  wp AddDataPage w
    (fun _ w' =>
       exists page,
         (if dict_active w
          then data_pages_ w' = data_pages_ w ++ [page]
          else sink w' = sink w ++ [DataPage page]) /\
         dp_statistics page = page_statistics_encoded w /\
         match chunk_statistics_ w, page_statistics_ w with
         | Some chunk, Some page_st =>
             chunk_statistics_ w' = Some (Stats_Merge chunk page_st) /\
             page_statistics_ w' = Some (Stats_Reset page_st)
         | _, _ =>
             chunk_statistics_ w' = chunk_statistics_ w /\
             page_statistics_ w' = page_statistics_ w
         end)
    never.
Proof.
  intros Hstats.
  unfold AddDataPage, GetValuesBuffer.
  wp_steps.
  destruct (Encoder_FlushValues (current_encoder_ w)) as [values enc'] eqn:Hflush.
  wp_steps. simpl_goal.
  eapply wp_conseq;
    [ eapply encode_levels_spec with (dest := definition_levels_rle_ref)
        (sink_of := definition_levels_sink_) | | ];
    [ left; reflexivity | | auto ].
  cbv beta. simpl_goal.
  intros ds w1 (B1 & L1 & Hw1 & _). subst w1. simpl_goal.
  wp_step.
  eapply wp_conseq;
    [ eapply encode_levels_spec with (dest := repetition_levels_rle_ref)
        (sink_of := repetition_levels_sink_) | | ];
    [ right; reflexivity | | auto ].
  cbv beta. simpl_goal.
  intros rs w2 (B2 & L2 & Hw2 & _). subst w2. simpl_goal.
  unfold GetPageStatistics, ResetPageStatistics, WriteDataPage, InitSinks,
    on_pager, PageWriter_.WriteDataPage.
  unfold stats_ok in Hstats.
  unfold PageWriter_.has_compressor, PageWriter_.Compress.
  destruct (page_statistics_ w) as [pst|] eqn:Hpst;
    destruct (chunk_statistics_ w) as [cst|] eqn:Hcst;
    try contradiction.
  all: destruct (compressor (pager_ w)) as [f|] eqn:Hcomp.
  all: destruct (has_dictionary_ w && negb (fallback_ w)) eqn:Hactive.
  all: repeat (wp_step || (progress simpl_goal) || rewrite Hpst
               || rewrite Hcst || rewrite Hcomp || rewrite Hactive).
  all: eexists.
  all: unfold dict_active, sink, page_statistics_encoded.
  all: simpl_goal.
  all: rewrite ?Hactive, ?Hpst, ?Hcst.
  all: repeat split; reflexivity.
Qed.

(** X19. Statistics follow the page: the page [AddDataPage] cuts carries
    the encoded page statistics, and the chunk statistics then absorb them
    while the page statistics start afresh.  A writer without statistics
    cuts pages with default statistics and stays without. *)
Theorem AddDataPage_statistics w :
  stats_ok w ->
  exists w' page,
    AddDataPage w = Ret tt w' /\
    (if dict_active w
     then data_pages_ w' = data_pages_ w ++ [page]
     else sink w' = sink w ++ [DataPage page]) /\
    dp_statistics page = page_statistics_encoded w /\
    match chunk_statistics_ w, page_statistics_ w with
    | Some chunk, Some page_st =>
        chunk_statistics_ w' = Some (Stats_Merge chunk page_st) /\
        page_statistics_ w' = Some (Stats_Reset page_st)
    | _, _ =>
        chunk_statistics_ w' = chunk_statistics_ w /\
        page_statistics_ w' = page_statistics_ w
    end.
Proof.
  intros Hstats.
  destruct (wp_returns _ _ _ _ (AddDataPage_statistics_wp w Hstats))
    as ([] & w' & Hrun & page & H).
  exists w', page. auto.
Qed.

(** X20. [WriteDictionaryPage] hands over one page: the dictionary the
    encoder serialises, as many bytes as the encoder says it takes, with
    the number of entries and the dictionary index encoding; the byte
    count grows by what the page writer reports, and nothing else of the
    writer changes but the encoder's pool. *)
Theorem WriteDictionaryPage_hands_over_dictionary w :
  exists w',
    WriteDictionaryPage w = Ret tt w' /\
    sink w' = sink w ++ [DictPage (dictionary_page_of w)] /\
    total_bytes_written_ w' =
      total_bytes_written_ w +
      dictionary_page_bytes_written (dictionary_page_of w) /\
    current_encoder_ w' = DictEncoder_FreeAll (current_encoder_ w) /\
    buffer_size (dict_buffer (dictionary_page_of w)) =
      Z.max 0 (DictEncoder_dict_encoded_size (current_encoder_ w)) /\
    (buffer_size (DictEncoder_WriteDict (current_encoder_ w)) =
     DictEncoder_dict_encoded_size (current_encoder_ w) ->
     dict_buffer (dictionary_page_of w) =
     DictEncoder_WriteDict (current_encoder_ w)) /\
    data_pages_ w' = data_pages_ w /\ buffer_kept w w' /\
    fallback_ w' = fallback_ w /\ encoding_ w' = encoding_ w.
Proof.
  exists (state_of (WriteDictionaryPage w)).
  cbv [WriteDictionaryPage bind gets modify ret on_pager on_member
       PageWriter_.WriteDictionaryPage state_of].
  split; [reflexivity|]. unfold sink, buffer_kept. simpl_goal.
  split; [reflexivity|]. split; [reflexivity|]. split; [reflexivity|].
  unfold dictionary_page_of. simpl_goal.
  split; [| split; [| auto 10]].
  - unfold buffer_size. rewrite length_write_at, length_Resize. lia.
  - unfold buffer_size. intros Hlen.
    rewrite write_at_0 by (rewrite length_Resize; lia).
    rewrite skipn_all2 by (rewrite length_Resize; lia).
    apply app_nil_r.
Qed.
End AccountingProperties.

Section ClosedFlagProperties.
Context {T E S ES R BW : Type}
        {rle_ops : RleEncoderOps R} {bw_ops : BitWriterOps BW}
        {enc_ops : EncoderOps T E} {stats_ops : StatisticsOps T S ES}
        {pw_ops : PageWriterOps ES}.
Local Abbreviation Writer := (ColumnWriter E S ES R BW).
Implicit Types (w : Writer).
Local Abbreviation unaware :=
  (ignores_closed (E := E) (S := S) (ES := ES) (R := R) (BW := BW)).

Lemma unaware_ret A (a : A) : unaware (ret a : M Writer A).
Proof. intros b w. reflexivity. Qed.

Lemma unaware_throw A e : unaware (throw e : M Writer A).
Proof. intros b w. reflexivity. Qed.

Lemma unaware_bind A B (c : M Writer A) (k : A -> M Writer B) :
  unaware c -> (forall a, unaware (k a)) ->
  unaware (bind c k).
Proof.
  intros Hc Hk b w. unfold bind. rewrite Hc.
  destruct (c w) as [a s | e s]; cbn [with_closed]; [apply Hk | reflexivity].
Qed.

Lemma unaware_gets A (f : Writer -> A) :
  (forall b w, f (set_closed_ b w) = f w) -> unaware (gets f).
Proof. intros Hf b w. unfold gets. rewrite Hf. reflexivity. Qed.

Lemma unaware_modify (f : Writer -> Writer) :
  (forall b w, f (set_closed_ b w) = set_closed_ b (f w)) ->
  unaware (modify f).
Proof. intros Hf b w. unfold modify. rewrite Hf. reflexivity. Qed.

Lemma unaware_when (c : bool) (m : M Writer unit) :
  unaware m -> unaware (when c m).
Proof. destruct c; cbn [when]; [auto | intros; apply unaware_ret]. Qed.

Lemma unaware_on_member Sub A (proj : Writer -> Sub)
  (upd : Sub -> Writer -> Writer) (c : M Sub A) :
  (forall b w, proj (set_closed_ b w) = proj w) ->
  (forall b m w, upd m (set_closed_ b w) = set_closed_ b (upd m w)) ->
  unaware (on_member proj upd c).
Proof.
  intros Hp Hu b w. unfold on_member. rewrite Hp.
  destruct (c (proj w)); cbn [with_closed]; rewrite Hu; reflexivity.
Qed.

Ltac unaware_using known :=
  repeat first
    [ known
    | apply unaware_ret
    | apply unaware_throw
    | apply unaware_bind; [ | intros ? ]
    | apply unaware_gets; intros; reflexivity
    | apply unaware_modify; intros; reflexivity
    | apply unaware_modify;
      let w0 := fresh "w" in
      intros ? w0; simpl_goal; destruct (page_statistics_ w0); reflexivity
    | apply unaware_when
    | apply unaware_on_member; intros; reflexivity
    | match goal with
      | |- ignores_closed (if ?c then _ else _) => destruct c
      | |- ignores_closed (match ?x with _ => _ end) => destruct x
      | |- ignores_closed (let (_, _) := ?x in _) => destruct x
      end ].

Ltac unaware_steps := unaware_using fail.

Lemma AddDataPage_unaware : unaware AddDataPage.
Proof.
  unfold AddDataPage, GetValuesBuffer, RleEncodeLevels, GetPageStatistics,
    ResetPageStatistics, WriteDataPage, InitSinks, on_level_encoder, on_pager,
    LevelEncoder.MaxBufferSize.
  unaware_steps.
Qed.

Lemma for_each_unaware A (l : list A) (body : A -> M Writer unit) :
  (forall x, unaware (body x)) -> unaware (for_each l body).
Proof.
  intros Hbody. induction l as [|x l IH]; cbn [for_each];
    unaware_using ltac:(first [apply Hbody | apply IH]).
Qed.

Lemma WriteDataPage_unaware page :
  unaware (WriteDataPage page).
Proof. unfold WriteDataPage, on_pager. unaware_steps. Qed.

Lemma FlushBufferedDataPages_unaware :
  unaware FlushBufferedDataPages.
Proof.
  unfold FlushBufferedDataPages.
  unaware_using ltac:(first
    [ apply AddDataPage_unaware
    | apply for_each_unaware; intros ?;
      apply WriteDataPage_unaware ]).
Qed.

Lemma CheckDictionarySizeLimit_unaware :
  unaware CheckDictionarySizeLimit.
Proof.
  unfold CheckDictionarySizeLimit, WriteDictionaryPage, on_pager.
  unaware_using ltac:(apply FlushBufferedDataPages_unaware).
Qed.

Lemma WriteMiniBatch_unaware n d r (v : list T) :
  unaware (WriteMiniBatch n d r v).
Proof.
  unfold WriteMiniBatch, WriteDefinitionLevels, WriteRepetitionLevels,
    WriteValues.
  unaware_using ltac:(first
    [ apply AddDataPage_unaware
    | apply CheckDictionarySizeLimit_unaware ]).
Qed.

Lemma WriteMiniBatchSpaced_unaware n d r bits off (v : list T) :
  unaware (WriteMiniBatchSpaced n d r bits off v).
Proof.
  unfold WriteMiniBatchSpaced, WriteDefinitionLevels, WriteRepetitionLevels,
    WriteValues, WriteValuesSpaced.
  unaware_using ltac:(first
    [ apply AddDataPage_unaware
    | apply CheckDictionarySizeLimit_unaware ]).
Qed.

Lemma WriteBatch_rounds_unaware rounds :
  forall round size d r (v : list T) offset,
    unaware (WriteBatch_rounds rounds round size d r v offset).
Proof.
  induction rounds as [|rounds IH]; intros; cbn [WriteBatch_rounds];
    unaware_using ltac:(first
      [ apply WriteMiniBatch_unaware | apply IH ]).
Qed.

Lemma WriteBatchSpaced_rounds_unaware rounds :
  forall round size d r bits off (v : list T) offset,
    unaware
      (WriteBatchSpaced_rounds rounds round size d r bits off v offset).
Proof.
  induction rounds as [|rounds IH]; intros; cbn [WriteBatchSpaced_rounds];
    unaware_using ltac:(first
      [ apply WriteMiniBatchSpaced_unaware | apply IH ]).
Qed.


(** X21. Write calls never consult [closed_] (their only checks of it are
    [DCHECK]s, which a release build compiles out): a write on a closed
    writer is not refused, it buffers, counts, cuts pages and hands them
    to the page writer exactly as on the same writer not closed, and
    leaves the flag as it was. *)
Theorem writes_ignore_closed (c : WriteCall (T := T)) b w :
  perform c (set_closed_ b w) = with_closed b (perform c w).
Proof.
  revert b w. change (unaware (perform c)).
  destruct c; cbn [perform]; unfold WriteBatch, WriteBatchSpaced;
    unaware_using ltac:(first
      [ apply WriteBatch_rounds_unaware
      | apply WriteBatchSpaced_rounds_unaware
      | apply WriteMiniBatch_unaware
      | apply WriteMiniBatchSpaced_unaware ]).
Qed.
End ClosedFlagProperties.

Section ClosedWriter.
Context {T E S ES R BW : Type}
        {rle_ops : RleEncoderOps R} {bw_ops : BitWriterOps BW}
        {enc_ops : EncoderOps T E} {stats_ops : StatisticsOps T S ES}
        {pw_ops : PageWriterOps ES} {laws : RleEncoderLaws R}.
Local Abbreviation Writer := (ColumnWriter E S ES R BW).
Implicit Types (w : Writer).



End ClosedWriter.

Section MetadataProperties.
Context {T E S ES R BW : Type}
        {rle_ops : RleEncoderOps R} {bw_ops : BitWriterOps BW}
        {enc_ops : EncoderOps T E} {stats_ops : StatisticsOps T S ES}
        {pw_ops : PageWriterOps ES} {laws : RleEncoderLaws R}.
Local Abbreviation Writer := (ColumnWriter E S ES R BW).
Implicit Types (w : Writer).
Local Abbreviation keeps :=
  (keeps_metadata (E := E) (S := S) (ES := ES) (R := R) (BW := BW)).

Lemma keeps_ret A (a : A) : keeps (ret a : M Writer A).
Proof. intros w. reflexivity. Qed.

Lemma keeps_throw A e : keeps (throw e : M Writer A).
Proof. intros w. reflexivity. Qed.

Lemma keeps_bind A B (c : M Writer A) (k : A -> M Writer B) :
  keeps c -> (forall a, keeps (k a)) -> keeps (bind c k).
Proof.
  intros Hc Hk w. unfold bind. specialize (Hc w).
  destruct (c w) as [a s | e s]; cbn [state_of] in *;
    [rewrite Hk | ]; exact Hc.
Qed.

Lemma keeps_gets A (f : Writer -> A) : keeps (gets f).
Proof. intros w. reflexivity. Qed.

Lemma keeps_modify (f : Writer -> Writer) :
  (forall w, metadata_ (f w) = metadata_ w) -> keeps (modify f).
Proof. intros Hf w. apply Hf. Qed.

Lemma keeps_when (c : bool) (m : M Writer unit) :
  keeps m -> keeps (when c m).
Proof. destruct c; cbn [when]; [auto | intros; apply keeps_ret]. Qed.

Lemma keeps_on_member Sub A (proj : Writer -> Sub)
  (upd : Sub -> Writer -> Writer) (c : M Sub A) :
  (forall m w, metadata_ (upd m w) = metadata_ w) ->
  keeps (on_member proj upd c).
Proof.
  intros Hu w. unfold on_member.
  destruct (c (proj w)); cbn [state_of]; apply Hu.
Qed.

Ltac keeps_using known :=
  repeat first
    [ known
    | apply keeps_ret
    | apply keeps_throw
    | apply keeps_gets
    | apply keeps_bind; [ | intros ? ]
    | apply keeps_modify; intros; reflexivity
    | apply keeps_modify;
      let w0 := fresh "w" in
      intros w0; destruct (page_statistics_ w0); reflexivity
    | apply keeps_when
    | apply keeps_on_member; intros; reflexivity
    | match goal with
      | |- keeps_metadata (if ?c then _ else _) => destruct c
      | |- keeps_metadata (match ?x with _ => _ end) => destruct x
      | |- keeps_metadata (let (_, _) := ?x in _) => destruct x
      end ].

Lemma AddDataPage_keeps_metadata : keeps AddDataPage.
Proof.
  unfold AddDataPage, GetValuesBuffer, RleEncodeLevels, GetPageStatistics,
    ResetPageStatistics, WriteDataPage, InitSinks, on_level_encoder, on_pager,
    LevelEncoder.MaxBufferSize.
  keeps_using fail.
Qed.

Lemma for_each_keeps_metadata A (l : list A) (body : A -> M Writer unit) :
  (forall x, keeps (body x)) -> keeps (for_each l body).
Proof.
  intros Hbody. induction l as [|x l IH]; cbn [for_each];
    keeps_using ltac:(first [apply Hbody | apply IH]).
Qed.

Lemma WriteDataPage_keeps_metadata page : keeps (WriteDataPage page).
Proof. unfold WriteDataPage, on_pager. keeps_using fail. Qed.

Lemma FlushBufferedDataPages_keeps_metadata : keeps FlushBufferedDataPages.
Proof.
  unfold FlushBufferedDataPages.
  keeps_using ltac:(first
    [ apply AddDataPage_keeps_metadata
    | apply for_each_keeps_metadata; intros ?;
      apply WriteDataPage_keeps_metadata ]).
Qed.

Lemma WriteDictionaryPage_keeps_metadata : keeps WriteDictionaryPage.
Proof. unfold WriteDictionaryPage, on_pager. keeps_using fail. Qed.

Lemma CheckDictionarySizeLimit_keeps_metadata :
  keeps CheckDictionarySizeLimit.
Proof.
  unfold CheckDictionarySizeLimit.
  keeps_using ltac:(first
    [ apply WriteDictionaryPage_keeps_metadata
    | apply FlushBufferedDataPages_keeps_metadata ]).
Qed.

Lemma WriteMiniBatch_keeps_metadata n d r (v : list T) :
  keeps (WriteMiniBatch n d r v).
Proof.
  unfold WriteMiniBatch, WriteDefinitionLevels, WriteRepetitionLevels,
    WriteValues.
  keeps_using ltac:(first
    [ apply AddDataPage_keeps_metadata
    | apply CheckDictionarySizeLimit_keeps_metadata ]).
Qed.

Lemma WriteMiniBatchSpaced_keeps_metadata n d r bits off (v : list T) :
  keeps (WriteMiniBatchSpaced n d r bits off v).
Proof.
  unfold WriteMiniBatchSpaced, WriteDefinitionLevels, WriteRepetitionLevels,
    WriteValues, WriteValuesSpaced.
  keeps_using ltac:(first
    [ apply AddDataPage_keeps_metadata
    | apply CheckDictionarySizeLimit_keeps_metadata ]).
Qed.

Lemma WriteBatch_rounds_keeps_metadata rounds :
  forall round size d r (v : list T) offset,
    keeps (WriteBatch_rounds rounds round size d r v offset).
Proof.
  induction rounds as [|rounds IH]; intros; cbn [WriteBatch_rounds];
    keeps_using ltac:(first
      [ apply WriteMiniBatch_keeps_metadata | apply IH ]).
Qed.

Lemma WriteBatchSpaced_rounds_keeps_metadata rounds :
  forall round size d r bits off (v : list T) offset,
    keeps (WriteBatchSpaced_rounds rounds round size d r bits off v offset).
Proof.
  induction rounds as [|rounds IH]; intros; cbn [WriteBatchSpaced_rounds];
    keeps_using ltac:(first
      [ apply WriteMiniBatchSpaced_keeps_metadata | apply IH ]).
Qed.

Lemma perform_keeps_metadata (c : WriteCall (T := T)) : keeps (perform c).
Proof.
  destruct c; cbn [perform]; unfold WriteBatch, WriteBatchSpaced;
    keeps_using ltac:(first
      [ apply WriteBatch_rounds_keeps_metadata
      | apply WriteBatchSpaced_rounds_keeps_metadata
      | apply WriteMiniBatch_keeps_metadata
      | apply WriteMiniBatchSpaced_keeps_metadata ]).
Qed.

Lemma keeps_metadata_wp A (c : M Writer A) w :
  keeps c ->
  wp c w (fun _ w' => metadata_ w' = metadata_ w)
    (fun _ w' => metadata_ w' = metadata_ w).
Proof.
  intros Hc. unfold wp. specialize (Hc w).
  destruct (c w); exact Hc.
Qed.

Lemma after_calls_keep_metadata (cs : list (WriteCall (T := T))) : forall w,
  metadata_ (after_calls cs w) = metadata_ w.
Proof.
  induction cs as [|c cs IH]; intros w; cbn; [reflexivity|].
  unfold after_calls in IH. rewrite IH. apply perform_keeps_metadata.
Qed.

Lemma Close_metadata w :
  stats_ok w -> closed_ w = false ->
  wp Close w
    (fun _ w' =>
       metadata_ w' =
       if EncodedStatistics_is_set (chunk_statistics_encoded w')
       then Some (chunk_statistics_encoded w') else metadata_ w)
    (fun _ w' =>
       metadata_ w' =
       if EncodedStatistics_is_set (chunk_statistics_encoded w')
       then Some (chunk_statistics_encoded w') else metadata_ w).
Proof.
  intros Hstats Hopen. unfold Close.
  wp_step. wp_step. rewrite Hopen. cbn [negb when].
  wp_steps. simpl_goal.
  assert (Hst0 : stats_ok (set_closed_ true w)) by exact Hstats.
  assert (Hm0 : metadata_ (set_closed_ true w) = metadata_ w) by reflexivity.
  revert Hst0 Hm0. generalize (set_closed_ true w) as w0. intros w0 Hst0 Hm0.
  assert (Hdict :
    wp (when (has_dictionary_ w && negb (fallback_ w)) WriteDictionaryPage)
      w0 (fun _ w1 => metadata_ w1 = metadata_ w /\ stats_ok w1) never).
  { apply wp_when; intros _; [| auto].
    eapply wp_conseq;
      [ apply wp_and;
        [ apply WriteDictionaryPage_tracked
        | apply keeps_metadata_wp, WriteDictionaryPage_keeps_metadata ]
      | | intros ? ? [[] _] ].
    cbv beta. intros _ w1 ((_ & _ & Hst & _) & Hm). split; [congruence | auto]. }
  eapply wp_conseq; [ exact Hdict | | intros ? ? [] ]. cbv beta.
  intros _ w1 (Hm1 & Hst1). wp_step.
  eapply wp_conseq;
    [ apply wp_and;
      [ apply FlushBufferedDataPages_tracked, Hst1
      | apply keeps_metadata_wp, FlushBufferedDataPages_keeps_metadata ]
    | | intros ? ? [[] _] ].
  cbv beta. intros _ w2 ((_ & Hst2 & _) & Hm2).
  unfold GetChunkStatistics. wp_step. wp_step. wp_step.
  assert (Hs : forall s,
    s = chunk_statistics_encoded w2 ->
    wp (when (EncodedStatistics_is_set s) (modify (set_metadata_ (Some s))) ;;
        has_dictionary <- gets has_dictionary_ ;;
        fallback <- gets fallback_ ;;
        on_pager (PageWriter_.Close has_dictionary fallback)) w2
      (fun _ w' =>
         wp (num_rows <- gets num_rows_ ;;
             expected_rows <- gets expected_rows_ ;;
             if negb (num_rows =? expected_rows)
             then throw (row_count_error num_rows expected_rows)
             else total_bytes_written <- gets total_bytes_written_ ;;
                  ret total_bytes_written) w'
           (fun _ w'' =>
              metadata_ w'' =
              if EncodedStatistics_is_set (chunk_statistics_encoded w'')
              then Some (chunk_statistics_encoded w'') else metadata_ w)
           (fun _ w'' =>
              metadata_ w'' =
              if EncodedStatistics_is_set (chunk_statistics_encoded w'')
              then Some (chunk_statistics_encoded w'') else metadata_ w))
      never).
  { intros s ->. wp_step.
    destruct (EncodedStatistics_is_set (chunk_statistics_encoded w2)) eqn:Hset;
      cbn [when]; wp_steps; unfold PageWriter_.Close, on_pager; wp_steps.
    all: match goal with
         | |- wp (if ?c then _ else _) _ _ _ => destruct c
         end; wp_steps.
    all: unfold chunk_statistics_encoded in *; simpl_goal; rewrite Hset;
      congruence. }
  destruct (chunk_statistics_ w2) as [st|] eqn:Hchunk; wp_step;
    (eapply wp_conseq;
       [ apply Hs | intros ? ? H; exact H | intros ? ? [] ]);
    unfold chunk_statistics_encoded; rewrite Hchunk; reflexivity.
Qed.

(** X22. The chunk statistics reach the metadata builder at the close and
    not before: write calls never give it statistics, and [Close] on an
    open writer gives it the encoded chunk statistics exactly when they
    are set. *)
Theorem statistics_reach_metadata_at_close w0
  (cs : list (WriteCall (T := T))) :
  stats_ok w0 -> closed_ w0 = false ->
  let w1 := after_calls cs w0 in
  let w2 := state_of (Close w1) in
  metadata_ w1 = metadata_ w0 /\
  metadata_ w2 =
  if EncodedStatistics_is_set (chunk_statistics_encoded w2)
  then Some (chunk_statistics_encoded w2) else metadata_ w0.
Proof.
  intros Hstats Hopen w1 w2.
  pose proof (after_calls_keep_metadata cs w0) as Hm1. fold w1 in Hm1.
  destruct (after_calls_keeps (fun w => closed_ w = false))
    with (cs := cs) (w := w0) as [Hopen1 Hst1]; auto.
  { intros w n d r w' _ Hc Hb. apply mini_batch_written_facts in Hb.
    destruct Hb as (_ & _ & _ & _ & _ & -> & _). exact Hc. }
  { intros w n d r Hc.
    destruct (levels_buffered_frame n d r w) as (_ & _ & _ & _ & _ & -> & _).
    exact Hc. }
  fold w1 in Hopen1, Hst1. split; [exact Hm1|].
  rewrite <- Hm1.
  exact (wp_state_of _ Close w1
           (fun w' =>
              metadata_ w' =
              if EncodedStatistics_is_set (chunk_statistics_encoded w')
              then Some (chunk_statistics_encoded w') else metadata_ w1)
           (Close_metadata w1 Hst1 Hopen1)).
Qed.
End MetadataProperties.

Module Int32Checks.
Import Int32Column Int32Chunks Int32Cases.

#[local] Existing Instance rle_encoder_ops.
#[local] Existing Instance bit_writer_ops.
#[local] Existing Instance encoder_ops.
#[local] Existing Instance statistics_ops.
#[local] Existing Instance page_writer_ops.
#[local] Existing Instance Int32Examples.byte_codec_laws.

Lemma Encode_count_witness :
  3 <= Z.of_nat (length [0; 1; 1]) /\
  LevelEncoder.Encode 3 [0; 1; 1] two_byte_encoder =
  Ret 2 (state_of (LevelEncoder.Encode 3 [0; 1; 1] two_byte_encoder)) /\
  exists r r',
    LevelEncoder.rle_encoder_ two_byte_encoder = Some r /\
    levels_put RleEncoder_Put r 3 [0; 1; 1] 2 r' /\
    fst (RleEncoder_Put (offered RleEncoder_Put r [0; 1]) 1) = false.
Proof.
  assert (Hsize : 3 <= Z.of_nat (length [0; 1; 1])) by (cbn; lia).
  assert (H : LevelEncoder.Encode 3 [0; 1; 1] two_byte_encoder =
              Ret 2 (state_of (LevelEncoder.Encode 3 [0; 1; 1]
                                 two_byte_encoder)))
    by (vm_compute; reflexivity).
  split; [exact Hsize|]. split; [exact H|].
  pose proof (Encode_count 3 [0; 1; 1] two_byte_encoder _ 2 Hsize H) as Hput.
  change (Encoding.eqb (LevelEncoder.encoding_ two_byte_encoder) Encoding.RLE)
    with true in Hput.
  cbv iota in Hput.
  destruct Hput as (r & r' & Hr & Hput & _).
  exists r, r'. split; [exact Hr|]. split; [exact Hput|].
  destruct Hput as (_ & _ & Href & _).
  exact (Href ltac:(lia)).
Defined.

Lemma Encode_after_Init_witness :
  level_encoding Encoding.BIT_PACKED = true /\
  exists le1 k le2,
    LevelEncoder.Init Encoding.BIT_PACKED 1 3 2 two_byte_encoder =
    Ret tt le1 /\
    LevelEncoder.encoding_ le1 = Encoding.BIT_PACKED /\
    LevelEncoder.bit_width_ le1 = BitUtil.Log2 (1 + 1) /\
    LevelEncoder.Encode 3 [0; 1; 1] le1 = Ret k le2.
Proof.
  split; [reflexivity|].
  exact (Encode_after_Init Encoding.BIT_PACKED 1 3 2 3 [0; 1; 1]
           two_byte_encoder eq_refl).
Defined.

Lemma unknown_level_encoding_rejected_witness :
  level_encoding Encoding.PLAIN = false /\
  LevelEncoder.MaxBufferSize Encoding.PLAIN 1 3
    (LevelEncoder.new (R := ByteCodec) (BW := ByteCodec)) =
  Raise unknown_level_encoding LevelEncoder.new.
Proof.
  split; [reflexivity|].
  exact (proj1 (unknown_level_encoding_rejected Encoding.PLAIN 1 3 2 3
                  [0; 1; 1] LevelEncoder.new eq_refl)).
Defined.

Lemma total_bytes_written_accounts_for_pages_witness :
  stats_ok (dictionary_writer 8 2) /\
  total_bytes_written_
    (state_of (Close (after_calls falling_back (dictionary_writer 8 2)))) -
  total_bytes_written_ (dictionary_writer 8 2) =
  sink_bytes
    (sink (state_of (Close (after_calls falling_back (dictionary_writer 8 2))))) -
  sink_bytes (sink (dictionary_writer 8 2)) /\
  total_bytes_written_
    (state_of (Close (after_calls falling_back (dictionary_writer 8 2)))) = 20.
Proof.
  assert (H1 : stats_ok (dictionary_writer 8 2)) by (vm_compute; exact I).
  split; [exact H1|].
  split; [| vm_compute; reflexivity].
  exact (proj1 (proj2 (total_bytes_written_accounts_for_pages
                         (dictionary_writer 8 2) falling_back H1))).
Defined.


Lemma WriteMiniBatchSpaced_returns_slots_written_witness :
  stats_ok (nested_writer 3) /\
  WriteMiniBatchSpaced 6 [1; 1; 0; 1; 1; 1] [0; 1; 1; 0; 1; 0]
    three_rows_valid 0 three_rows_slots (nested_writer 3) =
  Ret (5, 6)
    (state_of (WriteMiniBatchSpaced 6 [1; 1; 0; 1; 1; 1] [0; 1; 1; 0; 1; 0]
                 three_rows_valid 0 three_rows_slots (nested_writer 3))) /\
  5 = values_in_batch (nested_writer 3) 6 [1; 1; 0; 1; 1; 1] /\
  6 = spaced_values_in_batch (nested_writer 3) 6 [1; 1; 0; 1; 1; 1] /\
  current_encoder_
    (state_of (WriteMiniBatchSpaced 6 [1; 1; 0; 1; 1; 1] [0; 1; 1; 0; 1; 0]
                 three_rows_valid 0 three_rows_slots (nested_writer 3))) =
  current_encoder_ buffered_writer.
Proof.
  assert (H1 : stats_ok (nested_writer 3)) by (vm_compute; exact I).
  assert (H2 : WriteMiniBatchSpaced 6 [1; 1; 0; 1; 1; 1] [0; 1; 1; 0; 1; 0]
                 three_rows_valid 0 three_rows_slots (nested_writer 3) =
               Ret (5, 6)
                 (state_of
                    (WriteMiniBatchSpaced 6 [1; 1; 0; 1; 1; 1]
                       [0; 1; 1; 0; 1; 0] three_rows_valid 0 three_rows_slots
                       (nested_writer 3))))
    by (vm_compute; reflexivity).
  split; [exact H1|]. split; [exact H2|].
  destruct (WriteMiniBatchSpaced_returns_slots_written _ _ _ _ _ _ _ _ _
              H1 H2) as (Hk & Hs & _).
  split; [exact Hk|]. split; [exact Hs|]. vm_compute. reflexivity.
Defined.

Lemma levels_of_bytes_of_levels_witness :
  Forall int16 [0; 1; -1; 32767; -32768] /\
  levels_of_bytes (bytes_of_levels [0; 1; -1; 32767; -32768]) =
  [0; 1; -1; 32767; -32768] /\
  bytes_of_levels [0; 1; -1; 32767; -32768] =
  [0; 0; 1; 0; 255; 255; 255; 127; 0; 128].
Proof.
  assert (H : Forall int16 [0; 1; -1; 32767; -32768])
    by (repeat constructor; vm_compute; discriminate).
  split; [exact H|].
  split; [exact (proj1 (levels_of_bytes_of_levels _ H)) | reflexivity].
Defined.

Lemma level_sinks_hold_pending_batches_witness :
  TypedColumnWriter_new (column 1 1) fresh_pager 6 Encoding.PLAIN
    small_page_properties tt = Ret small_page_writer tt /\
  WriteMiniBatches two_batches small_page_writer =
  Ret tt two_batches_written /\
  pages_cut two_batches_written = pages_cut small_page_writer + 1 /\
  since_last_cut two_batches [] small_page_writer = skipn 1 two_batches /\
  num_buffered_values_ two_batches_written =
    total_levels (skipn 1 two_batches) /\
  definition_levels_sink_ two_batches_written =
    pending_level_bytes 1 (@def_levels Z) (skipn 1 two_batches) /\
  repetition_levels_sink_ two_batches_written =
    pending_level_bytes 1 (@rep_levels Z) (skipn 1 two_batches) /\
  definition_levels_sink_ two_batches_written = [0; 0; 1; 0; 0; 0].
Proof.
  assert (H1 : TypedColumnWriter_new (column 1 1) fresh_pager 6
                 Encoding.PLAIN small_page_properties tt =
               Ret small_page_writer tt) by reflexivity.
  assert (H2 : WriteMiniBatches two_batches small_page_writer =
               Ret tt two_batches_written) by (vm_compute; reflexivity).
  assert (H3 : since_last_cut two_batches [] small_page_writer =
               skipn 1 two_batches) by (vm_compute; reflexivity).
  split; [exact H1|]. split; [exact H2|].
  split; [vm_compute; reflexivity|]. split; [exact H3|].
  pose proof (level_sinks_hold_pending_batches _ _ _ _ _ _ _ _ H1 H2) as H.
  cbv zeta in H. rewrite H3 in H.
  destruct H as (_ & _ & Hn & Hd & Hr).
  split; [exact Hn|]. split; [exact Hd|]. split; [exact Hr|].
  vm_compute. reflexivity.
Defined.

Lemma buffered_levels_read_back_witness :
  TypedColumnWriter_new (column 1 1) fresh_pager 6 Encoding.PLAIN
    small_page_properties tt = Ret small_page_writer tt /\
  WriteMiniBatches two_batches small_page_writer =
  Ret tt two_batches_written /\
  Forall (well_formed_levels (@def_levels Z)) two_batches /\
  Forall (well_formed_levels (@rep_levels Z)) two_batches /\
  since_last_cut two_batches [] small_page_writer = skipn 1 two_batches /\
  levels_of_bytes (definition_levels_sink_ two_batches_written) =
    flat_map batch_def_levels (skipn 1 two_batches) /\
  levels_of_bytes (repetition_levels_sink_ two_batches_written) =
    flat_map (@batch_rep_levels Z) (skipn 1 two_batches) /\
  Z.of_nat (length (levels_of_bytes
                      (definition_levels_sink_ two_batches_written))) =
    num_buffered_values_ two_batches_written /\
  levels_of_bytes (definition_levels_sink_ two_batches_written) = [0; 1; 0].
Proof.
  assert (H1 : TypedColumnWriter_new (column 1 1) fresh_pager 6
                 Encoding.PLAIN small_page_properties tt =
               Ret small_page_writer tt) by reflexivity.
  assert (H2 : WriteMiniBatches two_batches small_page_writer =
               Ret tt two_batches_written) by (vm_compute; reflexivity).
  assert (H3 : Forall (well_formed_levels (@def_levels Z)) two_batches).
  { repeat constructor; cbn; try lia; vm_compute; discriminate. }
  assert (H4 : Forall (well_formed_levels (@rep_levels Z)) two_batches).
  { repeat constructor; cbn; try lia; vm_compute; discriminate. }
  assert (H5 : since_last_cut two_batches [] small_page_writer =
               skipn 1 two_batches) by (vm_compute; reflexivity).
  split; [exact H1|]. split; [exact H2|]. split; [exact H3|].
  split; [exact H4|]. split; [exact H5|].
  pose proof (buffered_levels_read_back _ _ _ _ _ _ _ _ H1 H2) as H.
  cbv zeta in H. rewrite H5 in H. destruct H as (Hdef & Hrep).
  destruct (Hdef ltac:(cbn; lia) H3) as [Hd Hdn].
  destruct (Hrep ltac:(cbn; lia) H4) as [Hr _].
  split; [exact Hd|]. split; [exact Hr|]. split; [exact Hdn|].
  vm_compute. reflexivity.
Defined.

Lemma WriteMiniBatchSpaced_of_required_column_witness :
  is_optional (descr_ (required_writer 2)) = false /\
  page_statistics_ (required_writer 2) = None /\
  WriteMiniBatchSpaced 2 [] [] [0] 0 [10; 20] (required_writer 2) =
  Ret (2, 2) (state_of (WriteMiniBatch 2 [] [] [10; 20] (required_writer 2))).
Proof.
  split; [reflexivity|]. split; [reflexivity|].
  rewrite (WriteMiniBatchSpaced_of_required_column (required_writer 2) 2 [] []
             [0] 0 [10; 20] eq_refl eq_refl).
  vm_compute. reflexivity.
Defined.

Lemma WriteBatch_counts_rows_witness :
  stats_ok chunking_writer /\
  0 < write_batch_size (properties_ chunking_writer) /\ 0 <= 5 < 2 ^ 31 /\
  WriteBatch 5 five_entries_def five_entries_rep five_entries_values
    chunking_writer =
  Ret tt (state_of (WriteBatch 5 five_entries_def five_entries_rep
                      five_entries_values chunking_writer)) /\
  num_rows_ (state_of (WriteBatch 5 five_entries_def five_entries_rep
                         five_entries_values chunking_writer)) = 3.
Proof.
  assert (H1 : stats_ok chunking_writer) by (vm_compute; exact I).
  assert (H2 : 0 < write_batch_size (properties_ chunking_writer))
    by reflexivity.
  assert (H3 : 0 <= 5 < 2 ^ 31) by (split; [discriminate | reflexivity]).
  assert (H4 : WriteBatch 5 five_entries_def five_entries_rep
                 five_entries_values chunking_writer =
               Ret tt (state_of (WriteBatch 5 five_entries_def five_entries_rep
                                   five_entries_values chunking_writer)))
    by (vm_compute; reflexivity).
  split; [exact H1|]. split; [exact H2|]. split; [exact H3|].
  split; [exact H4|].
  rewrite (proj1 (WriteBatch_counts_rows _ _ _ _ _ _ H1 H2 H3 H4)).
  vm_compute. reflexivity.
Defined.

Lemma WriteBatchSpaced_counts_rows_witness :
  stats_ok chunking_writer /\
  0 < write_batch_size (properties_ chunking_writer) /\ 0 <= 5 < 2 ^ 31 /\
  WriteBatchSpaced 5 five_entries_def five_entries_rep five_entries_valid 0
    five_entries_slots chunking_writer =
  Ret tt (state_of (WriteBatchSpaced 5 five_entries_def five_entries_rep
                      five_entries_valid 0 five_entries_slots
                      chunking_writer)) /\
  num_rows_ (state_of (WriteBatchSpaced 5 five_entries_def five_entries_rep
                         five_entries_valid 0 five_entries_slots
                         chunking_writer)) = 3.
Proof.
  assert (H1 : stats_ok chunking_writer) by (vm_compute; exact I).
  assert (H2 : 0 < write_batch_size (properties_ chunking_writer))
    by reflexivity.
  assert (H3 : 0 <= 5 < 2 ^ 31) by (split; [discriminate | reflexivity]).
  assert (H4 : WriteBatchSpaced 5 five_entries_def five_entries_rep
                 five_entries_valid 0 five_entries_slots chunking_writer =
               Ret tt (state_of (WriteBatchSpaced 5 five_entries_def
                                   five_entries_rep five_entries_valid 0
                                   five_entries_slots chunking_writer)))
    by (vm_compute; reflexivity).
  split; [exact H1|]. split; [exact H2|]. split; [exact H3|].
  split; [exact H4|].
  rewrite (proj1 (WriteBatchSpaced_counts_rows _ _ _ _ _ _ _ _ H1 H2 H3 H4)).
  vm_compute. reflexivity.
Defined.

Lemma WriteBatch_below_batch_size_witness :
  0 <= 2 < write_batch_size (properties_ (required_writer 2)) /\
  WriteBatch 2 [] [] [10; 20] (required_writer 2) =
  Ret tt (state_of (WriteMiniBatch 2 [] [] [10; 20] (required_writer 2))).
Proof.
  assert (H : 0 <= 2 < write_batch_size (properties_ (required_writer 2)))
    by (split; [discriminate | reflexivity]).
  split; [exact H|].
  rewrite (WriteBatch_below_batch_size (required_writer 2) 2 [] [] [10; 20] H).
  vm_compute. reflexivity.
Defined.

Lemma WriteBatch_refuses_rows_over_budget_witness :
  stats_ok (required_writer 2) /\
  0 < write_batch_size (properties_ (required_writer 2)) /\
  0 <= 3 < 2 ^ 31 /\
  num_rows_ (required_writer 2) + rows_in_batch (required_writer 2) 3 [] >
  expected_rows_ (required_writer 2) /\
  WriteBatch 3 [] [] [1; 2; 3] (required_writer 2) =
  Raise row_budget_error refused_writer /\
  num_rows_ refused_writer > expected_rows_ refused_writer.
Proof.
  assert (H1 : stats_ok (required_writer 2)) by (vm_compute; exact I).
  assert (H2 : 0 < write_batch_size (properties_ (required_writer 2)))
    by (vm_compute; reflexivity).
  assert (H3 : 0 <= 3 < 2 ^ 31) by lia.
  assert (H4 : num_rows_ (required_writer 2) +
               rows_in_batch (required_writer 2) 3 [] >
               expected_rows_ (required_writer 2))
    by (vm_compute; reflexivity).
  assert (H5 : WriteBatch 3 [] [] [1; 2; 3] (required_writer 2) =
               Raise row_budget_error refused_writer)
    by (vm_compute; reflexivity).
  split; [exact H1|]. split; [exact H2|]. split; [exact H3|].
  split; [exact H4|]. split; [exact H5|].
  destruct (WriteBatch_refuses_rows_over_budget _ 3 [] [] [] 0 [1; 2; 3]
              H1 H2 H3 H4) as (_ & _ & Hfail).
  exact (Hfail _ _ (or_introl H5) eq_refl).
Defined.

Lemma write_calls_keep_configuration_witness :
  stats_ok (dictionary_writer 8 2) /\
  same_configuration (dictionary_writer 8 2)
    (after_calls falling_back (dictionary_writer 8 2)).
Proof.
  assert (H1 : stats_ok (dictionary_writer 8 2)) by (vm_compute; exact I).
  split; [exact H1|].
  exact (proj1 (write_calls_keep_configuration _ falling_back H1)).
Defined.

Lemma pages_deferred_for_dictionary_only_witness :
  TypedColumnWriter_new (column 0 0) fresh_pager 4 Encoding.PLAIN_DICTIONARY
    (properties Encoding.PLAIN true 8 2) tt =
  Ret (dictionary_writer 8 2) tt /\
  fallback_ (after_calls falling_back (dictionary_writer 8 2)) = true /\
  data_pages_ (after_calls falling_back (dictionary_writer 8 2)) = [] /\
  data_pages_ (state_of (Close (after_calls falling_back
                                  (dictionary_writer 8 2)))) = [].
Proof.
  assert (H1 : TypedColumnWriter_new (column 0 0) fresh_pager 4
                 Encoding.PLAIN_DICTIONARY
                 (properties Encoding.PLAIN true 8 2) tt =
               Ret (dictionary_writer 8 2) tt) by reflexivity.
  assert (H2 : fallback_ (after_calls falling_back (dictionary_writer 8 2)) =
               true) by (vm_compute; reflexivity).
  split; [exact H1|]. split; [exact H2|].
  destruct (pages_deferred_for_dictionary_only _ _ _ _ _ _ falling_back H1)
    as [Hq Hclose].
  split; [exact (Hq (or_intror H2)) | exact Hclose].
Defined.

Lemma encoding_changes_only_at_fallback_witness :
  stats_ok (dictionary_writer 8 2) /\
  encoding_kept_or_fallen_back (dictionary_writer 8 2)
    (after_calls falling_back (dictionary_writer 8 2)) /\
  encoding_ (dictionary_writer 8 2) = Encoding.PLAIN_DICTIONARY /\
  encoding_ (after_calls falling_back (dictionary_writer 8 2)) =
  Encoding.PLAIN.
Proof.
  assert (H1 : stats_ok (dictionary_writer 8 2)) by (vm_compute; exact I).
  split; [exact H1|].
  split; [exact (proj1 (encoding_changes_only_at_fallback _ falling_back H1))|].
  split; vm_compute; reflexivity.
Defined.

Lemma Close_leaves_nothing_buffered_witness :
  stats_ok buffered_writer /\ closed_ buffered_writer = false /\
  0 <= num_buffered_values_ buffered_writer /\
  num_buffered_values_ buffered_writer = 6 /\
  num_buffered_values_ (state_of (Close buffered_writer)) = 0 /\
  data_pages_ (state_of (Close buffered_writer)) = [] /\
  closed_with (pager_ (state_of (Close buffered_writer))) =
  Some (has_dictionary_ buffered_writer, fallback_ buffered_writer) /\
  closed_ (state_of (Close buffered_writer)) = true.
Proof.
  assert (H1 : stats_ok buffered_writer) by (vm_compute; exact I).
  assert (H2 : closed_ buffered_writer = false) by (vm_compute; reflexivity).
  assert (H3 : 0 <= num_buffered_values_ buffered_writer)
    by (vm_compute; discriminate).
  split; [exact H1|]. split; [exact H2|]. split; [exact H3|].
  split; [vm_compute; reflexivity|].
  exact (Close_leaves_nothing_buffered buffered_writer H1 H2 H3).
Defined.

Lemma AddDataPage_statistics_witness :
  TypedColumnWriter_new (column 0 0) fresh_pager 3 Encoding.PLAIN
    statistics_properties tt = Ret new_statistics_writer tt /\
  stats_ok statistics_writer /\
  exists w' page,
    AddDataPage statistics_writer = Ret tt w' /\
    sink w' = [DataPage page] /\
    min_max (dp_statistics page) = Some (10, 30) /\
    chunk_statistics_ w' =
      Some {| min_max := Some (10, 30); null_count := 0;
              non_null_count := 3 |} /\
    page_statistics_ w' = Some stats_empty.
Proof.
  split; [reflexivity|].
  assert (H1 : stats_ok statistics_writer) by (vm_compute; exact I).
  split; [exact H1|].
  destruct (AddDataPage_statistics statistics_writer H1)
    as (w' & page & Hrun & Hwhere & Hstats & Hflow).
  exists w', page. split; [exact Hrun|].
  vm_compute in Hwhere. split; [exact Hwhere|].
  rewrite Hstats. split; [vm_compute; reflexivity|].
  vm_compute in Hflow. exact Hflow.
Defined.
Lemma statistics_reach_metadata_at_close_witness :
  stats_ok new_statistics_writer /\ closed_ new_statistics_writer = false /\
  metadata_ (after_calls [CallWriteBatch 3 [] [] [30; 10; 20]]
               new_statistics_writer) = None /\
  metadata_ (state_of (Close (after_calls [CallWriteBatch 3 [] [] [30; 10; 20]]
                                new_statistics_writer))) =
    Some {| min_max := Some (10, 30); null_count := 0;
            non_null_count := 3 |}.
Proof.
  assert (H1 : stats_ok new_statistics_writer) by (vm_compute; exact I).
  assert (H2 : closed_ new_statistics_writer = false)
    by (vm_compute; reflexivity).
  split; [exact H1|]. split; [exact H2|].
  destruct (statistics_reach_metadata_at_close new_statistics_writer
              [CallWriteBatch 3 [] [] [30; 10; 20]] H1 H2) as [Hkept Hset].
  split; [exact Hkept|].
  rewrite Hset. vm_compute. reflexivity.
Defined.

End Int32Checks.
